(** * fast_gmail.message: a shallow embedding and its verified properties

    The development follows [src/fast_gmail/message.py]: the MIME part tree
    ([MessagePart]), attachments ([Attachment]) and the message facade
    ([Message]) with its content extraction, header-derived views and label
    edits.  Python exceptions are values of [exn]; a computation that may raise
    returns a [result]; calls to the Gmail service are answered by an oracle
    carried in [GoogleService] and recorded in a trace of [call]s. *)

From Stdlib Require Import ZArith Ascii String List Lia.
From stdpp Require Import gmap strings list fin_maps.

Local Open Scope Z_scope.
Local Open Scope nat_scope.

(** ** Exceptions and results *)

Inductive exn : Type :=
| TypeError (msg : string)
| ValueError (msg : string)
| AttributeError (msg : string)
| KeyError (key : string)
| IndexError (msg : string)
| BinasciiError (msg : string)
| UnicodeDecodeError (msg : string)
| HttpError (status : Z) (reason : string)
| FileExistsError (path : string).

Inductive result (A : Type) : Type :=
| Ok (a : A)
| Raise (e : exn).

Arguments Ok {A} a.
Arguments Raise {A} e.

#[global] Instance result_ret : MRet result := fun A a => Ok a.
#[global] Instance result_bind : MBind result := fun A B f m =>
  match m with
  | Ok a => f a
  | Raise e => Raise e
  end.

#[global] Instance result_fmap : FMap result := fun A B f m =>
  match m with
  | Ok a => Ok (f a)
  | Raise e => Raise e
  end.

(** ** The Python built-ins the module relies on

    A Python [str] is a Rocq [string] holding the text in UTF-8; the
    separators the module splits on are ASCII, so the byte-wise operations
    below agree with Python's code-point-wise ones. *)

Module Py.

(** Truthiness of an [Optional[str]]: [None] and the empty string are falsy. *)
Definition truthy (o : option string) : bool :=
  match o with
  | Some (String _ _) => true
  | _ => false
  end.

Definition str_truthy (s : string) : bool :=
  match s with
  | String _ _ => true
  | EmptyString => false
  end.

(** The one-character text made of a double quote. *)
Definition DQUOTE : string := String "034"%char EmptyString.

(** [sub in s] *)
Fixpoint contains (sub s : string) : bool :=
  String.prefix sub s ||
  match s with
  | EmptyString => false
  | String _ s' => contains sub s'
  end.

(** [s.split(sep)] for a non-empty [sep]: leftmost, non-overlapping cuts.
    [skip] counts the characters of a separator still to be passed over. *)
Fixpoint split_from (sep : string) (skip : nat) (s : string) : list string :=
  match s with
  | EmptyString => [EmptyString]
  | String c s' =>
      match skip with
      | S k => split_from sep k s'
      | O =>
          if String.prefix sep s
          then EmptyString :: split_from sep (String.length sep - 1) s'
          else match split_from sep O s' with
               | piece :: rest => String c piece :: rest
               | [] => [String c EmptyString]
               end
      end
  end.

Definition split (sep s : string) : list string := split_from sep O s.

(** [sep.join(pieces)] *)
Fixpoint join (sep : string) (pieces : list string) : string :=
  match pieces with
  | [] => EmptyString
  | [p] => p
  | p :: ps => p +:+ sep +:+ join sep ps
  end.

(** [s.replace(old, new)] for a non-empty [old]. *)
Fixpoint replace_from (old new : string) (skip : nat) (s : string) : string :=
  match s with
  | EmptyString => EmptyString
  | String c s' =>
      match skip with
      | S k => replace_from old new k s'
      | O =>
          if String.prefix old s
          then new +:+ replace_from old new (String.length old - 1) s'
          else String c (replace_from old new O s')
      end
  end.

Definition replace (old new s : string) : string := replace_from old new O s.

(** Length in bytes of the white-space character (Python's [str.isspace])
    that starts [s], or [0] when [s] does not start with one.  Beyond
    ASCII these are U+0085, U+00A0, U+1680, U+2000..U+200A, U+2028, U+2029,
    U+202F, U+205F and U+3000, in UTF-8. *)
Definition space_prefix (s : string) : nat :=
  match s with
  | String c s1 =>
      let n := nat_of_ascii c in
      if ((9 <=? n) && (n <=? 13)) || ((28 <=? n) && (n <=? 32)) then 1
      else match s1 with
           | String d s2 =>
               let m := nat_of_ascii d in
               if (n =? 194) && ((m =? 133) || (m =? 160)) then 2
               else match s2 with
                    | String e _ =>
                        let k := nat_of_ascii e in
                        if (n =? 225) && (m =? 154) && (k =? 128) then 3
                        else if (n =? 226) && (m =? 128) &&
                                (((128 <=? k) && (k <=? 138)) ||
                                 (k =? 168) || (k =? 169) || (k =? 175)) then 3
                        else if (n =? 226) && (m =? 129) && (k =? 159) then 3
                        else if (n =? 227) && (m =? 128) && (k =? 128) then 3
                        else 0
                    | EmptyString => 0
                    end
           | EmptyString => 0
           end
  | EmptyString => 0
  end.

Fixpoint drop (n : nat) (s : string) : string :=
  match n, s with
  | S k, String _ s' => drop k s'
  | _, _ => s
  end.

(** [s.lstrip()]; [fuel] bounds the number of characters removed. *)
Fixpoint lstrip_fuel (fuel : nat) (s : string) : string :=
  match fuel with
  | O => s
  | S f =>
      match space_prefix s with
      | O => s
      | n => lstrip_fuel f (drop n s)
      end
  end.

Definition lstrip (s : string) : string := lstrip_fuel (String.length s) s.

(** The same test read from the end of the text: [r] is the text reversed. *)
Definition space_suffix_rev (r : string) : nat :=
  match r with
  | String c r1 =>
      let n := nat_of_ascii c in
      if ((9 <=? n) && (n <=? 13)) || ((28 <=? n) && (n <=? 32)) then 1
      else match r1 with
           | String d r2 =>
               if space_prefix (String d (String c EmptyString)) =? 2 then 2
               else match r2 with
                    | String e _ =>
                        if space_prefix (String e (String d (String c EmptyString))) =? 3
                        then 3 else 0
                    | EmptyString => 0
                    end
           | EmptyString => 0
           end
  | EmptyString => 0
  end.

Fixpoint rstrip_rev_fuel (fuel : nat) (r : string) : string :=
  match fuel with
  | O => r
  | S f =>
      match space_suffix_rev r with
      | O => r
      | n => rstrip_rev_fuel f (drop n r)
      end
  end.

Definition rev (s : string) : string :=
  string_of_list_ascii (List.rev (list_ascii_of_string s)).

Definition rstrip (s : string) : string :=
  rev (rstrip_rev_fuel (String.length s) (rev s)).

(** The characters of a text: a byte [10xxxxxx] continues the character
    before it. *)
Fixpoint chars_aux (s : string) : string * list string :=
  match s with
  | EmptyString => (EmptyString, [])
  | String c s' =>
      let '(pending, l) := chars_aux s' in
      let n := nat_of_ascii c in
      if (128 <=? n) && (n <=? 191) then (String c pending, l)
      else (EmptyString, String c pending :: l)
  end.

Definition chars (s : string) : list string :=
  match chars_aux s with
  | (EmptyString, l) => l
  | (pending, l) => pending :: l
  end.

(** [s.strip()] *)
Definition strip (s : string) : string := rstrip (lstrip s).

End Py.

(** ** The library functions the module calls

    [base64.urlsafe_b64decode], [bytes.decode("utf-8")] and
    [datetime.strptime] belong to Python's standard library, not to this
    repository.  The embedding is parametric in them; [cpython] below is an
    instance used to run the code on concrete messages. *)

Record datetime : Type := mk_datetime {
  year : Z; month : Z; day : Z;
  hour : Z; minute : Z; second : Z;
  utcoffset : option Z   (* seconds east of UTC; [None] for a naive value *)
}.

Class PyLib : Type := {
  urlsafe_b64decode : string -> result string;
  utf8_decode : string -> result string;
  strptime : string -> string -> result datetime
}.

(** [base64.urlsafe_b64decode(s)] where [s] may be [None]. *)
Definition b64decode_arg `{PyLib} (s : option string) : result string :=
  match s with
  | None => Raise (TypeError "argument should be a bytes-like object or ASCII string, not 'NoneType'")
  | Some d => urlsafe_b64decode d
  end.

Module CPython.

(** [binascii.a2b_base64] without strict mode, after the translation of
    the URL-safe alphabet: characters outside the alphabet are skipped, a
    pad that completes a quad ends the input. *)
Definition b64_value (c : ascii) : option nat :=
  let n := nat_of_ascii c in
  if (65 <=? n) && (n <=? 90) then Some (n - 65)
  else if (97 <=? n) && (n <=? 122) then Some (n - 97 + 26)
  else if (48 <=? n) && (n <=? 57) then Some (n - 48 + 52)
  else if (n =? 43) || (n =? 45) then Some 62     (* '+' and '-' *)
  else if (n =? 47) || (n =? 95) then Some 63     (* '/' and '_' *)
  else None.

Definition byte (n : nat) : ascii := ascii_of_nat (n mod 256).

Fixpoint a2b_loop (s : string) (quad_pos leftchar pads : nat) : result string :=
  match s with
  | EmptyString =>
      match quad_pos with
      | 0 => Ok EmptyString
      | 1 => Raise (BinasciiError "Invalid base64-encoded string: number of data characters cannot be 1 more than a multiple of 4")
      | _ => Raise (BinasciiError "Incorrect padding")
      end
  | String c s' =>
      if Ascii.eqb c "="%char then
        if (2 <=? quad_pos) then
          if (4 <=? quad_pos + S pads) then Ok EmptyString
          else a2b_loop s' quad_pos leftchar (S pads)
        else a2b_loop s' quad_pos leftchar pads
      else
        match b64_value c with
        | None => a2b_loop s' quad_pos leftchar pads
        | Some v =>
            match quad_pos with
            | 0 => a2b_loop s' 1 v 0
            | 1 => rest ← a2b_loop s' 2 (v mod 16) 0;
                   mret (String (byte (leftchar * 4 + v / 16)) rest)
            | 2 => rest ← a2b_loop s' 3 (v mod 4) 0;
                   mret (String (byte (leftchar * 16 + v / 4)) rest)
            | _ => rest ← a2b_loop s' 0 0 0;
                   mret (String (byte (leftchar * 64 + v)) rest)
            end
        end
  end.

Fixpoint is_ascii (s : string) : bool :=
  match s with
  | EmptyString => true
  | String c s' => (nat_of_ascii c <? 128) && is_ascii s'
  end.

Definition urlsafe_b64decode (s : string) : result string :=
  if is_ascii s then a2b_loop s 0 0 0
  else Raise (ValueError "string argument should contain only ASCII characters").

(** Strict UTF-8 validation (the well-formed byte sequences of the Unicode
    standard); the text keeps its UTF-8 representation.  [pending] lists
    the ranges the next continuation bytes must fall in. *)
Definition utf8_lead (n : nat) : option (list (nat * nat)) :=
  if n <? 128 then Some []
  else if (194 <=? n) && (n <=? 223) then Some [(128, 191)]
  else if n =? 224 then Some [(160, 191); (128, 191)]
  else if ((225 <=? n) && (n <=? 236)) || (n =? 238) || (n =? 239)
       then Some [(128, 191); (128, 191)]
  else if n =? 237 then Some [(128, 159); (128, 191)]
  else if n =? 240 then Some [(144, 191); (128, 191); (128, 191)]
  else if (241 <=? n) && (n <=? 243) then Some [(128, 191); (128, 191); (128, 191)]
  else if n =? 244 then Some [(128, 143); (128, 191); (128, 191)]
  else None.

Fixpoint utf8_valid (pending : list (nat * nat)) (s : string) : bool :=
  match s with
  | EmptyString => match pending with [] => true | _ => false end
  | String c s' =>
      let n := nat_of_ascii c in
      match pending with
      | (lo, hi) :: more => (lo <=? n) && (n <=? hi) && utf8_valid more s'
      | [] => match utf8_lead n with
              | Some more => utf8_valid more s'
              | None => false
              end
      end
  end.

Definition utf8_decode (s : string) : result string :=
  if utf8_valid [] s then Ok s
  else Raise (UnicodeDecodeError "'utf-8' codec can't decode bytes").

(** [datetime.strptime(s, "%a, %d %b %Y %H:%M:%S %z")] in the C locale,
    following the regular expression [_strptime] builds for that pattern:
    names match without regard to case, a blank of the pattern matches one
    or more white-space characters, and the whole text must be consumed.
    The model reads ASCII letters and digits, and rejects an offset that
    carries a fraction of a second. *)
Definition DATE_PATTERN : string := "%a, %d %b %Y %H:%M:%S %z".

Definition lower (c : ascii) : ascii :=
  let n := nat_of_ascii c in
  if (65 <=? n) && (n <=? 90) then ascii_of_nat (n + 32) else c.

Definition take3_lower (s : string) : option (string * string) :=
  match s with
  | String a (String b (String c r)) =>
      Some (String (lower a) (String (lower b) (String (lower c) EmptyString)), r)
  | _ => None
  end.

Definition weekday_names : list string :=
  ["mon"; "tue"; "wed"; "thu"; "fri"; "sat"; "sun"].

Definition month_names : list string :=
  ["jan"; "feb"; "mar"; "apr"; "may"; "jun";
   "jul"; "aug"; "sep"; "oct"; "nov"; "dec"].

Fixpoint index_of (x : string) (l : list string) (i : Z) : option Z :=
  match l with
  | [] => None
  | y :: l' => if String.eqb x y then Some i else index_of x l' (i + 1)%Z
  end.

Definition digit_val (c : ascii) : option Z :=
  let n := nat_of_ascii c in
  if (48 <=? n) && (n <=? 57) then Some (Z.of_nat (n - 48)) else None.

Definition literal (c : ascii) (s : string) : option string :=
  match s with
  | String d r => if Ascii.eqb c d then Some r else None
  | EmptyString => None
  end.

Fixpoint spaces_fuel (fuel : nat) (s : string) : string :=
  match fuel with
  | O => s
  | S f => match Py.space_prefix s with
           | O => s
           | n => spaces_fuel f (Py.drop n s)
           end
  end.

(** [\s+] *)
Definition spaces (s : string) : option string :=
  match Py.space_prefix s with
  | O => None
  | _ => Some (spaces_fuel (String.length s) s)
  end.

(** A numeric field: the two-digit alternatives of the directive are tried
    before its one-digit alternative. *)
Definition number (two_ok : Z -> Z -> bool) (one_ok : Z -> bool) (s : string)
  : option (Z * string) :=
  match s with
  | String a r =>
      match digit_val a with
      | None => None
      | Some x =>
          let one := if one_ok x then Some (x, r) else None in
          match r with
          | String b r' =>
              match digit_val b with
              | Some y => if two_ok x y then Some (10 * x + y, r')%Z else one
              | None => one
              end
          | EmptyString => one
          end
      end
  | EmptyString => None
  end.

Definition field_d := number (fun x y => ((x =? 3) && (y <=? 1)) || (x =? 1) || (x =? 2)
                                         || ((x =? 0) && (1 <=? y)))%Z
                             (fun x => 1 <=? x)%Z.
Definition field_H := number (fun x y => ((x =? 2) && (y <=? 3)) || (x <=? 1))%Z
                             (fun _ => true).
Definition field_M := number (fun x _ => x <=? 5)%Z (fun _ => true).
Definition field_S := number (fun x y => ((x =? 6) && (y <=? 1)) || (x <=? 5))%Z
                             (fun _ => true).

Definition two_digits (s : string) : option (Z * string) :=
  match s with
  | String a (String b r) =>
      x ← digit_val a; y ← digit_val b; Some (10 * x + y, r)%Z
  | _ => None
  end.

Definition field_Y (s : string) : option (Z * string) :=
  '(hi, s1) ← two_digits s; '(lo, s2) ← two_digits s1; Some (100 * hi + lo, s2)%Z.

Definition minutes_like (s : string) : option (Z * string) :=
  '(v, r) ← two_digits s; if (v <=? 59)%Z then Some (v, r) else None.

(** [%z]: [Z], or a sign, hours and minutes, then optional seconds; a colon
    before the minutes asks for one before the seconds. Seconds east of UTC. *)
Definition field_z (s : string) : option Z :=
  match s with
  | String c r =>
      if String.eqb s "Z" then Some 0%Z
      else
        let sign := if Ascii.eqb c "+"%char then Some 1%Z
                    else if Ascii.eqb c "-"%char then Some (-1)%Z else None in
        sg ← sign;
        '(hh, r1) ← two_digits r;
        let '(colon, r2) := match literal ":"%char r1 with
                            | Some r2 => (true, r2)
                            | None => (false, r1)
                            end in
        '(mm, r3) ← minutes_like r2;
        match r3 with
        | EmptyString => Some (sg * (hh * 3600 + mm * 60))%Z
        | _ =>
            let '(colon', r4) := match literal ":"%char r3 with
                                 | Some r4 => (true, r4)
                                 | None => (false, r3)
                                 end in
            '(ss, r5) ← minutes_like r4;
            match r5 with
            | EmptyString =>
                if Bool.eqb colon colon'
                then Some (sg * (hh * 3600 + mm * 60 + ss))%Z else None
            | _ => None
            end
        end
  | EmptyString => None
  end.

Definition is_leap (y : Z) : bool :=
  ((y mod 4 =? 0) && (negb (y mod 100 =? 0) || (y mod 400 =? 0)))%Z.

Definition days_in_month (y m : Z) : Z :=
  (if m =? 2 then (if is_leap y then 29 else 28)
   else if (m =? 4) || (m =? 6) || (m =? 9) || (m =? 11) then 30 else 31)%Z.

Definition parse_fields (s : string) : option datetime :=
  '(wd, s) ← take3_lower s;
  _ ← index_of wd weekday_names 0%Z;
  s ← literal ","%char s;
  s ← spaces s;
  '(d, s) ← field_d s;
  s ← spaces s;
  '(mn, s) ← take3_lower s;
  mo ← index_of mn month_names 1%Z;
  s ← spaces s;
  '(y, s) ← field_Y s;
  s ← spaces s;
  '(h, s) ← field_H s;
  s ← literal ":"%char s;
  '(mi, s) ← field_M s;
  s ← literal ":"%char s;
  '(sec, s) ← field_S s;
  s ← spaces s;
  off ← field_z s;
  Some (mk_datetime y mo d h mi sec (Some off)).

Definition strptime (s format : string) : result datetime :=
  if String.eqb format DATE_PATTERN then
    match parse_fields s with
    | None => Raise (ValueError "time data does not match format")
    | Some t =>
        if ((1 <=? year t) && (day t <=? days_in_month (year t) (month t))
            && (second t <=? 59)
            && match utcoffset t with
               | Some off => (Z.abs off <? 86400)
               | None => true
               end)%Z
        then Ok t
        else Raise (ValueError "value out of range")
    end
  else Raise (ValueError "pattern outside the model").

End CPython.

Definition cpython : PyLib := {|
  urlsafe_b64decode := CPython.urlsafe_b64decode;
  utf8_decode := CPython.utf8_decode;
  strptime := CPython.strptime
|}.

(** ** The service object

    Modelled from the spec: [fast_gmail.helpers.GoogleService] is not part of
    the sources at hand.  The spec (section 6) treats it as an opaque
    collaborator with the operations [get_attachment (user_id, message_id,
    attachment_id) -> {data}] and [modify_message (user_id, message_id,
    {addLabelIds, removeLabelIds}) -> ack]; here each is an oracle that
    answers a request with a response or an exception.  [service.close()] is
    taken not to raise. *)

(** The body of a [users().messages().modify] request: a key that the code
    does not set is absent. *)
Record ModifyBody : Type := mk_modify {
  removeLabelIds : option (list string);
  addLabelIds : option (list string)
}.

(** The resource [users().messages().attachments().get] answers with. *)
Record BodyResource : Type := mk_body_resource {
  res_size : option Z;
  res_attachmentId : option string;
  res_data : option string
}.

Record GoogleService : Type := mk_service {
  user_id : string;
  message_id : option string;
  attachments_get : string -> string -> string -> result (option BodyResource);
  messages_modify : string -> option string -> ModifyBody -> result unit
}.

(** What reaches the service, in order. *)
Inductive call : Type :=
| AttachmentsGet (userId messageId id : string)
| MessagesModify (userId : string) (id : option string) (body : ModifyBody)
| ServiceClose.

(** ** MessagePartBody, MessageHeader *)

Module MessagePartBody.
Record t : Type := mk {
  size : Z;
  attachmentId : option string;
  data : option string
}.

(** The constructor of the dataclass, from the JSON of a body: [size] has
    no default. *)
Definition __init__ (kwargs : BodyResource) : result t :=
  match res_size kwargs with
  | Some n => Ok (mk n (res_attachmentId kwargs) (res_data kwargs))
  | None => Raise (TypeError "__init__() missing 1 required positional argument: 'size'")
  end.
End MessagePartBody.

(** The JSON of a header: either key may be absent. *)
Record HeaderResource : Type := mk_header_resource {
  res_name : option string;
  res_value : option string
}.

Module MessageHeader.
Record t : Type := mk {
  name : string;
  value : string
}.

(** The constructor of the dataclass, from the JSON of a header: neither
    field has a default. *)
Definition __init__ (kwargs : HeaderResource) : result t :=
  match res_name kwargs, res_value kwargs with
  | Some n, Some v => Ok (mk n v)
  | None, Some _ =>
      Raise (TypeError "__init__() missing 1 required positional argument: 'name'")
  | Some _, None =>
      Raise (TypeError "__init__() missing 1 required positional argument: 'value'")
  | None, None =>
      Raise (TypeError
               "__init__() missing 2 required positional arguments: 'name' and 'value'")
  end.
End MessageHeader.

(** ** Attachment *)

Module Attachment.

Record t : Type := mk {
  filename : string;
  mimeType : string;
  part_id : option string;
  google_service : GoogleService;
  id : option string;
  data : option string
}.

Definition set_data (d : option string) (self : t) : t :=
  mk (filename self) (mimeType self) (part_id self) (google_service self) (id self) d.

(** [not res or "data" not in res]: an absent response, an empty one, or
    one without the key. *)
Definition payload_of (res : option BodyResource) : option string :=
  match res with
  | None => None
  | Some r => res_data r
  end.

Section WithLib.
Context `{PyLib}.

(** [download]: the outcome, the attachment afterwards, the calls made. *)
Definition download (self : t) : result unit * t * list call :=
  match id self with
  | Some (String _ _ as aid) =>
      if Py.truthy (data self) then (Ok (), self, [])
      else
        let svc := google_service self in
        match message_id svc with
        | Some (String _ _ as mid) =>
            let trace := [AttachmentsGet (user_id svc) mid aid; ServiceClose] in
            match attachments_get svc (user_id svc) mid aid with
            | Raise e => (Raise e, self, trace)
            | Ok res =>
                match payload_of res with
                | None => (Ok (), self, trace)
                | Some d =>
                    match urlsafe_b64decode d with
                    | Ok bytes => (Ok (), set_data (Some bytes) self, trace)
                    | Raise e => (Raise e, self, trace)
                    end
                end
            end
        | _ => (Raise (TypeError "Attachment.google_service.message_id missing"), self, [])
        end
  | _ => (Ok (), self, [])
  end.
End WithLib.

End Attachment.

(** ** MessagePart

    Every part of a message is built with the message's [google_service]
    ([MessagePart.__init__] hands it down), so the service is an argument of
    [attachments] rather than a field of each node. *)

Module MessagePart.

#[local] Unset Elimination Schemes.
Inductive t : Type := mk {
  mimeType : option string;
  headers : list MessageHeader.t;
  parts : list t;
  partId : option string;
  filename : option string;
  body : option MessagePartBody.t
}.
#[local] Set Elimination Schemes.

(** The JSON of a part as the API delivers it: any key may be absent; a
    header and a body hold no key besides those of the API. *)
#[local] Unset Elimination Schemes.
Inductive resource : Type := mk_resource {
  r_mimeType : option string;
  r_filename : option string;
  r_partId : option string;
  r_headers : option (list HeaderResource);
  r_body : option BodyResource;
  r_parts : option (list resource)
}.
#[local] Set Elimination Schemes.

Fixpoint __init__ (kwargs : resource) : result t :=
  hs ← match r_headers kwargs with
       | Some l => mapM MessageHeader.__init__ l
       | None => Ok []
       end;
  b ← match r_body kwargs with
      | Some b => Some <$> MessagePartBody.__init__ b
      | None => Ok None
      end;
  ps ← match r_parts kwargs with
       | Some l => (fix each (l : list resource) : result (list t) :=
                      match l with
                      | [] => Ok []
                      | r :: l' => p ← __init__ r; ps ← each l'; mret (p :: ps)
                      end) l
       | None => Ok []
       end;
  mret (mk (r_mimeType kwargs) hs ps (r_partId kwargs) (r_filename kwargs) b).

Definition _has_attachments (self : t) : bool :=
  if Py.truthy (filename self) then true
  else existsb (fun part => Py.truthy (filename part)) (parts self).

(** One round of the loop of [attachments]: nothing for a child without a
    file name, otherwise the attachment built from the child. *)
Definition attachment_of (svc : GoogleService) (part : t) : result (option Attachment.t) :=
  match filename part with
  | Some (String _ _ as fname) =>
      match body part with
      | None => Raise (AttributeError "'NoneType' object has no attribute 'attachmentId'")
      | Some b =>
          let mime := if Py.truthy (mimeType part) then default EmptyString (mimeType part)
                      else EmptyString in
          if Py.truthy (MessagePartBody.attachmentId b)
          then Ok (Some (Attachment.mk (Py.replace "/" "_" fname) mime (partId part) svc
                                       (MessagePartBody.attachmentId b) None))
          else Ok (Some (Attachment.mk (Py.replace "/" "_" fname) mime (partId part) svc
                                       None (MessagePartBody.data b)))
      end
  | _ => Ok None
  end.

Fixpoint attachments_loop (svc : GoogleService) (children : list t)
                          (attachments : list Attachment.t) : result (list Attachment.t) :=
  match children with
  | [] => Ok attachments
  | part :: rest =>
      match attachment_of svc part with
      | Raise e => Raise e
      | Ok None => attachments_loop svc rest attachments
      | Ok (Some a) => attachments_loop svc rest (attachments ++ [a])
      end
  end.

Definition attachments (svc : GoogleService) (self : t) : result (list Attachment.t) :=
  if negb (_has_attachments self) then Ok []
  else attachments_loop svc (parts self) [].

Definition get_attachment_by_filename (svc : GoogleService) (fname : string) (self : t)
  : result (option Attachment.t) :=
  if negb (Py.str_truthy fname) then Ok None
  else if negb (_has_attachments self) then Ok None
  else l ← attachments svc self;
       mret (List.find (fun a => String.eqb (Attachment.filename a) fname) l).

Definition get_attachment_by_part_id (svc : GoogleService) (pid : string) (self : t)
  : result (option Attachment.t) :=
  if negb (Py.str_truthy pid) then Ok None
  else if negb (_has_attachments self) then Ok None
  else l ← attachments svc self;
       mret (List.find (fun a => bool_decide (Attachment.part_id a = Some pid)) l).

(** [get_header] answers with a header, with nothing, or (for an empty
    key) with the whole list. *)
Inductive header_lookup : Type :=
| NoHeader
| OneHeader (h : MessageHeader.t)
| AllHeaders (hs : list MessageHeader.t).

Definition get_header (key : string) (self : t) : header_lookup :=
  match headers self with
  | [] => NoHeader
  | hs =>
      if negb (Py.str_truthy key) then AllHeaders hs
      else match List.find (fun h => String.eqb key (MessageHeader.name h)) hs with
           | Some h => OneHeader h
           | None => NoHeader
           end
  end.

End MessagePart.

(** ** Labels

    Modelled from the spec: the enumerations [Labels] and [LabelAction] of
    [fast_gmail.helpers] are not part of the sources at hand.  The spec names
    the well-known label identifiers UNREAD, STARRED, IMPORTANT, SPAM, DRAFT,
    TRASH and INBOX (Gmail's own identifiers) and the three actions ADD,
    REMOVE and TOGGLE; [OTHER] stands for any value that is none of the
    three, which the wildcard arms of [_edit_labels] answer. *)

Module Labels.
Definition UNREAD : string := "UNREAD".
Definition STARRED : string := "STARRED".
Definition IMPORTANT : string := "IMPORTANT".
Definition SPAM : string := "SPAM".
Definition DRAFT : string := "DRAFT".
Definition TRASH : string := "TRASH".
Definition INBOX : string := "INBOX".
End Labels.

Inductive LabelAction : Type := ADD | REMOVE | TOGGLE | OTHER.

(** ** Message *)

(** A value of the mapping [_content] builds: a list of texts, or (for a
    message without parts) the single text under "multipart/alternative". *)
Inductive content_value : Type :=
| Texts (l : list string)
| Text (s : string).

Module Message.

Record t : Type := mk {
  id : option string;
  snippet : option string;
  threadId : option string;
  historyId : option string;
  sizeEstimate : option Z;
  internalDate : option string;
  payload : option MessagePart.t;   (* [None]: the attribute was never set *)
  raw : option string;
  labelIds : option (list string);
  google_service : GoogleService
}.

(** The JSON of a message: any key may be absent. *)
Record resource : Type := mk_resource {
  r_id : option string;
  r_threadId : option string;
  r_snippet : option string;
  r_historyId : option string;
  r_internalDate : option string;
  r_sizeEstimate : option Z;
  r_raw : option string;
  r_labelIds : option (list string);
  r_payload : option MessagePart.resource
}.

(** The constructor, from the JSON of a message: an absent key leaves
    [None]. *)
Definition __init__ (svc : GoogleService) (kwargs : resource) : result t :=
  p ← match r_payload kwargs with
      | Some r => Some <$> MessagePart.__init__ r
      | None => Ok None
      end;
  mret (mk (r_id kwargs) (r_snippet kwargs) (r_threadId kwargs) (r_historyId kwargs)
           (r_sizeEstimate kwargs) (r_internalDate kwargs) p (r_raw kwargs)
           (r_labelIds kwargs) svc).

Definition set_labelIds (l : option (list string)) (self : t) : t :=
  mk (id self) (snippet self) (threadId self) (historyId self) (sizeEstimate self)
     (internalDate self) (payload self) (raw self) l (google_service self).

(** [self.payload] *)
Definition get_payload (self : t) : result MessagePart.t :=
  match payload self with
  | Some p => Ok p
  | None => Raise (AttributeError "'Message' object has no attribute 'payload'")
  end.

Definition message_headers (self : t) : result (option (list MessageHeader.t)) :=
  p ← get_payload self;
  match MessagePart.headers p with
  | [] => mret None
  | hs => mret (Some hs)
  end.

(** *** Content extraction *)

Definition is_text (mime : option string) : bool :=
  bool_decide (mime = Some "text/plain" ∨ mime = Some "text/html").

(** [if not key in result: result[key] = []] *)
Definition setdefault_empty (key : option string)
           (mapping : gmap (option string) content_value)
  : gmap (option string) content_value :=
  match mapping !! key with
  | Some _ => mapping
  | None => <[key := Texts []]> mapping
  end.

(** [result[key].append(text)] *)
Definition append_text (key : option string) (text : string)
           (mapping : gmap (option string) content_value)
  : result (gmap (option string) content_value) :=
  match mapping !! key with
  | Some (Texts l) => Ok (<[key := Texts (l ++ [text])]> mapping)
  | Some (Text _) => Raise (AttributeError "'str' object has no attribute 'append'")
  | None => Raise (KeyError (default "None" key))
  end.

Section WithLib.
Context `{PyLib}.

(** [base64.urlsafe_b64decode(data).decode("utf-8")] *)
Definition decode_body (data : option string) : result string :=
  bytes ← b64decode_arg data; utf8_decode bytes.

Fixpoint _extract_content (part : MessagePart.t)
         (mapping : gmap (option string) content_value)
  : result (gmap (option string) content_value) :=
  mapping ← (if negb (is_text (MessagePart.mimeType part))
             then (fix each (sub_parts : list MessagePart.t)
                       (mapping : gmap (option string) content_value) :=
                     match sub_parts with
                     | [] => Ok mapping
                     | sub_part :: rest =>
                         mapping ← _extract_content sub_part mapping;
                         each rest mapping
                     end) (MessagePart.parts part) mapping
             else Ok mapping);
  let mapping := setdefault_empty (MessagePart.mimeType part) mapping in
  match MessagePart.body part with
  | None => Ok mapping
  | Some b =>
      if negb (Py.truthy (MessagePartBody.data b)) then Ok mapping
      else text ← decode_body (MessagePartBody.data b);
           append_text (MessagePart.mimeType part) text mapping
  end.

(** The loop [for part in parts: self._extract_content(part, result)]. *)
Fixpoint extract_each (sub_parts : list MessagePart.t)
         (mapping : gmap (option string) content_value)
  : result (gmap (option string) content_value) :=
  match sub_parts with
  | [] => Ok mapping
  | sub_part :: rest =>
      mapping ← _extract_content sub_part mapping;
      extract_each rest mapping
  end.

Definition _content (self : t) : result (option (gmap (option string) content_value)) :=
  p ← get_payload self;
  match MessagePart.parts p with
  | [] =>
      let fallback : result (option (gmap (option string) content_value)) :=
        match MessagePart.body p with
        | Some b =>
            text ← decode_body (MessagePartBody.data b);
            mret (Some {[ Some "multipart/alternative" := Text text ]})
        | None => mret None
        end in
      match MessagePart.body p with
      | Some b =>
          if is_text (MessagePart.mimeType p) && Py.truthy (MessagePartBody.data b)
          then text ← decode_body (MessagePartBody.data b);
               mapping ← append_text (MessagePart.mimeType p) text
                         (setdefault_empty (MessagePart.mimeType p) ∅);
               mret (Some mapping)
          else fallback
      | None => fallback
      end
  | sub_parts => mapping ← extract_each sub_parts ∅; mret (Some mapping)
  end.

(** [" ".join(content[key])] guarded as in [html] and [plain]. *)
Definition joined (key : string) (self : t) : result string :=
  content ← _content self;
  match content with
  | None => mret EmptyString
  | Some mapping =>
      match mapping !! Some key with
      | None => mret EmptyString
      | Some (Texts l) => mret (Py.join " " l)
      | Some (Text s) =>
          mret (Py.join " " (Py.chars s))
      end
  end.

Definition html (self : t) : result string := joined "text/html" self.
Definition plain (self : t) : result string := joined "text/plain" self.
Definition alternative (self : t) : result string := joined "multipart/alternative" self.

Definition body (self : t) : result string :=
  h ← html self;
  if Py.str_truthy h then mret h else plain self.

(** *** Header-derived views *)

Definition header_value (name : string) (self : t) : result (option string) :=
  hs ← message_headers self;
  match hs with
  | None => mret None
  | Some l =>
      mret (MessageHeader.value <$>
            List.find (fun h => String.eqb (MessageHeader.name h) name) l)
  end.

Definition recipient (self : t) : result (option string) := header_value "To" self.
Definition subject (self : t) : result (option string) := header_value "Subject" self.
Definition sender_header (self : t) : result (option string) := header_value "From" self.

(** [l[1]] *)
Definition item1 (l : list string) : result string :=
  match l with
  | _ :: x :: _ => Ok x
  | _ => Raise (IndexError "list index out of range")
  end.

Definition sender (self : t) : result (option string) :=
  sender ← sender_header self;
  match sender with
  | Some (String _ _ as sender) =>
      if Py.contains Py.DQUOTE sender
      then sender ← item1 (Py.split Py.DQUOTE sender); mret (Some sender)
      else if Py.contains "<" sender
           then piece ← item1 (Py.split "<" sender);
                mret (Some (Py.replace ">" "" piece))
           else mret (Some sender)
  | _ => mret None
  end.

(** [a, b = l]: the list must hold exactly two items. *)
Definition unpack2 (l : list string) : result (string * string) :=
  match l with
  | [a; b] => Ok (a, b)
  | _ :: _ :: _ :: _ => Raise (ValueError "too many values to unpack (expected 2)")
  | _ => Raise (ValueError "not enough values to unpack (expected 2)")
  end.

Definition header_of (lookup : MessagePart.header_lookup) : result (option string) :=
  match lookup with
  | MessagePart.NoHeader => Ok None
  | MessagePart.OneHeader h => Ok (Some (MessageHeader.value h))
  | MessagePart.AllHeaders _ => Raise (AttributeError "'list' object has no attribute 'value'")
  end.

(** The date text of a "Received" value: [None] stands for the early
    [return None]. *)
Definition received_date_part (value : string) : result (option string) :=
  '(_, date_part) ← unpack2 (Py.split "; " value);
  if negb (Py.str_truthy date_part) then mret None
  else
    if Py.contains "(" date_part
    then '(date_part, _) ← unpack2 (Py.split "(" date_part);
         if negb (Py.str_truthy date_part) then mret None
         else mret (Some (Py.strip date_part))
    else mret (Some (Py.strip date_part)).

Definition date (self : t) : result (option datetime) :=
  p ← get_payload self;
  received ← header_of (MessagePart.get_header "Received" p);
  match received with
  | Some value =>
      date_part ← received_date_part value;
      match date_part with
      | None => mret None
      | Some date_part => Some <$> strptime date_part "%a, %d %b %Y %H:%M:%S %z"
      end
  | None =>
      received ← header_of (MessagePart.get_header "Date" p);
      match received with
      | None => mret None
      | Some value => Some <$> strptime value "%a, %d %b %Y %H:%M:%S %z"
      end
  end.

End WithLib.

Definition has_attachments (self : t) : result bool :=
  p ← get_payload self; mret (MessagePart._has_attachments p).

Definition attachments (self : t) : result (list Attachment.t) :=
  p ← get_payload self; MessagePart.attachments (google_service self) p.

Definition get_attachment (filename id : option string) (self : t)
  : result (option Attachment.t) :=
  has ← has_attachments self;
  if negb has then mret None
  else
    p ← get_payload self;
    match filename with
    | Some (String _ _ as fname) =>
        MessagePart.get_attachment_by_filename (google_service self) fname p
    | _ =>
        match id with
        | Some pid => MessagePart.get_attachment_by_part_id (google_service self) pid p
        | None => mret None
        end
    end.

(** *** Label flags: read from [labelIds] alone *)

Definition has_label (label : string) (self : t) : bool :=
  match labelIds self with
  | None | Some [] => false
  | Some l => bool_decide (label ∈ l)
  end.

Definition is_unread : t -> bool := has_label Labels.UNREAD.
Definition is_starred : t -> bool := has_label Labels.STARRED.
Definition is_important : t -> bool := has_label Labels.IMPORTANT.
Definition is_spam : t -> bool := has_label Labels.SPAM.
Definition is_draft : t -> bool := has_label Labels.DRAFT.
Definition is_trash : t -> bool := has_label Labels.TRASH.

(** *** Label edits

    An operation answers with its outcome, the message afterwards and the
    calls it made.

    A list of labels handed to an edit is a list object.  It is either an
    object of its own ([ListOf]), which the edit only reads, or the very
    object the message holds as [labelIds] ([OwnList], as in
    [m.remove_labels(m.labelIds)]), which the edit changes while it walks
    through it. *)
Inductive label_list : Type :=
| ListOf (l : list string)
| OwnList.

(** What an argument holds while the message's label list is [ids]; [None]
    is Python's [None]. *)
Definition contents (ids : option (list string)) (labels : option label_list)
  : option (list string) :=
  match labels with
  | None => None
  | Some (ListOf l) => Some l
  | Some OwnList => ids
  end.

(** [[x for x in labels]] *)
Definition iterate (labels : option (list string)) : result (list string) :=
  match labels with
  | Some l => Ok l
  | None => Raise (TypeError "'NoneType' object is not iterable")
  end.

Definition request_body (action : LabelAction) (add remove : option (list string))
  : result (option ModifyBody) :=
  match action with
  | REMOVE => r ← iterate remove; mret (Some (mk_modify (Some r) None))
  | ADD => a ← iterate add; mret (Some (mk_modify None (Some a)))
  | TOGGLE => r ← iterate remove; a ← iterate add;
              mret (Some (mk_modify (Some r) (Some a)))
  | OTHER => mret None
  end.

(** [l.remove(x)] on a list that holds [x]: the first occurrence goes. *)
Fixpoint list_remove (x : string) (l : list string) : list string :=
  match l with
  | [] => []
  | y :: l' => if bool_decide (x = y) then l' else y :: list_remove x l'
  end.

(** The adding loop over a list [add] that is an object of its own, from
    the label list [ids]: nothing changes [add] on the way. *)
Fixpoint append_each (add : list string) (ids : option (list string))
  : result unit * option (list string) :=
  match add with
  | [] => (Ok (), ids)
  | label :: rest =>
      match ids with
      | None => (Raise (TypeError "argument of type 'NoneType' is not iterable"), ids)
      | Some l =>
          append_each rest (Some (if bool_decide (label ∈ l) then l else l ++ [label]))
      end
  end.

(** The removing loop over a list [remove] that is an object of its own. *)
Fixpoint remove_each (remove : list string) (ids : option (list string))
  : result unit * option (list string) :=
  match remove with
  | [] => (Ok (), ids)
  | label :: rest =>
      match ids with
      | None => (Raise (TypeError "argument of type 'NoneType' is not iterable"), ids)
      | Some l =>
          remove_each rest (Some (if bool_decide (label ∈ l) then list_remove label l else l))
      end
  end.

(** The bodies of the two loops, on the label list [l]. *)
Definition add_one (label : string) (l : list string) : list string :=
  if bool_decide (label ∈ l) then l else l ++ [label].

Definition remove_one (label : string) (l : list string) : list string :=
  if bool_decide (label ∈ l) then list_remove label l else l.

(** [for label in self.labelIds: <step>], the loop over the label list
    itself: the iterator of a list keeps an index [i], stops as soon as
    [i] is no index of the list as it is by then, and otherwise hands out
    the item at [i] and moves on to [i + 1]; [step] changes the list in
    between.  [fuel] bounds the number of rounds. *)
Fixpoint over_own (step : string -> list string -> list string) (fuel i : nat)
         (l : list string) : list string :=
  match fuel with
  | O => l
  | S fuel =>
      match l !! i with
      | None => l
      | Some label => over_own step fuel (S i) (step label l)
      end
  end.

(** One loop of the local update over the argument [labels]: [loop] when
    the argument is a list of its own, [over_own step] when it is the
    label list itself.  Neither [step] makes the list longer in that case
    (the label at hand is in the list), so the loop is over within as many
    rounds as the list has items ([over_own_fuel]). *)
Definition for_labels (loop : list string -> option (list string) ->
                              result unit * option (list string))
           (step : string -> list string -> list string)
           (labels : option label_list) (ids : option (list string))
  : result unit * option (list string) :=
  match labels with
  | Some (ListOf l) => loop l ids
  | Some OwnList =>
      match ids with
      | Some l => (Ok (), Some (over_own step (length l) 0 l))
      | None => (Raise (TypeError "'NoneType' object is not iterable"), ids)
      end
  | None => (Raise (TypeError "'NoneType' object is not iterable"), ids)
  end.

(** [for label in add: if label not in self.labelIds:
    self.labelIds.append(label)], from the label list [ids] *)
Definition append_missing (add : option label_list) (ids : option (list string))
  : result unit * option (list string) :=
  for_labels append_each add_one add ids.

(** [for label in remove: if label in self.labelIds:
    self.labelIds.remove(label)] *)
Definition remove_present (remove : option label_list) (ids : option (list string))
  : result unit * option (list string) :=
  for_labels remove_each remove_one remove ids.

(** The second [match action] of [_edit_labels], run once the request has
    been answered. *)
Definition update_local (action : LabelAction) (add remove : option label_list)
           (ids : option (list string)) : result bool * option (list string) :=
  match action with
  | ADD =>
      match append_missing add ids with
      | (Ok _, ids) => (Ok true, ids)
      | (Raise e, ids) => (Raise e, ids)
      end
  | REMOVE =>
      match remove_present remove ids with
      | (Ok _, ids) => (Ok true, ids)
      | (Raise e, ids) => (Raise e, ids)
      end
  | TOGGLE =>
      match append_missing add ids with
      | (Ok _, ids) =>
          match remove_present remove ids with
          | (Ok _, ids) => (Ok true, ids)
          | (Raise e, ids) => (Raise e, ids)
          end
      | (Raise e, ids) => (Raise e, ids)
      end
  | OTHER => (Ok false, ids)
  end.

Definition _edit_labels (action : LabelAction) (add remove : option label_list)
           (self : t) : result bool * t * list call :=
  match request_body action (contents (labelIds self) add)
                     (contents (labelIds self) remove) with
  | Raise e => (Raise e, self, [])
  | Ok None => (Ok false, self, [])
  | Ok (Some payload) =>
      let svc := google_service self in
      let trace := [MessagesModify (user_id svc) (id self) payload; ServiceClose] in
      match messages_modify svc (user_id svc) (id self) payload with
      | Raise e => (Raise e, self, trace)
      | Ok _ =>
          let '(outcome, ids) := update_local action add remove (labelIds self) in
          (outcome, set_labelIds ids self, trace)
      end
  end.

Definition add_label (label : string) : t -> result bool * t * list call :=
  _edit_labels ADD (Some (ListOf [label])) (Some (ListOf [])).
Definition add_labels (labels : label_list) : t -> result bool * t * list call :=
  _edit_labels ADD (Some labels) (Some (ListOf [])).
Definition remove_label (label : string) : t -> result bool * t * list call :=
  _edit_labels REMOVE (Some (ListOf [])) (Some (ListOf [label])).
Definition remove_labels (labels : label_list) : t -> result bool * t * list call :=
  _edit_labels REMOVE (Some (ListOf [])) (Some labels).
Definition modify_labels (labels_to_add labels_to_remove : option label_list)
  : t -> result bool * t * list call :=
  _edit_labels TOGGLE labels_to_add labels_to_remove.

(** [<edit>; return self] *)
Definition returning_self (r : result bool * t * list call) : result unit * t * list call :=
  match r with
  | (Ok _, self, trace) => (Ok (), self, trace)
  | (Raise e, self, trace) => (Raise e, self, trace)
  end.

Definition mark_as_read (self : t) := returning_self (remove_label Labels.UNREAD self).
Definition mark_as_unread (self : t) := returning_self (add_label Labels.UNREAD self).
Definition toggle_read_unread (self : t) :=
  if is_unread self then returning_self (remove_label Labels.UNREAD self)
  else returning_self (add_label Labels.UNREAD self).

Definition mark_spam (self : t) :=
  returning_self
    (_edit_labels TOGGLE (Some (ListOf [Labels.SPAM]))
       (Some (ListOf [Labels.TRASH; Labels.INBOX; Labels.STARRED; Labels.IMPORTANT])) self).
Definition mark_not_spam (self : t) :=
  returning_self
    (_edit_labels TOGGLE (Some (ListOf [Labels.INBOX])) (Some (ListOf [Labels.SPAM])) self).
Definition toggle_spam (self : t) :=
  if is_spam self then mark_not_spam self else mark_spam self.

Definition move_to_trash (self : t) :=
  returning_self
    (_edit_labels TOGGLE (Some (ListOf [Labels.TRASH]))
       (Some (ListOf [Labels.INBOX; Labels.STARRED; Labels.IMPORTANT])) self).
Definition move_from_trash (self : t) :=
  returning_self
    (_edit_labels TOGGLE (Some (ListOf [Labels.INBOX])) (Some (ListOf [Labels.TRASH])) self).
Definition toggle_trash (self : t) :=
  if is_trash self then move_from_trash self else move_to_trash self.

Definition mark_important (self : t) := returning_self (add_label Labels.IMPORTANT self).
Definition mark_not_important (self : t) :=
  returning_self (remove_label Labels.IMPORTANT self).
Definition toggle_important (self : t) :=
  if is_important self then mark_not_important self else mark_important self.

Definition mark_starred (self : t) := returning_self (add_label Labels.STARRED self).
Definition mark_not_starred (self : t) := returning_self (remove_label Labels.STARRED self).
Definition toggle_starred (self : t) :=
  if is_starred self then mark_not_starred self else mark_starred self.

(** The label-editing operations of the class, as one type. *)
Inductive label_op : Type :=
| EditLabels (action : LabelAction) (add remove : option label_list)
| AddLabel (label : string)
| AddLabels (labels : label_list)
| RemoveLabel (label : string)
| RemoveLabels (labels : label_list)
| ModifyLabels (labels_to_add labels_to_remove : option label_list)
| MarkAsRead | MarkAsUnread | ToggleReadUnread
| MarkSpam | MarkNotSpam | ToggleSpam
| MoveToTrash | MoveFromTrash | ToggleTrash
| MarkImportant | MarkNotImportant | ToggleImportant
| MarkStarred | MarkNotStarred | ToggleStarred.

(** Running an operation; the Boolean an edit answers with is dropped. *)
Definition run (op : label_op) (self : t) : result unit * t * list call :=
  match op with
  | EditLabels action add remove => returning_self (_edit_labels action add remove self)
  | AddLabel label => returning_self (add_label label self)
  | AddLabels labels => returning_self (add_labels labels self)
  | RemoveLabel label => returning_self (remove_label label self)
  | RemoveLabels labels => returning_self (remove_labels labels self)
  | ModifyLabels a r => returning_self (modify_labels a r self)
  | MarkAsRead => mark_as_read self
  | MarkAsUnread => mark_as_unread self
  | ToggleReadUnread => toggle_read_unread self
  | MarkSpam => mark_spam self
  | MarkNotSpam => mark_not_spam self
  | ToggleSpam => toggle_spam self
  | MoveToTrash => move_to_trash self
  | MoveFromTrash => move_from_trash self
  | ToggleTrash => toggle_trash self
  | MarkImportant => mark_important self
  | MarkNotImportant => mark_not_important self
  | ToggleImportant => toggle_important self
  | MarkStarred => mark_starred self
  | MarkNotStarred => mark_not_starred self
  | ToggleStarred => toggle_starred self
  end.

End Message.

(** ** Auxiliary notions used to state the properties *)

(** The parts [_extract_content] goes through when it is handed [part]: the
    children of a part that is not text/plain or text/html, then the part
    itself. *)
Fixpoint visited (part : MessagePart.t) : list MessagePart.t :=
  (if negb (Message.is_text (MessagePart.mimeType part))
   then flat_map visited (MessagePart.parts part)
   else []) ++ [part].

(** A part whose body data, if any, is base64url-encoded UTF-8. *)
Definition decodable `{PyLib} (part : MessagePart.t) : Prop :=
  match MessagePart.body part with
  | Some b =>
      Py.truthy (MessagePartBody.data b) = true ->
      exists text, Message.decode_body (MessagePartBody.data b) = Ok text
  | None => True
  end.

(** Every value of the mapping is a list of texts. *)
Definition all_texts (mapping : gmap (option string) content_value) : Prop :=
  forall key v, mapping !! key = Some v -> exists l, v = Texts l.

(** A service that accepts every modify request. *)
Definition accepting (svc : GoogleService) : Prop :=
  forall userId id body, messages_modify svc userId id body = Ok ().

(** The message an operation leaves behind, its outcome and its calls. *)
Definition after {A} (r : result A * Message.t * list call) : Message.t := r.1.2.
Definition outcome {A} (r : result A * Message.t * list call) : result A := r.1.1.
Definition calls {A} (r : result A * Message.t * list call) : list call := r.2.

(** The items of a list at the odd positions, counting from zero. *)
Fixpoint odds (l : list string) : list string :=
  match l with
  | _ :: y :: rest => y :: odds rest
  | _ => []
  end.

(** [s] with every character [a] turned into [b]. *)
Fixpoint subst_char (a b : ascii) (s : string) : string :=
  match s with
  | EmptyString => EmptyString
  | String c s' => String (if Ascii.eqb c a then b else c) (subst_char a b s')
  end.

(** [s] with every character [a] left out. *)
Fixpoint without_char (a : ascii) (s : string) : string :=
  match s with
  | EmptyString => EmptyString
  | String c s' => if Ascii.eqb c a then without_char a s' else String c (without_char a s')
  end.

(** A part that bears a non-empty file name. *)
Definition named (part : MessagePart.t) : bool := Py.truthy (MessagePart.filename part).

(** [a] is the attachment the spec describes for the child [child]. *)
Definition describes (svc : GoogleService) (child : MessagePart.t) (a : Attachment.t) : Prop :=
  exists fname b,
    MessagePart.filename child = Some fname /\
    MessagePart.body child = Some b /\
    Attachment.filename a = subst_char "/" "_" fname /\
    Attachment.mimeType a = default EmptyString (MessagePart.mimeType child) /\
    Attachment.part_id a = MessagePart.partId child /\
    Attachment.google_service a = svc /\
    if Py.truthy (MessagePartBody.attachmentId b)
    then Attachment.id a = MessagePartBody.attachmentId b /\ Attachment.data a = None
    else Attachment.id a = None /\ Attachment.data a = MessagePartBody.data b.

(** A child with a file name and no body. *)
Definition bodiless (part : MessagePart.t) : Prop :=
  named part = true /\ MessagePart.body part = None.

(** A child whose file name, if any, comes with a body. *)
Definition embodied (part : MessagePart.t) : Prop :=
  named part = true -> MessagePart.body part <> None.

(** The discipline of a label edit on [self]: the label list differs
    afterwards only if one modify request was sent and accepted, and a
    request that was sent and refused leaves the message as it was and
    hands the refusal to the caller. *)
Definition guarded {A} (self : Message.t) (r : result A * Message.t * list call) : Prop :=
  let svc := Message.google_service self in
  (Message.labelIds (after r) <> Message.labelIds self ->
   exists body,
     calls r = [MessagesModify (user_id svc) (Message.id self) body; ServiceClose] /\
     messages_modify svc (user_id svc) (Message.id self) body = Ok ()) /\
  (forall userId id body e,
      MessagesModify userId id body ∈ calls r ->
      messages_modify svc userId id body = Raise e ->
      outcome r = Raise e /\ after r = self).

(** The text a part contributes under its own MIME type: its decoded
    body, when it has body data. *)
Definition body_text `{PyLib} (part : MessagePart.t) : list string :=
  match MessagePart.body part with
  | Some b =>
      if Py.truthy (MessagePartBody.data b)
      then match Message.decode_body (MessagePartBody.data b) with
           | Ok text => [text]
           | Raise _ => []
           end
      else []
  | None => []
  end.

(** A part that carries body data. *)
Definition has_data (part : MessagePart.t) : bool :=
  match MessagePart.body part with
  | Some b => Py.truthy (MessagePartBody.data b)
  | None => false
  end.

(** The texts the parts of [l] with MIME type [key] contribute, in order. *)
Definition texts_under `{PyLib} (key : option string) (l : list MessagePart.t)
  : list string :=
  flat_map (fun part => if decide (MessagePart.mimeType part = key)
                        then body_text part else []) l.

(** The texts a mapping holds under [key]. *)
Definition prior (key : option string) (mapping : gmap (option string) content_value)
  : list string :=
  match mapping !! key with
  | Some (Texts l) => l
  | _ => []
  end.

(** [mapping'] is [mapping] with, under the MIME type of each part of [l],
    the texts those parts contribute appended in order. *)
Definition values_spec `{PyLib} (l : list MessagePart.t)
           (mapping mapping' : gmap (option string) content_value) : Prop :=
  forall k, mapping' !! k =
            if decide (k ∈ MessagePart.mimeType <$> l)
            then Some (Texts (prior k mapping ++ texts_under k l))
            else mapping !! k.

(** The JSON a part tree comes from. *)
Fixpoint to_resource (part : MessagePart.t) : MessagePart.resource :=
  MessagePart.mk_resource
    (MessagePart.mimeType part) (MessagePart.filename part) (MessagePart.partId part)
    (Some (map (fun h => mk_header_resource (Some (MessageHeader.name h))
                                            (Some (MessageHeader.value h)))
               (MessagePart.headers part)))
    (option_map (fun b => mk_body_resource (Some (MessagePartBody.size b))
                                           (MessagePartBody.attachmentId b)
                                           (MessagePartBody.data b))
                (MessagePart.body part))
    (Some (map to_resource (MessagePart.parts part))).

(** Every body of the JSON tree states its size. *)
Fixpoint sized (r : MessagePart.resource) : bool :=
  match MessagePart.r_body r with
  | Some b => bool_decide (is_Some (res_size b))
  | None => true
  end &&
  match MessagePart.r_parts r with
  | Some l => forallb sized l
  | None => true
  end.

(** Every header of the JSON tree states its name and its value. *)
Fixpoint headed (r : MessagePart.resource) : bool :=
  match MessagePart.r_headers r with
  | Some l => forallb (fun h => bool_decide (is_Some (res_name h) /\ is_Some (res_value h))) l
  | None => true
  end &&
  match MessagePart.r_parts r with
  | Some l => forallb headed l
  | None => true
  end.

(** The number of nodes of a part tree and of the JSON of one. *)
Fixpoint part_count (part : MessagePart.t) : nat :=
  S (list_sum (map part_count (MessagePart.parts part))).

Fixpoint resource_count (r : MessagePart.resource) : nat :=
  S (match MessagePart.r_parts r with
     | Some l => list_sum (map resource_count l)
     | None => 0
     end).

(** What the constructor makes of the JSON [r]: a part tree with a node
    for each node of [r], or a [TypeError]. *)
Definition built (r : MessagePart.resource) : Prop :=
  if headed r && sized r
  then exists p, MessagePart.__init__ r = Ok p /\ part_count p = resource_count r
  else exists msg, MessagePart.__init__ r = Raise (TypeError msg).

(** ** Sample data *)

Module Sample.

(** A service that accepts every request; the attachment "att-1" holds
    "Hello", the attachment "att-0" is an empty file, and any other comes
    back without a payload. *)
Definition service : GoogleService :=
  mk_service "me" (Some "msg-1")
    (fun _ _ aid =>
       if String.eqb aid "att-1"
       then Ok (Some (mk_body_resource (Some 5%Z) None (Some "SGVsbG8=")))
       else if String.eqb aid "att-0"
            then Ok (Some (mk_body_resource (Some 0%Z) None (Some EmptyString)))
            else Ok (Some (mk_body_resource (Some 0%Z) None None)))
    (fun _ _ _ => Ok ()).

(** A service whose every request fails. *)
Definition unavailable : GoogleService :=
  mk_service "me" (Some "msg-1")
    (fun _ _ _ => Raise (HttpError 503 "Service Unavailable"))
    (fun _ _ _ => Raise (HttpError 503 "Service Unavailable")).

Definition leaf (mime : string) (data : option string) : MessagePart.t :=
  MessagePart.mk (Some mime) [] [] None None
    (Some (MessagePartBody.mk 0%Z None data)).

Definition empty_leaf (mime : string) : MessagePart.t :=
  MessagePart.mk (Some mime) [] [] None None None.

Definition file (name : string) (body : option MessagePartBody.t) : MessagePart.t :=
  MessagePart.mk (Some "image/png") [] [] (Some "1") (Some name) body.

Definition header (name value : string) : MessageHeader.t :=
  MessageHeader.mk name value.

Definition message (payload : MessagePart.t) (labels : option (list string))
           (svc : GoogleService) : Message.t :=
  Message.mk (Some "msg-1") None None None None None (Some payload) None labels svc.

(** multipart/mixed [ multipart/alternative [ text/plain, text/html ] ] *)
Definition nested : MessagePart.t :=
  MessagePart.mk (Some "multipart/mixed") [] [
    MessagePart.mk (Some "multipart/alternative") [] [
      leaf "text/plain" (Some "SGVsbG8=");
      leaf "text/html" (Some "PGI-SGk8L2I-")
    ] None None (Some (MessagePartBody.mk 0%Z None None))
  ] None None (Some (MessagePartBody.mk 0%Z None None)).

(** multipart/mixed [ text/plain, multipart/alternative [ text/plain,
    text/html ], a picture without a body ] *)
Definition two_texts : MessagePart.t :=
  MessagePart.mk (Some "multipart/mixed") [] [
    leaf "text/plain" (Some "SGVsbG8=");
    MessagePart.mk (Some "multipart/alternative") [] [
      leaf "text/plain" (Some "SGVsbG8=");
      leaf "text/html" (Some "PGI-SGk8L2I-")
    ] None None None;
    empty_leaf "image/png"
  ] None None None.

(** A part of type text/plain whose body states a size and no data. *)
Definition blank : MessagePart.t :=
  MessagePart.mk (Some "text/plain") [] [] None None
    (Some (MessagePartBody.mk 0%Z None None)).

(** A message body with two files next to it, and a file one level
    further down. *)
Definition with_files : MessagePart.t :=
  MessagePart.mk (Some "multipart/mixed") [] [
    leaf "text/plain" (Some "SGVsbG8=");
    file "a/b.png" (Some (MessagePartBody.mk 5%Z (Some "att-1") None));
    MessagePart.mk None [] [] (Some "2") (Some "notes.txt")
      (Some (MessagePartBody.mk 5%Z None (Some "SGVsbG8=")));
    MessagePart.mk (Some "multipart/related") [] [
      file "deep.png" (Some (MessagePartBody.mk 5%Z (Some "att-3") None))
    ] None None None
  ] None None None.

(** A part whose only child has a file name and no body. *)
Definition broken_file : MessagePart.t :=
  MessagePart.mk (Some "multipart/mixed") [] [ file "a/b.png" None ] None None None.

(** The JSON of a part with a header that states a value and no name. *)
Definition nameless_header : MessagePart.resource :=
  MessagePart.mk_resource (Some "text/plain") None None
    (Some [mk_header_resource (Some "To") (Some "a@x.org");
           mk_header_resource None (Some "b@x.org")])
    (Some (mk_body_resource (Some 0%Z) None None)) None.

(** The JSON of a message that carries no label: the key is absent. *)
Definition unlabelled : Message.resource :=
  Message.mk_resource (Some "msg-1") (Some "thread-1") None None None None None None
    (Some (MessagePart.mk_resource (Some "text/plain") None None None None None)).

(** A message in the inbox, unread, at a service that is down. *)
Definition stranded : Message.t :=
  message (empty_leaf "text/plain") (Some ["UNREAD"; "INBOX"]) unavailable.

(** A message whose label list names STARRED twice. *)
Definition doubly_starred : Message.t :=
  message (empty_leaf "text/plain") (Some ["STARRED"; "STARRED"]) service.

(** A starred, unread message in the inbox. *)
Definition starred : Message.t :=
  message (empty_leaf "text/plain") (Some ["INBOX"; "STARRED"; "UNREAD"]) service.

(** What the constructor makes of [unlabelled]. *)
Definition unlabelled_message : Message.t :=
  Message.mk (Some "msg-1") None (Some "thread-1") None None None
    (Some (MessagePart.mk (Some "text/plain") [] [] None None None)) None None service.

(** The attachment "att-1" of the part with files, not yet downloaded. *)
Definition remote_file : Attachment.t :=
  Attachment.mk "a_b.png" "image/png" (Some "1") service (Some "att-1") None.

(** An attached file of no bytes. *)
Definition empty_file : Attachment.t :=
  Attachment.mk "empty.txt" "text/plain" (Some "4") service (Some "att-0") None.

(** An attachment for which the service answers without a payload. *)
Definition hollow_file : Attachment.t :=
  Attachment.mk "empty.bin" "application/octet-stream" (Some "3") service
                (Some "att-2") None.

Definition with_headers (hs : list MessageHeader.t) : MessagePart.t :=
  MessagePart.mk (Some "text/plain") hs [] None None None.

Definition mail (hs : list MessageHeader.t) : Message.t :=
  message (with_headers hs) (Some ["INBOX"]) service.

(** 2024-06-05T10:00:00-04:00 *)
Definition june_5th : datetime := mk_datetime 2024 6 5 10 0 0 (Some (-14400)%Z).

End Sample.

(** * Properties *)

(** ** The built-ins and library models on sample inputs *)

Example split_hop : Py.split "; " "from x; Wed, 5 Jun" = ["from x"; "Wed, 5 Jun"].
Proof. reflexivity. Qed.
Example split_none : Py.split "; " "abc" = ["abc"].
Proof. reflexivity. Qed.
Example split_edges : Py.split "<" "<a<" = [""; "a"; ""].
Proof. reflexivity. Qed.
Example split_overlap : Py.split "aa" "aaa" = [""; "a"].
Proof. reflexivity. Qed.
Example replace_slash : Py.replace "/" "_" "a/b/c.png" = "a_b_c.png".
Proof. reflexivity. Qed.
Example strip_both : Py.strip "  Wed, 5 Jun 2024 " = "Wed, 5 Jun 2024".
Proof. reflexivity. Qed.
Example b64_hello : CPython.urlsafe_b64decode "SGVsbG8=" = Ok "Hello".
Proof. reflexivity. Qed.
Example b64_urlsafe : CPython.urlsafe_b64decode "_-8=" = Ok (String (ascii_of_nat 255) (String (ascii_of_nat 239) "")).
Proof. reflexivity. Qed.
Example b64_unpadded : CPython.urlsafe_b64decode "SGVsbG8" = Raise (BinasciiError "Incorrect padding").
Proof. reflexivity. Qed.
Example b64_empty : CPython.urlsafe_b64decode "" = Ok "".
Proof. reflexivity. Qed.
Example strptime_sample :
  CPython.strptime "Wed, 5 Jun 2024 10:00:00 -0400" CPython.DATE_PATTERN
  = Ok (mk_datetime 2024 6 5 10 0 0 (Some (-14400)%Z)).
Proof. reflexivity. Qed.
Example strptime_feb30 :
  CPython.strptime "Fri, 30 Feb 2024 10:00:00 +0000" CPython.DATE_PATTERN
  = Raise (ValueError "value out of range").
Proof. reflexivity. Qed.
Example strptime_trailing :
  CPython.strptime "Wed, 5 Jun 2024 10:00:00 -0400 (EDT)" CPython.DATE_PATTERN
  = Raise (ValueError "time data does not match format").
Proof. reflexivity. Qed.

(** ** Structural induction over a part tree *)

Lemma part_ind (P : MessagePart.t -> Prop) :
  (forall mime hs ps pid fname b,
      Forall P ps -> P (MessagePart.mk mime hs ps pid fname b)) ->
  forall part, P part.
Proof.
  intros step. fix IH 1. intros [mime hs ps pid fname b].
  apply step. induction ps as [|x l IHl]; constructor; [apply IH | apply IHl].
Qed.

(** ** Content extraction *)

Section Content.
Context `{PyLib}.

Lemma extract_content_unfold (part : MessagePart.t)
      (mapping : gmap (option string) content_value) :
  Message._extract_content part mapping =
  (mapping ← (if negb (Message.is_text (MessagePart.mimeType part))
              then Message.extract_each (MessagePart.parts part) mapping
              else Ok mapping);
   let mapping := Message.setdefault_empty (MessagePart.mimeType part) mapping in
   match MessagePart.body part with
   | None => Ok mapping
   | Some b =>
       if negb (Py.truthy (MessagePartBody.data b)) then Ok mapping
       else text ← Message.decode_body (MessagePartBody.data b);
            Message.append_text (MessagePart.mimeType part) text mapping
   end).
Proof. destruct part; reflexivity. Qed.

Lemma lookup_setdefault_empty (key : option string)
      (mapping : gmap (option string) content_value) (k : option string) :
  Message.setdefault_empty key mapping !! k =
  if decide (k = key) then Some (default (Texts []) (mapping !! key)) else mapping !! k.
Proof.
  unfold Message.setdefault_empty.
  destruct (mapping !! key) as [v|] eqn:E; case_decide; subst; simpl; auto.
  - by rewrite lookup_insert_eq.
  - by rewrite lookup_insert_ne.
Qed.

Lemma all_texts_setdefault (key : option string)
      (mapping : gmap (option string) content_value) :
  all_texts mapping -> all_texts (Message.setdefault_empty key mapping).
Proof.
  intros Hall k v. rewrite lookup_setdefault_empty. case_decide; [|apply Hall].
  subst. destruct (mapping !! key) as [w|] eqn:E; simpl; intros [= <-]; eauto.
Qed.

Lemma is_Some_setdefault_empty (key : option string)
      (mapping : gmap (option string) content_value) (k : option string) :
  is_Some (Message.setdefault_empty key mapping !! k) <->
  is_Some (mapping !! k) \/ k = key.
Proof.
  rewrite lookup_setdefault_empty. case_decide as Hk.
  - subst. split; [auto | intros _; eauto].
  - split; [auto | intros [?|?]; [done | contradiction]].
Qed.

Lemma append_text_spec (key : option string) (text : string)
      (mapping : gmap (option string) content_value) :
  all_texts mapping -> is_Some (mapping !! key) ->
  exists l, mapping !! key = Some (Texts l) /\
            Message.append_text key text mapping
            = Ok (<[key := Texts (l ++ [text])]> mapping).
Proof.
  intros Hall [v Hv]. destruct (Hall _ _ Hv) as [l ->].
  exists l. split; [done|]. unfold Message.append_text. by rewrite Hv.
Qed.

(** What one part adds once its children have been dealt with. *)
Lemma extract_own_spec (part : MessagePart.t)
      (mapping : gmap (option string) content_value) :
  all_texts mapping -> decodable part ->
  exists mapping',
    (let mapping := Message.setdefault_empty (MessagePart.mimeType part) mapping in
     match MessagePart.body part with
     | None => Ok mapping
     | Some b =>
         if negb (Py.truthy (MessagePartBody.data b)) then Ok mapping
         else text ← Message.decode_body (MessagePartBody.data b);
              Message.append_text (MessagePart.mimeType part) text mapping
     end) = Ok mapping' /\
    all_texts mapping' /\
    forall k, is_Some (mapping' !! k) <->
              is_Some (mapping !! k) \/ k = MessagePart.mimeType part.
Proof.
  intros Hall Hdec. cbv zeta.
  pose proof (all_texts_setdefault (MessagePart.mimeType part) mapping Hall) as Hall2.
  pose proof (is_Some_setdefault_empty (MessagePart.mimeType part) mapping) as Hkeys.
  unfold decodable in Hdec.
  destruct (MessagePart.body part) as [b|]; [|eauto].
  destruct (Py.truthy (MessagePartBody.data b)) eqn:Hdata; simpl; [|eauto].
  destruct (Hdec eq_refl) as [text ->]. simpl.
  destruct (append_text_spec (MessagePart.mimeType part) text _ Hall2) as (l & Hl & ->).
  { apply Hkeys. by right. }
  eexists. split; [reflexivity|]. split.
  - intros k v. rewrite lookup_insert. case_decide; [intros [= <-]; eauto | apply Hall2].
  - intros k. rewrite lookup_insert. case_decide as Hk.
    + subst. split; [by right | eauto].
    + apply Hkeys.
Qed.

Lemma extract_each_spec (sub_parts : list MessagePart.t) :
  Forall (fun part =>
            forall mapping, all_texts mapping -> Forall decodable (visited part) ->
            exists mapping',
              Message._extract_content part mapping = Ok mapping' /\
              all_texts mapping' /\
              forall k, is_Some (mapping' !! k) <->
                        is_Some (mapping !! k) \/
                        k ∈ MessagePart.mimeType <$> visited part) sub_parts ->
  forall mapping, all_texts mapping ->
  Forall decodable (flat_map visited sub_parts) ->
  exists mapping',
    Message.extract_each sub_parts mapping = Ok mapping' /\
    all_texts mapping' /\
    forall k, is_Some (mapping' !! k) <->
              is_Some (mapping !! k) \/
              k ∈ MessagePart.mimeType <$> flat_map visited sub_parts.
Proof.
  induction 1 as [|part rest Hpart _ IH]; intros mapping Hall Hdec; simpl in *.
  - exists mapping. split; [done|]. split; [done|].
    intros k. rewrite elem_of_nil. tauto.
  - apply Forall_app in Hdec as [Hd1 Hd2].
    destruct (Hpart mapping Hall Hd1) as (m1 & -> & Hall1 & Hk1). simpl.
    destruct (IH m1 Hall1 Hd2) as (m2 & -> & Hall2 & Hk2).
    exists m2. split; [done|]. split; [done|].
    intros k. rewrite Hk2, Hk1, fmap_app, elem_of_app. tauto.
Qed.

Lemma extract_content_spec (part : MessagePart.t) :
  forall mapping, all_texts mapping -> Forall decodable (visited part) ->
  exists mapping',
    Message._extract_content part mapping = Ok mapping' /\
    all_texts mapping' /\
    forall k, is_Some (mapping' !! k) <->
              is_Some (mapping !! k) \/ k ∈ MessagePart.mimeType <$> visited part.
Proof.
  induction part as [mime hs ps pid fname b IHps] using part_ind.
  intros mapping Hall Hdec. rewrite extract_content_unfold.
  simpl in Hdec. apply Forall_app in Hdec as [Hsub Hown].
  apply Forall_cons in Hown as [Hown _].
  simpl MessagePart.mimeType. simpl MessagePart.parts.
  assert (exists m1,
    (if negb (Message.is_text mime) then Message.extract_each ps mapping else Ok mapping)
    = Ok m1 /\ all_texts m1 /\
    forall k, is_Some (m1 !! k) <->
              is_Some (mapping !! k) \/
              k ∈ MessagePart.mimeType <$>
                  (if negb (Message.is_text mime) then flat_map visited ps else []))
    as (m1 & -> & Hall1 & Hk1).
  { destruct (negb (Message.is_text mime)).
    - by apply extract_each_spec.
    - exists mapping. split; [done|]. split; [done|].
      intros k. simpl. rewrite elem_of_nil. tauto. }
  simpl.
  destruct (extract_own_spec (MessagePart.mk mime hs ps pid fname b) m1 Hall1 Hown)
    as (m2 & Hm2 & Hall2 & Hk2).
  exists m2. split; [exact Hm2|]. split; [done|].
  intros k. rewrite Hk2, Hk1. simpl.
  rewrite fmap_app, elem_of_app. simpl. rewrite list_elem_of_singleton. tauto.
Qed.

Lemma visited_self (part : MessagePart.t) : part ∈ visited part.
Proof. destruct part; simpl. rewrite elem_of_app, list_elem_of_singleton. by right. Qed.

Lemma visited_children (part q child : MessagePart.t) :
  q ∈ visited part ->
  Message.is_text (MessagePart.mimeType q) = false ->
  child ∈ MessagePart.parts q ->
  child ∈ visited part.
Proof.
  induction part as [mime hs ps pid fname b IHps] using part_ind.
  simpl. rewrite !elem_of_app, !list_elem_of_singleton.
  intros [Hq | ->] Hmime Hchild.
  - left. destruct (negb (Message.is_text mime)); [|by apply elem_of_nil in Hq].
    apply list_elem_of_In, in_flat_map in Hq as (p & Hp & Hq).
    apply list_elem_of_In, in_flat_map. exists p. split; [done|].
    apply list_elem_of_In. rewrite Forall_forall in IHps.
    apply IHps; [by apply list_elem_of_In | by apply list_elem_of_In | done | done].
  - left. simpl in *. rewrite Hmime. simpl.
    apply list_elem_of_In, in_flat_map. exists child.
    split; [by apply list_elem_of_In | apply list_elem_of_In, visited_self].
Qed.

Lemma content_with_children (self : Message.t) (root : MessagePart.t) :
  Message.payload self = Some root ->
  MessagePart.parts root <> [] ->
  Message._content self =
  (mapping ← Message.extract_each (MessagePart.parts root) ∅; mret (Some mapping)).
Proof.
  intros Hpayload Hparts. unfold Message._content, Message.get_payload.
  rewrite Hpayload. simpl. by destruct (MessagePart.parts root).
Qed.

(** C6, as amended: extraction does not raise on a part with no body and
    no children.  Below the root, such a leaf leaves every entry of the
    mapping as it was and makes its own MIME type a key, with an empty
    sequence when the key is new -- whatever the type, text or not; as the
    only child of the root it makes [_content] return the mapping that
    holds just that key, with an empty sequence.  As the payload of the
    message itself it yields no mapping at all, whatever the type. *)
Theorem empty_part_is_harmless (part : MessagePart.t)
        (mapping : gmap (option string) content_value) :
  MessagePart.body part = None ->
  MessagePart.parts part = [] ->
  (exists mapping',
     Message._extract_content part mapping = Ok mapping' /\
     (forall key, mapping' !! key =
                  if decide (key = MessagePart.mimeType part)
                  then Some (default (Texts []) (mapping !! key))
                  else mapping !! key) /\
     (mapping !! MessagePart.mimeType part = None ->
      mapping' !! MessagePart.mimeType part = Some (Texts []))) /\
  (forall self root,
      Message.payload self = Some root ->
      MessagePart.parts root = [part] ->
      Message._content self = Ok (Some {[ MessagePart.mimeType part := Texts [] ]})) /\
  (forall self, Message.payload self = Some part -> Message._content self = Ok None).
Proof.
  intros Hbody Hparts.
  assert (Hrun : forall m, Message._extract_content part m
                           = Ok (Message.setdefault_empty (MessagePart.mimeType part) m)).
  { intros m. rewrite extract_content_unfold, Hbody, Hparts. simpl.
    by destruct (negb (Message.is_text (MessagePart.mimeType part))). }
  split; [|split].
  - exists (Message.setdefault_empty (MessagePart.mimeType part) mapping).
    split; [apply Hrun|]. split.
    + intros key. rewrite lookup_setdefault_empty. by case_decide; subst.
    + intros Hnew. rewrite lookup_setdefault_empty, decide_True by done. by rewrite Hnew.
  - intros self root Hpayload Hroot.
    rewrite (content_with_children self root Hpayload) by (by rewrite Hroot).
    rewrite Hroot. cbn [Message.extract_each]. rewrite Hrun.
    cbv beta iota delta [mbind result_bind mret result_ret].
    assert (Hone : Message.setdefault_empty (MessagePart.mimeType part) ∅
                   = ({[ MessagePart.mimeType part := Texts [] ]}
                      : gmap (option string) content_value)).
    { unfold Message.setdefault_empty. rewrite lookup_empty. apply insert_empty. }
    by rewrite Hone.
  - intros self Hpayload. unfold Message._content, Message.get_payload.
    rewrite Hpayload. simpl. by rewrite Hparts, Hbody.
Qed.

End Content.

(** C1, as stated, fails: the container "multipart/alternative" of the
    nested sample message is recursed into and still becomes a key of the
    mapping, with an empty sequence, although it is neither text/plain nor
    text/html. *)
Lemma container_type_becomes_key :
  MessagePart.parts Sample.nested <> [] /\
  Message.is_text (Some "multipart/alternative") = false /\
  exists mapping,
    @Message._content cpython (Sample.message Sample.nested None Sample.service)
    = Ok (Some mapping) /\
    mapping !! Some "multipart/alternative" = Some (Texts []) /\
    mapping !! Some "text/plain" = Some (Texts ["Hello"]).
Proof.
  split; [discriminate|]. split; [reflexivity|].
  eexists. split; [vm_compute; reflexivity|]. split; vm_compute; reflexivity.
Qed.

(** A childless, bodiless image part handed to the extraction. *)
Lemma empty_part_is_harmless_witness :
  MessagePart.body (Sample.empty_leaf "image/png") = None /\
  MessagePart.parts (Sample.empty_leaf "image/png") = [] /\
  exists mapping',
    @Message._extract_content cpython (Sample.empty_leaf "image/png") ∅ = Ok mapping' /\
    mapping' !! Some "image/png" = Some (Texts []) /\
    mapping' !! Some "text/plain" = None.
Proof.
  split; [reflexivity|]. split; [reflexivity|].
  destruct (@empty_part_is_harmless cpython (Sample.empty_leaf "image/png") ∅ eq_refl eq_refl)
    as ((mapping' & Hrun & Hall & Hnew) & _).
  exists mapping'. split; [exact Hrun|]. split.
  - apply Hnew. apply lookup_empty.
  - rewrite (Hall (Some "text/plain")). apply lookup_empty.
Defined.

(** C6, as stated, fails on both counts.  An empty leaf that is not a text
    part does add a key: handed the bodiless, childless "image/png" part,
    the extraction files an empty sequence under "image/png", and so does
    [_content] for a message whose root has that part as its only child.
    And an empty text part that is the payload itself adds no key at all:
    [_content] returns [None]. *)
Lemma empty_leaf_adds_its_key :
  MessagePart.body (Sample.empty_leaf "image/png") = None /\
  MessagePart.parts (Sample.empty_leaf "image/png") = [] /\
  Message.is_text (MessagePart.mimeType (Sample.empty_leaf "image/png")) = false /\
  (exists mapping,
     @Message._extract_content cpython (Sample.empty_leaf "image/png") ∅ = Ok mapping /\
     mapping !! Some "image/png" = Some (Texts [])) /\
  (exists mapping,
     @Message._content cpython
       (Sample.message (MessagePart.mk (Some "multipart/mixed") []
                                       [Sample.empty_leaf "image/png"] None None None)
                       None Sample.service) = Ok (Some mapping) /\
     mapping !! Some "image/png" = Some (Texts [])) /\
  Message.is_text (MessagePart.mimeType (Sample.empty_leaf "text/plain")) = true /\
  @Message._content cpython
    (Sample.message (Sample.empty_leaf "text/plain") None Sample.service) = Ok None.
Proof.
  split; [reflexivity|]. split; [reflexivity|]. split; [reflexivity|].
  split; [eexists; split; [vm_compute; reflexivity | vm_compute; reflexivity]|].
  split; [eexists; split; [vm_compute; reflexivity | vm_compute; reflexivity]|].
  split; reflexivity.
Qed.

(** ** Attachment enumeration *)

Lemma replace_char_subst (a b : ascii) (s : string) :
  Py.replace (String a EmptyString) (String b EmptyString) s = subst_char a b s.
Proof.
  unfold Py.replace. induction s as [|c s IH]; [reflexivity|].
  simpl. destruct (ascii_dec a c) as [->|Hne].
  - rewrite Ascii.eqb_refl, IH. by destruct s.
  - destruct (Ascii.eqb_spec c a) as [->|_]; [done|]. by rewrite IH.
Qed.

Lemma subst_char_removes (a b : ascii) (s : string) :
  a <> b -> Py.contains (String a EmptyString) (subst_char a b s) = false.
Proof.
  intros Hne. induction s as [|c s IH]; [reflexivity|].
  simpl. rewrite IH. destruct (Ascii.eqb_spec c a) as [->|Hc].
  - by destruct (ascii_dec a b).
  - by destruct (ascii_dec a c) as [->|].
Qed.

Lemma attachment_of_named (svc : GoogleService) (part : MessagePart.t) :
  named part = true ->
  (MessagePart.body part = None /\
   MessagePart.attachment_of svc part
   = Raise (AttributeError "'NoneType' object has no attribute 'attachmentId'")) \/
  (exists a, MessagePart.attachment_of svc part = Ok (Some a) /\ describes svc part a).
Proof.
  unfold named, MessagePart.attachment_of, describes.
  destruct (MessagePart.filename part) as [[|c fname]|] eqn:Hname; try discriminate.
  intros _. destruct (MessagePart.body part) as [b|] eqn:Hbody; [right | by left].
  assert (Hmime : (if Py.truthy (MessagePart.mimeType part)
                   then default EmptyString (MessagePart.mimeType part) else EmptyString)
                  = default EmptyString (MessagePart.mimeType part)).
  { by destruct (MessagePart.mimeType part) as [[|]|]. }
  rewrite Hmime, (replace_char_subst "/" "_").
  destruct (Py.truthy (MessagePartBody.attachmentId b)) eqn:Hid;
    eexists; (split; [reflexivity|]); exists (String c fname), b; rewrite Hid; simpl; auto 10.
Qed.

Lemma attachment_of_unnamed (svc : GoogleService) (part : MessagePart.t) :
  named part = false -> MessagePart.attachment_of svc part = Ok None.
Proof.
  unfold named, MessagePart.attachment_of.
  by destruct (MessagePart.filename part) as [[|]|].
Qed.

(** The loop either meets a named child without a body and raises, or
    appends one described attachment per named child, in order. *)
Lemma attachments_loop_cases (svc : GoogleService) (children : list MessagePart.t) :
  forall acc,
    (Exists bodiless children /\
     MessagePart.attachments_loop svc children acc
     = Raise (AttributeError "'NoneType' object has no attribute 'attachmentId'")) \/
    (Forall embodied children /\
     exists l, MessagePart.attachments_loop svc children acc = Ok (acc ++ l) /\
               Forall2 (describes svc) (List.filter named children) l).
Proof.
  induction children as [|part rest IH]; intros acc; simpl.
  - right. split; [constructor|]. exists []. rewrite app_nil_r. split; [done|constructor].
  - destruct (named part) eqn:Hnamed.
    + destruct (attachment_of_named svc part Hnamed) as [[Hbody ->] | (a & -> & Hdesc)].
      * left. split; [|done]. by left.
      * destruct (IH (acc ++ [a])) as [[Hex ->] | (Hall & l & -> & Hl)].
        -- left. split; [by right | done].
        -- right. split.
           { constructor; [|done]. intros _. destruct Hdesc as (? & b & _ & -> & _). done. }
           exists (a :: l). rewrite <- app_assoc. split; [done|]. by constructor.
    + rewrite (attachment_of_unnamed svc part Hnamed).
      destruct (IH acc) as [[Hex ->] | (Hall & l & -> & Hl)].
      * left. split; [by right | done].
      * right. split; [|eauto]. constructor; [|done]. unfold embodied. by rewrite Hnamed.
Qed.

Lemma no_attachments_no_named (part : MessagePart.t) :
  MessagePart._has_attachments part = false ->
  List.filter named (MessagePart.parts part) = [].
Proof.
  unfold MessagePart._has_attachments.
  destruct (Py.truthy (MessagePart.filename part)); [discriminate|].
  induction (MessagePart.parts part) as [|c l IH]; simpl; [done|].
  unfold named at 1. destruct (Py.truthy (MessagePart.filename c)); simpl; [discriminate|].
  exact IH.
Qed.

Lemma bodiless_not_embodied (l : list MessagePart.t) :
  Exists bodiless l -> Forall embodied l -> False.
Proof.
  rewrite Exists_exists, Forall_forall. intros (c & Hin & Hnamed & Hbody) Hall.
  by apply (Hall c Hin Hnamed).
Qed.

Lemma attachments_described (svc : GoogleService) (part : MessagePart.t) :
  Forall embodied (MessagePart.parts part) ->
  exists l,
    MessagePart.attachments svc part = Ok l /\
    Forall2 (describes svc) (List.filter named (MessagePart.parts part)) l.
Proof.
  intros Hall. unfold MessagePart.attachments.
  destruct (MessagePart._has_attachments part) eqn:Hhas; simpl.
  - destruct (attachments_loop_cases svc (MessagePart.parts part) [])
      as [[Hex _] | (_ & l & -> & Hl)].
    + destruct (bodiless_not_embodied _ Hex Hall).
    + by exists l.
  - exists []. rewrite (no_attachments_no_named part Hhas). split; [done|constructor].
Qed.

(** C9, as amended: for a part whose named direct children all have a body,
    [attachments] returns one attachment per direct child with a non-empty
    file name, in order, each with the child's file name in which every "/"
    has become "_" (so none is left), the child's MIME type or the empty
    string, and the body's attachmentId as id when there is one, otherwise
    the body's inline data; parts further down are not looked at. *)
Theorem attachments_of_direct_children (svc : GoogleService) (part : MessagePart.t) :
  Forall embodied (MessagePart.parts part) ->
  exists l,
    MessagePart.attachments svc part = Ok l /\
    Forall2 (describes svc) (List.filter named (MessagePart.parts part)) l /\
    Forall (fun a => Py.contains "/" (Attachment.filename a) = false) l.
Proof.
  intros Hall. destruct (attachments_described svc part Hall) as (l & Hrun & Hl).
  exists l. split; [done|]. split; [done|].
  clear Hrun. induction Hl as [|c a cs l Hdesc _ IH]; constructor; [|done].
  destruct Hdesc as (fname & b & _ & _ & -> & _). by apply subst_char_removes.
Qed.

(** C10: [attachments] raises exactly when some direct child bears a file
    name and has no body (the missing body is dereferenced), and returns a
    list exactly when every named direct child has a body. *)
Theorem attachments_total_iff_bodies (svc : GoogleService) (part : MessagePart.t) :
  (MessagePart.attachments svc part
   = Raise (AttributeError "'NoneType' object has no attribute 'attachmentId'")
   <-> Exists bodiless (MessagePart.parts part)) /\
  ((exists l, MessagePart.attachments svc part = Ok l)
   <-> Forall embodied (MessagePart.parts part)).
Proof.
  assert (Hbad : Exists bodiless (MessagePart.parts part) ->
                 MessagePart.attachments svc part
                 = Raise (AttributeError "'NoneType' object has no attribute 'attachmentId'")).
  { intros Hex. unfold MessagePart.attachments.
    destruct (MessagePart._has_attachments part) eqn:Hhas; simpl.
    - destruct (attachments_loop_cases svc (MessagePart.parts part) [])
        as [[_ ->] | (Hall & _)]; [done|].
      destruct (bodiless_not_embodied _ Hex Hall).
    - apply no_attachments_no_named in Hhas.
      apply Exists_exists in Hex as (c & Hin & Hnamed & _).
      assert (Hc : c ∈ List.filter named (MessagePart.parts part)).
      { apply list_elem_of_In, filter_In. split; [by apply list_elem_of_In | done]. }
      rewrite Hhas in Hc. by apply elem_of_nil in Hc. }
  assert (Hgood : Forall embodied (MessagePart.parts part) ->
                  exists l, MessagePart.attachments svc part = Ok l).
  { intros Hall. destruct (attachments_described svc part Hall) as (l & ? & _).
    by exists l. }
  assert (Hcases : Exists bodiless (MessagePart.parts part) \/
                   Forall embodied (MessagePart.parts part)).
  { destruct (attachments_loop_cases svc (MessagePart.parts part) [])
      as [[? _] | [? _]]; auto. }
  split; split; try done.
  - intros Hrun. destruct Hcases as [?|Hall]; [done|].
    destruct (Hgood Hall) as [l Hl]. congruence.
  - intros [l Hl]. destruct Hcases as [Hex|?]; [|done].
    rewrite (Hbad Hex) in Hl. discriminate.
Qed.
(** The part with two files, enumerated. *)
Example attachments_sample :
  MessagePart.attachments Sample.service Sample.with_files
  = Ok [Attachment.mk "a_b.png" "image/png" (Some "1") Sample.service (Some "att-1") None;
        Attachment.mk "notes.txt" "" (Some "2") Sample.service None (Some "SGVsbG8=")].
Proof. reflexivity. Qed.

Lemma attachments_of_direct_children_witness :
  Forall embodied (MessagePart.parts Sample.with_files) /\
  exists l,
    MessagePart.attachments Sample.service Sample.with_files = Ok l /\
    Forall2 (describes Sample.service)
            (List.filter named (MessagePart.parts Sample.with_files)) l /\
    Forall (fun a => Py.contains "/" (Attachment.filename a) = false) l.
Proof.
  assert (Hall : Forall embodied (MessagePart.parts Sample.with_files)).
  { repeat constructor; unfold embodied; simpl; discriminate. }
  split; [exact Hall|].
  exact (attachments_of_direct_children Sample.service Sample.with_files Hall).
Defined.

(** C9, as stated, fails: a direct child with the file name "a/b.png" and
    no body makes [attachments] raise instead of building an attachment. *)
Lemma attachments_raise_without_body :
  List.filter named (MessagePart.parts Sample.broken_file)
  = [Sample.file "a/b.png" None] /\
  MessagePart.attachments Sample.service Sample.broken_file
  = Raise (AttributeError "'NoneType' object has no attribute 'attachmentId'").
Proof. split; reflexivity. Qed.

(** ** Label edits *)

Lemma set_labelIds_same (self : Message.t) :
  Message.set_labelIds (Message.labelIds self) self = self.
Proof. by destruct self. Qed.

Lemma guarded_untouched {A} (self : Message.t) (out : result A) :
  guarded self (out, self, []).
Proof.
  split; simpl.
  - intros Hne. by destruct Hne.
  - intros ???? Hin. by apply elem_of_nil in Hin.
Qed.

Lemma guarded_edit_labels (action : LabelAction) (add remove : option Message.label_list)
      (self : Message.t) :
  guarded self (Message._edit_labels action add remove self).
Proof.
  unfold Message._edit_labels.
  destruct (Message.request_body action _ _) as [[payload|]|e];
    try apply guarded_untouched.
  destruct (messages_modify _ _ _ payload) as [[]|e] eqn:Hcall.
  - destruct (Message.update_local action add remove (Message.labelIds self))
      as [out ids].
    split; simpl.
    + intros _. eauto.
    + intros userId id body e Hin Hfail.
      apply list_elem_of_In in Hin as [[= <- <- <-]|[[=]|[]]]. congruence.
  - split; simpl.
    + intros Hne. by destruct Hne.
    + intros userId id body e' Hin Hfail.
      apply list_elem_of_In in Hin as [[= <- <- <-]|[[=]|[]]].
      unfold outcome, after; simpl. split; [congruence | done].
Qed.

Lemma guarded_returning_self (self : Message.t) (r : result bool * Message.t * list call) :
  guarded self r -> guarded self (Message.returning_self r).
Proof.
  destruct r as [[[v|e] m] tr]; unfold guarded, outcome, after, calls; simpl;
    intros [H1 H2]; (split; [done|]).
  - intros ???? Hin Hfail. destruct (H2 _ _ _ _ Hin Hfail) as [[=] _].
  - intros ???? Hin Hfail. by destruct (H2 _ _ _ _ Hin Hfail) as [[= ->] ->].
Qed.

(** C2: every label-editing operation, each of which ends in
    [_edit_labels], changes [labelIds] only after a modify request was sent
    and accepted; when the request raises, the message (its [labelIds]
    included) is as before and the very same exception reaches the caller. *)
Theorem label_edits_are_guarded (op : Message.label_op) (self : Message.t) :
  guarded self (Message.run op self).
Proof.
  destruct op; simpl;
    unfold Message.mark_as_read, Message.mark_as_unread, Message.toggle_read_unread,
      Message.mark_spam, Message.mark_not_spam, Message.toggle_spam,
      Message.move_to_trash, Message.move_from_trash, Message.toggle_trash,
      Message.mark_important, Message.mark_not_important, Message.toggle_important,
      Message.mark_starred, Message.mark_not_starred, Message.toggle_starred,
      Message.mark_spam, Message.mark_not_spam, Message.move_to_trash,
      Message.move_from_trash, Message.mark_important, Message.mark_not_important,
      Message.mark_starred, Message.mark_not_starred,
      Message.add_label, Message.add_labels, Message.remove_label,
      Message.remove_labels, Message.modify_labels;
    repeat match goal with |- context [if ?b then _ else _] => destruct b end;
    apply guarded_returning_self, guarded_edit_labels.
Qed.
(** Marking the stranded message as read: the request is refused, and the
    refusal is what the caller gets. *)
Lemma label_edits_are_guarded_witness :
  MessagesModify "me" (Some "msg-1") (mk_modify (Some ["UNREAD"]) None)
    ∈ calls (Message.run Message.MarkAsRead Sample.stranded) /\
  messages_modify (Message.google_service Sample.stranded) "me" (Some "msg-1")
                  (mk_modify (Some ["UNREAD"]) None)
  = Raise (HttpError 503 "Service Unavailable") /\
  outcome (Message.run Message.MarkAsRead Sample.stranded)
  = Raise (HttpError 503 "Service Unavailable") /\
  after (Message.run Message.MarkAsRead Sample.stranded) = Sample.stranded.
Proof.
  assert (Hin : MessagesModify "me" (Some "msg-1") (mk_modify (Some ["UNREAD"]) None)
                  ∈ calls (Message.run Message.MarkAsRead Sample.stranded)).
  { apply list_elem_of_In. left. reflexivity. }
  split; [exact Hin|]. split; [reflexivity|].
  exact (proj2 (label_edits_are_guarded Message.MarkAsRead Sample.stranded)
               "me" (Some "msg-1") (mk_modify (Some ["UNREAD"]) None)
               (HttpError 503 "Service Unavailable") Hin eq_refl).
Defined.

(** *** The local update on a label list *)

Lemma list_remove_absent (x : string) (l : list string) :
  x ∉ l -> Message.list_remove x l = l.
Proof.
  induction l as [|y l IH]; simpl; [done|].
  rewrite not_elem_of_cons. intros [Hne Hnin].
  rewrite bool_decide_eq_false_2 by done. by rewrite IH.
Qed.

Lemma elem_of_list_remove_ne (x y : string) (l : list string) :
  y <> x -> y ∈ Message.list_remove x l <-> y ∈ l.
Proof.
  intros Hne. induction l as [|z l IH]; simpl; [done|].
  case_bool_decide as Hz.
  - subst. rewrite elem_of_cons. split; [auto | intros [?|?]; [done | done]].
  - rewrite !elem_of_cons, IH. done.
Qed.

Lemma elem_of_list_remove (x y : string) (l : list string) :
  y ∈ Message.list_remove x l -> y ∈ l.
Proof.
  induction l as [|z l IH]; simpl; [done|].
  case_bool_decide; rewrite ?elem_of_cons; [auto | intros [?|?]; auto].
Qed.

Lemma NoDup_list_remove (x : string) (l : list string) :
  NoDup l -> NoDup (Message.list_remove x l) /\ x ∉ Message.list_remove x l.
Proof.
  induction 1 as [|y l Hy Hl [IH1 IH2]]; simpl.
  - split; [constructor | apply not_elem_of_nil].
  - case_bool_decide as Hxy.
    + subst. done.
    + split.
      * constructor; [|done]. intros Hin. by apply Hy, elem_of_list_remove with x.
      * rewrite not_elem_of_cons. done.
Qed.

(** The multiset reading of [list.remove]: one occurrence fewer. *)
Lemma count_list_remove (x y : string) (l : list string) :
  x ∈ l ->
  count_occ string_dec (Message.list_remove x l) y
  = count_occ string_dec l y - (if bool_decide (x = y) then 1 else 0).
Proof.
  induction l as [|z l IH]; [by intros ?%elem_of_nil|].
  rewrite elem_of_cons. intros Hin. simpl.
  destruct (decide (x = z)) as [<-|Hxz].
  - rewrite (bool_decide_eq_true_2 (x = x)) by done.
    destruct (string_dec x y) as [->|Hne].
    + rewrite bool_decide_eq_true_2 by done. lia.
    + rewrite bool_decide_eq_false_2 by done. lia.
  - rewrite (bool_decide_eq_false_2 (x = z)) by done.
    destruct Hin as [?|Hin]; [done|]. simpl. rewrite (IH Hin).
    destruct (string_dec z y) as [->|Hne]; [|done].
    rewrite bool_decide_eq_false_2 by done. lia.
Qed.

Lemma append_missing_list (add l : list string) :
  exists fresh,
    Message.append_each add (Some l) = (Ok (), Some (l ++ fresh)) /\
    (forall x, x ∈ fresh <-> x ∈ add /\ x ∉ l) /\
    NoDup fresh.
Proof.
  revert l. induction add as [|label rest IH]; intros l; simpl.
  - exists []. rewrite app_nil_r. split; [done|]. split; [|constructor].
    intros x. rewrite !elem_of_nil. tauto.
  - case_bool_decide as Hin.
    + destruct (IH l) as (fresh & -> & Hfresh & Hnd). exists fresh.
      split; [done|]. split; [|done].
      intros x. rewrite Hfresh, elem_of_cons. split; [tauto|].
      intros [[->|?] ?]; [done | tauto].
    + destruct (IH (l ++ [label])) as (fresh & -> & Hfresh & Hnd).
      exists (label :: fresh). rewrite <- app_assoc. split; [done|]. split.
      * intros x. rewrite !elem_of_cons, Hfresh, elem_of_app, list_elem_of_singleton.
        destruct (decide (x = label)) as [->|Hne]; [tauto|]. tauto.
      * constructor; [|done]. rewrite Hfresh, elem_of_app, list_elem_of_singleton. tauto.
Qed.

Lemma remove_present_list (remove l : list string) :
  exists l',
    Message.remove_each remove (Some l) = (Ok (), Some l') /\
    (forall y, count_occ string_dec l' y
               = count_occ string_dec l y - count_occ string_dec remove y).
Proof.
  revert l. induction remove as [|label rest IH]; intros l; simpl.
  - exists l. split; [done|]. intros y. lia.
  - case_bool_decide as Hin.
    + destruct (IH (Message.list_remove label l)) as (l' & -> & Hcount).
      exists l'. split; [done|]. intros y. rewrite Hcount, (count_list_remove _ _ _ Hin).
      destruct (string_dec label y) as [->|Hne].
      * rewrite bool_decide_eq_true_2 by done. lia.
      * rewrite bool_decide_eq_false_2 by done. lia.
    + destruct (IH l) as (l' & -> & Hcount).
      exists l'. split; [done|]. intros y. rewrite Hcount.
      destruct (string_dec label y) as [->|Hne]; [|done].
      assert (count_occ string_dec l y = 0); [|lia].
      apply count_occ_not_In. by rewrite <- list_elem_of_In.
Qed.
(** *** Edits at a service that accepts them *)

Lemma has_label_set (x : string) (l : list string) (self : Message.t) :
  Message.has_label x (Message.set_labelIds (Some l) self) = bool_decide (x ∈ l).
Proof.
  unfold Message.has_label. simpl. destruct l; [|done].
  symmetry. apply bool_decide_eq_false_2, not_elem_of_nil.
Qed.

Lemma edit_labels_accepted (action : LabelAction) (add remove : option Message.label_list)
      (payload : ModifyBody) (self : Message.t) :
  accepting (Message.google_service self) ->
  Message.request_body action (Message.contents (Message.labelIds self) add)
                       (Message.contents (Message.labelIds self) remove)
  = Ok (Some payload) ->
  Message._edit_labels action add remove self =
  (let '(out, ids) := Message.update_local action add remove (Message.labelIds self) in
   (out, Message.set_labelIds ids self,
    [MessagesModify (user_id (Message.google_service self)) (Message.id self) payload;
     ServiceClose])).
Proof.
  intros Hacc Hbody. unfold Message._edit_labels. by rewrite Hbody, Hacc.
Qed.

Lemma add_labels_list (add l : list string) (self : Message.t) :
  accepting (Message.google_service self) ->
  Message.labelIds self = Some l ->
  exists fresh,
    Message.add_labels (Message.ListOf add) self =
    (Ok true, Message.set_labelIds (Some (l ++ fresh)) self,
     [MessagesModify (user_id (Message.google_service self)) (Message.id self)
                     (mk_modify None (Some add)); ServiceClose]) /\
    (forall x, x ∈ fresh <-> x ∈ add /\ x ∉ l) /\
    NoDup fresh.
Proof.
  intros Hacc Hl. destruct (append_missing_list add l) as (fresh & Hrun & Hfresh & Hnd).
  exists fresh. split; [|done].
  unfold Message.add_labels.
  rewrite (edit_labels_accepted ADD _ _ (mk_modify None (Some add))) by done.
  rewrite Hl. simpl. by rewrite Hrun.
Qed.

Lemma remove_labels_list (remove l : list string) (self : Message.t) :
  accepting (Message.google_service self) ->
  Message.labelIds self = Some l ->
  exists l',
    Message.remove_labels (Message.ListOf remove) self =
    (Ok true, Message.set_labelIds (Some l') self,
     [MessagesModify (user_id (Message.google_service self)) (Message.id self)
                     (mk_modify (Some remove) None); ServiceClose]) /\
    (forall y, count_occ string_dec l' y
               = count_occ string_dec l y - count_occ string_dec remove y).
Proof.
  intros Hacc Hl. destruct (remove_present_list remove l) as (l' & Hrun & Hcount).
  exists l'. split; [|done].
  unfold Message.remove_labels.
  rewrite (edit_labels_accepted REMOVE _ _ (mk_modify (Some remove) None)) by done.
  rewrite Hl. simpl. by rewrite Hrun.
Qed.

Lemma modify_labels_list (add remove l : list string) (self : Message.t) :
  accepting (Message.google_service self) ->
  Message.labelIds self = Some l ->
  exists fresh l',
    Message.modify_labels (Some (Message.ListOf add)) (Some (Message.ListOf remove)) self =
    (Ok true, Message.set_labelIds (Some l') self,
     [MessagesModify (user_id (Message.google_service self)) (Message.id self)
                     (mk_modify (Some remove) (Some add)); ServiceClose]) /\
    (forall x, x ∈ fresh <-> x ∈ add /\ x ∉ l) /\ NoDup fresh /\
    (forall y, count_occ string_dec l' y
               = count_occ string_dec (l ++ fresh) y - count_occ string_dec remove y).
Proof.
  intros Hacc Hl. destruct (append_missing_list add l) as (fresh & Hadd & Hfresh & Hnd).
  destruct (remove_present_list remove (l ++ fresh)) as (l' & Hrem & Hcount).
  exists fresh, l'. split; [|done].
  unfold Message.modify_labels.
  rewrite (edit_labels_accepted TOGGLE _ _ (mk_modify (Some remove) (Some add))) by done.
  rewrite Hl. simpl. by rewrite Hadd, Hrem.
Qed.

Lemma add_label_list (x : string) (l : list string) (self : Message.t) :
  accepting (Message.google_service self) ->
  Message.labelIds self = Some l ->
  Message.add_label x self =
  (Ok true,
   Message.set_labelIds (Some (if bool_decide (x ∈ l) then l else l ++ [x])) self,
   [MessagesModify (user_id (Message.google_service self)) (Message.id self)
                   (mk_modify None (Some [x])); ServiceClose]).
Proof.
  intros Hacc Hl. unfold Message.add_label.
  rewrite (edit_labels_accepted ADD _ _ (mk_modify None (Some [x]))) by done.
  by rewrite Hl.
Qed.

Lemma remove_label_list (x : string) (l : list string) (self : Message.t) :
  accepting (Message.google_service self) ->
  Message.labelIds self = Some l ->
  Message.remove_label x self =
  (Ok true,
   Message.set_labelIds (Some (if bool_decide (x ∈ l) then Message.list_remove x l else l)) self,
   [MessagesModify (user_id (Message.google_service self)) (Message.id self)
                   (mk_modify (Some [x]) None); ServiceClose]).
Proof.
  intros Hacc Hl. unfold Message.remove_label.
  rewrite (edit_labels_accepted REMOVE _ _ (mk_modify (Some [x]) None)) by done.
  by rewrite Hl.
Qed.

(** On a message that has a label list, an accepted [add_label] shows at
    once in the flag read from that list. *)
Lemma flag_follows_add_label (x : string) (l : list string) (self : Message.t) :
  accepting (Message.google_service self) ->
  Message.labelIds self = Some l ->
  Message.has_label x (after (Message.add_label x self)) = true.
Proof.
  intros Hacc Hl. rewrite (add_label_list x l) by done. unfold after. simpl.
  rewrite has_label_set. apply bool_decide_eq_true_2.
  case_bool_decide; [done|]. rewrite elem_of_app, list_elem_of_singleton. by right.
Qed.

(** C4 at the input where the code departs from it: a message built from
    JSON without "labelIds" has no label list; [add_label] sends the request,
    the service accepts it, and the local update raises [TypeError].  The
    label list is still absent and [is_unread] still answers no. *)
Theorem add_label_without_label_list :
  Message.__init__ Sample.service Sample.unlabelled = Ok Sample.unlabelled_message /\
  Message.labelIds Sample.unlabelled_message = None /\
  messages_modify Sample.service "me" (Some "msg-1") (mk_modify None (Some ["UNREAD"]))
  = Ok () /\
  Message.add_label Labels.UNREAD Sample.unlabelled_message
  = (Raise (TypeError "argument of type 'NoneType' is not iterable"),
     Sample.unlabelled_message,
     [MessagesModify "me" (Some "msg-1") (mk_modify None (Some ["UNREAD"])); ServiceClose]) /\
  Message.is_unread (after (Message.add_label Labels.UNREAD Sample.unlabelled_message))
  = false.
Proof. repeat split; reflexivity. Qed.
Lemma has_label_list (x : string) (l : list string) (self : Message.t) :
  Message.labelIds self = Some l -> Message.has_label x self = bool_decide (x ∈ l).
Proof.
  intros Hl. unfold Message.has_label. rewrite Hl. destruct l; [|done].
  symmetry. apply bool_decide_eq_false_2, not_elem_of_nil.
Qed.

Lemma list_remove_snoc (x : string) (l : list string) :
  x ∉ l -> Message.list_remove x (l ++ [x]) = l.
Proof.
  induction l as [|y l IH]; simpl.
  - intros _. by rewrite bool_decide_eq_true_2.
  - rewrite not_elem_of_cons. intros [Hne Hnin].
    rewrite bool_decide_eq_false_2 by done. by rewrite IH.
Qed.

Lemma mark_as_read_list (l : list string) (self : Message.t) :
  accepting (Message.google_service self) ->
  Message.labelIds self = Some l ->
  outcome (Message.mark_as_read self) = Ok () /\
  after (Message.mark_as_read self)
  = Message.set_labelIds
      (Some (if bool_decide (Labels.UNREAD ∈ l)
             then Message.list_remove Labels.UNREAD l else l)) self.
Proof.
  intros Hacc Hl. unfold Message.mark_as_read.
  by rewrite (remove_label_list _ l).
Qed.

Lemma toggle_starred_list (l : list string) (self : Message.t) :
  accepting (Message.google_service self) ->
  Message.labelIds self = Some l ->
  outcome (Message.toggle_starred self) = Ok () /\
  after (Message.toggle_starred self)
  = Message.set_labelIds
      (Some (if bool_decide (Labels.STARRED ∈ l)
             then Message.list_remove Labels.STARRED l
             else l ++ [Labels.STARRED])) self.
Proof.
  intros Hacc Hl. unfold Message.toggle_starred, Message.is_starred.
  rewrite (has_label_list _ l) by done.
  unfold Message.mark_not_starred, Message.mark_starred.
  rewrite (remove_label_list _ l), (add_label_list _ l) by done.
  by case_bool_decide.
Qed.

(** C8, as amended: for a message whose label list names no label twice,
    with every modify request accepted, [mark_as_read] succeeds, leaves
    UNREAD out of the list and every other label as it was, and leaves the
    message untouched when UNREAD was not there; and two [toggle_starred] in
    a row succeed and end with the labels the message started with. *)
Theorem read_and_star_round_trips (self : Message.t) (l : list string) :
  Message.labelIds self = Some l ->
  NoDup l ->
  accepting (Message.google_service self) ->
  (outcome (Message.mark_as_read self) = Ok () /\
   exists l',
     Message.labelIds (after (Message.mark_as_read self)) = Some l' /\
     (Labels.UNREAD ∉ l') /\
     (forall x, x <> Labels.UNREAD -> (x ∈ l' <-> x ∈ l)) /\
     (Labels.UNREAD ∉ l -> after (Message.mark_as_read self) = self)) /\
  (outcome (Message.toggle_starred self) = Ok () /\
   outcome (Message.toggle_starred (after (Message.toggle_starred self))) = Ok () /\
   exists l'',
     Message.labelIds (after (Message.toggle_starred (after (Message.toggle_starred self))))
     = Some l'' /\
     NoDup l'' /\
     forall x, x ∈ l'' <-> x ∈ l).
Proof.
  intros Hl Hnd Hacc. split.
  - destruct (mark_as_read_list l self Hacc Hl) as [Hout Hafter].
    split; [done|]. rewrite Hafter. eexists. split; [reflexivity|].
    case_bool_decide as Hin.
    + destruct (NoDup_list_remove Labels.UNREAD l Hnd) as [_ Hgone].
      split; [done|]. split; [|done].
      intros x Hx. by apply elem_of_list_remove_ne.
    + split; [done|]. split; [done|]. intros _. rewrite <- Hl. apply set_labelIds_same.
  - destruct (toggle_starred_list l self Hacc Hl) as [Hout Hafter].
    split; [done|]. rewrite Hafter.
    match goal with |- context [Message.set_labelIds (Some ?l1) self] => set (once := l1) end.
    destruct (toggle_starred_list once (Message.set_labelIds (Some once) self))
      as [Hout' Hafter']; [done | done |].
    split; [done|]. rewrite Hafter'. eexists. split; [reflexivity|].
    subst once. destruct (NoDup_list_remove Labels.STARRED l Hnd) as [Hnd' Hgone].
    case_bool_decide as Hin.
    + rewrite bool_decide_eq_false_2 by done. split.
      * apply NoDup_app. split; [done|]. split; [|apply NoDup_singleton].
        intros x Hx ->%list_elem_of_singleton. done.
      * intros x. rewrite elem_of_app, list_elem_of_singleton.
        destruct (decide (x = Labels.STARRED)) as [->|Hne]; [tauto|].
        rewrite (elem_of_list_remove_ne _ _ _ Hne). tauto.
    + rewrite bool_decide_eq_true_2
        by (rewrite elem_of_app, list_elem_of_singleton; by right).
      by rewrite list_remove_snoc.
Qed.

Lemma read_and_star_round_trips_witness :
  Message.labelIds Sample.starred = Some ["INBOX"; "STARRED"; "UNREAD"] /\
  NoDup ["INBOX"; "STARRED"; "UNREAD"] /\
  accepting (Message.google_service Sample.starred) /\
  Message.labelIds (after (Message.mark_as_read Sample.starred)) = Some ["INBOX"; "STARRED"] /\
  exists l'',
    Message.labelIds
      (after (Message.toggle_starred (after (Message.toggle_starred Sample.starred))))
    = Some l'' /\
    forall x, x ∈ l'' <-> x ∈ ["INBOX"; "STARRED"; "UNREAD"].
Proof.
  assert (Hnd : NoDup ["INBOX"; "STARRED"; "UNREAD"]).
  { repeat (constructor; [rewrite ?elem_of_cons, ?elem_of_nil; intros H; repeat destruct H as [H|H]; discriminate H || done|]). constructor. }
  assert (Hacc : accepting (Message.google_service Sample.starred)) by (intros ???; reflexivity).
  split; [reflexivity|]. split; [exact Hnd|]. split; [exact Hacc|]. split; [reflexivity|].
  destruct (read_and_star_round_trips Sample.starred _ eq_refl Hnd Hacc)
    as (_ & _ & _ & l'' & Hl'' & _ & Hsame).
  exists l''. split; [exact Hl'' | exact Hsame].
Defined.

(** C8, as stated, fails: with STARRED named twice in the label list and
    every request accepted, two [toggle_starred] in a row succeed and leave
    the list empty, so STARRED is lost. *)
Lemma toggle_starred_twice_loses_label :
  Message.labelIds Sample.doubly_starred = Some ["STARRED"; "STARRED"] /\
  accepting (Message.google_service Sample.doubly_starred) /\
  outcome (Message.toggle_starred Sample.doubly_starred) = Ok () /\
  outcome (Message.toggle_starred (after (Message.toggle_starred Sample.doubly_starred)))
  = Ok () /\
  Message.labelIds
    (after (Message.toggle_starred (after (Message.toggle_starred Sample.doubly_starred))))
  = Some [].
Proof. repeat split; reflexivity. Qed.
(** ** Attachment download *)

Section Download.
Context `{PyLib}.

(** C7, as amended: [download] returns without a call when the id is
    absent or empty, or when data is already there and non-empty; else it
    raises [TypeError] without a call when the service knows no message
    id; else it sends one request and closes the service: a refusal is
    passed on, a response without a payload leaves the attachment as it
    was, and a payload is base64url-decoded and stored in [data] -- after
    which, if what was stored is non-empty, a further [download] does
    nothing. *)
Theorem download_cases (self : Attachment.t) :
  let svc := Attachment.google_service self in
  (Py.truthy (Attachment.id self) = false \/ Py.truthy (Attachment.data self) = true ->
   Attachment.download self = (Ok (), self, [])) /\
  (Py.truthy (Attachment.id self) = true ->
   Py.truthy (Attachment.data self) = false ->
   Py.truthy (message_id svc) = false ->
   Attachment.download self
   = (Raise (TypeError "Attachment.google_service.message_id missing"), self, [])) /\
  (forall aid mid,
      Attachment.id self = Some aid -> Py.truthy (Some aid) = true ->
      Py.truthy (Attachment.data self) = false ->
      message_id svc = Some mid -> Py.truthy (Some mid) = true ->
      let trace := [AttachmentsGet (user_id svc) mid aid; ServiceClose] in
      (forall e, attachments_get svc (user_id svc) mid aid = Raise e ->
                 Attachment.download self = (Raise e, self, trace)) /\
      (forall res, attachments_get svc (user_id svc) mid aid = Ok res ->
                   Attachment.payload_of res = None ->
                   Attachment.download self = (Ok (), self, trace)) /\
      (forall res d e, attachments_get svc (user_id svc) mid aid = Ok res ->
                       Attachment.payload_of res = Some d ->
                       urlsafe_b64decode d = Raise e ->
                       Attachment.download self = (Raise e, self, trace)) /\
      (forall res d bytes,
          attachments_get svc (user_id svc) mid aid = Ok res ->
          Attachment.payload_of res = Some d ->
          urlsafe_b64decode d = Ok bytes ->
          Attachment.download self
          = (Ok (), Attachment.set_data (Some bytes) self, trace) /\
          (bytes <> EmptyString ->
           Attachment.download (Attachment.set_data (Some bytes) self)
           = (Ok (), Attachment.set_data (Some bytes) self, [])))).
Proof.
  intros svc. subst svc. unfold Attachment.download. split; [|split].
  - intros [Hid | Hdata].
    + by destruct (Attachment.id self) as [[|]|].
    + rewrite Hdata. by destruct (Attachment.id self) as [[|]|].
  - intros Hid Hdata Hmid. rewrite Hdata.
    destruct (Attachment.id self) as [[|]|]; try discriminate.
    by destruct (message_id (Attachment.google_service self)) as [[|]|].
  - intros aid mid Hid Haid Hdata Hsvc Hmid. rewrite Hid, Hdata, Hsvc.
    destruct aid as [|a aid]; [discriminate|]. destruct mid as [|m mid]; [discriminate|].
    cbv zeta. split; [|split; [|split]].
    + intros e Hget. by rewrite Hget.
    + intros res Hget Hres. by rewrite Hget, Hres.
    + intros res d e Hget Hres Hdec. by rewrite Hget, Hres, Hdec.
    + intros res d bytes Hget Hres Hdec. rewrite Hget, Hres, Hdec. split; [done|].
      intros Hne. simpl. rewrite Hid. by destruct bytes.
Qed.

End Download.

(** The attachment "att-1" of the sample service: fetched once, then kept. *)
Lemma download_cases_witness :
  Attachment.id Sample.remote_file = Some "att-1" /\
  Py.truthy (Attachment.data Sample.remote_file) = false /\
  message_id Sample.service = Some "msg-1" /\
  attachments_get Sample.service "me" "msg-1" "att-1"
  = Ok (Some (mk_body_resource (Some 5%Z) None (Some "SGVsbG8="))) /\
  @urlsafe_b64decode cpython "SGVsbG8=" = Ok "Hello" /\
  @Attachment.download cpython Sample.remote_file
  = (Ok (), Attachment.set_data (Some "Hello") Sample.remote_file,
     [AttachmentsGet "me" "msg-1" "att-1"; ServiceClose]) /\
  @Attachment.download cpython (Attachment.set_data (Some "Hello") Sample.remote_file)
  = (Ok (), Attachment.set_data (Some "Hello") Sample.remote_file, []).
Proof.
  do 5 (split; [reflexivity|]).
  destruct (@download_cases cpython Sample.remote_file) as (_ & _ & Hcall).
  destruct (Hcall "att-1" "msg-1" eq_refl eq_refl eq_refl eq_refl eq_refl)
    as (_ & _ & _ & Hstore).
  destruct (Hstore _ "SGVsbG8=" "Hello" eq_refl eq_refl eq_refl) as [Hfirst Hnext].
  split; [exact Hfirst | apply Hnext; discriminate].
Defined.

(** C7, as stated, fails: the request for the empty file "att-0" succeeds,
    its payload is decoded and stored, and the next [download] sends the
    request again, because the stored payload is empty.  Likewise for
    "att-2", where the accepted request brings no payload and nothing is
    stored. *)
Lemma download_repeats_after_success :
  (attachments_get Sample.service "me" "msg-1" "att-0"
   = Ok (Some (mk_body_resource (Some 0%Z) None (Some EmptyString))) /\
   @urlsafe_b64decode cpython EmptyString = Ok EmptyString /\
   @Attachment.download cpython Sample.empty_file
   = (Ok (), Attachment.set_data (Some EmptyString) Sample.empty_file,
      [AttachmentsGet "me" "msg-1" "att-0"; ServiceClose]) /\
   @Attachment.download cpython (Attachment.set_data (Some EmptyString) Sample.empty_file)
   = (Ok (), Attachment.set_data (Some EmptyString) Sample.empty_file,
      [AttachmentsGet "me" "msg-1" "att-0"; ServiceClose])) /\
  (attachments_get Sample.service "me" "msg-1" "att-2"
   = Ok (Some (mk_body_resource (Some 0%Z) None None)) /\
   @Attachment.download cpython Sample.hollow_file
   = (Ok (), Sample.hollow_file, [AttachmentsGet "me" "msg-1" "att-2"; ServiceClose])).
Proof. repeat split; reflexivity. Qed.
(** ** Splitting and replacing *)

Lemma split_from_not_nil (sep : string) (skip : nat) (s : string) :
  Py.split_from sep skip s <> [].
Proof.
  revert skip. induction s as [|c s IH]; intros skip; cbn [Py.split_from]; [done|].
  destruct skip; [|apply IH].
  destruct (String.prefix sep (String c s)); [done|].
  by destruct (Py.split_from sep 0 s).
Qed.

Lemma split_without_separator (sep s : string) :
  Py.contains sep s = false -> Py.split sep s = [s].
Proof.
  unfold Py.split. induction s as [|c s IH]; [done|].
  cbn [Py.contains Py.split_from].
  intros [Hhead Htail]%orb_false_elim. rewrite Hhead. by rewrite (IH Htail).
Qed.

Lemma split_with_separator (sep s : string) :
  sep <> EmptyString -> Py.contains sep s = true ->
  exists a b rest, Py.split sep s = a :: b :: rest.
Proof.
  intros Hsep. unfold Py.split. induction s as [|c s IH].
  - simpl. by destruct sep.
  - cbn [Py.contains Py.split_from]. intros [Hhead | Htail]%orb_true_elim.
    + rewrite Hhead.
      destruct (Py.split_from sep (String.length sep - 1) s) as [|b rest] eqn:E.
      * by apply split_from_not_nil in E.
      * by exists EmptyString, b, rest.
    + destruct (IH Htail) as (a & b & rest & ->).
      destruct (String.prefix sep (String c s)).
      * destruct (Py.split_from sep (String.length sep - 1) s) as [|b' rest'] eqn:E.
        -- by apply split_from_not_nil in E.
        -- by exists EmptyString, b', rest'.
      * by exists (String c a), b, rest.
Qed.

Lemma prefix_empty (s : string) : String.prefix EmptyString s = true.
Proof. by destruct s. Qed.

Lemma append_empty (s : string) : EmptyString +:+ s = s.
Proof. reflexivity. Qed.

Lemma append_cons (c : ascii) (a b : string) : String c a +:+ b = String c (a +:+ b).
Proof. reflexivity. Qed.

(** Splitting on one character, at its first occurrence. *)
Lemma split_at_first (c : ascii) (a b : string) :
  Py.contains (String c EmptyString) a = false ->
  Py.split (String c EmptyString) (a +:+ String c b)
  = a :: Py.split (String c EmptyString) b.
Proof.
  unfold Py.split. induction a as [|x a IH]; intros Ha.
  - rewrite append_empty. cbn. destruct (ascii_dec c c); [|done]. by destruct b.
  - cbn [Py.contains] in Ha. apply orb_false_elim in Ha as [Hx Ha].
    rewrite append_cons. cbn in Hx |- *.
    destruct (ascii_dec c x) as [->|Hne].
    + by destruct a.
    + by rewrite (IH Ha).
Qed.

Lemma contains_at (c : ascii) (a b : string) :
  Py.contains (String c EmptyString) (a +:+ String c b) = true.
Proof.
  induction a as [|x a IH]; rewrite ?append_empty, ?append_cons; cbn.
  - destruct (ascii_dec c c); [|done]. by destruct b.
  - rewrite IH. apply orb_true_r.
Qed.

Lemma contains_app_char (c : ascii) (a b : string) :
  Py.contains (String c EmptyString) (a +:+ b)
  = Py.contains (String c EmptyString) a || Py.contains (String c EmptyString) b.
Proof.
  induction a as [|x a IH]; [done|]. rewrite append_cons. cbn. rewrite IH.
  destruct (ascii_dec c x); [by rewrite !prefix_empty | done].
Qed.

Lemma replace_char_delete (c : ascii) (s : string) :
  Py.replace (String c EmptyString) EmptyString s = without_char c s.
Proof.
  unfold Py.replace. induction s as [|x s IH]; [done|].
  cbn. destruct (ascii_dec c x) as [->|Hne].
  - rewrite Ascii.eqb_refl, <- IH. by destruct s.
  - destruct (Ascii.eqb_spec x c) as [->|_]; [done|]. by rewrite IH.
Qed.

Lemma without_char_absent (c : ascii) (s : string) :
  Py.contains (String c EmptyString) s = false -> without_char c s = s.
Proof.
  induction s as [|x s IH]; [done|]. cbn.
  destruct (ascii_dec c x) as [->|Hne].
  - by destruct s.
  - intros Hs. destruct (Ascii.eqb_spec x c) as [->|_]; [done|]. by rewrite IH.
Qed.

Lemma without_char_app (c : ascii) (a b : string) :
  without_char c (a +:+ b) = without_char c a +:+ without_char c b.
Proof.
  induction a as [|x a IH]; [done|]. rewrite append_cons. cbn. rewrite IH.
  by destruct (Ascii.eqb x c).
Qed.
(** ** Header-derived views *)

Lemma append_nil_r (s : string) : s +:+ EmptyString = s.
Proof. induction s as [|c s IH]; [done|]. by rewrite append_cons, IH. Qed.

(** Where [sender] does what the spec says: a quoted name comes back
    without its quotes, a bare address in angle brackets that ends the value
    comes back without them, and a value with neither comes back as it is. *)
Lemma sender_cases (self : Message.t) (v : string) :
  Message.sender_header self = Ok (Some v) ->
  v <> EmptyString ->
  (forall pre name rest,
      v = pre +:+ Py.DQUOTE +:+ name +:+ Py.DQUOTE +:+ rest ->
      Py.contains Py.DQUOTE pre = false ->
      Py.contains Py.DQUOTE name = false ->
      Message.sender self = Ok (Some name)) /\
  (forall pre addr,
      Py.contains Py.DQUOTE v = false ->
      v = pre +:+ "<" +:+ addr +:+ ">" ->
      Py.contains "<" pre = false ->
      Py.contains "<" addr = false ->
      Py.contains ">" addr = false ->
      Message.sender self = Ok (Some addr)) /\
  (Py.contains Py.DQUOTE v = false ->
   Py.contains "<" v = false ->
   Message.sender self = Ok (Some v)).
Proof.
  intros Hheader Hv. unfold Message.sender. rewrite Hheader. simpl.
  destruct v as [|c0 v0]; [done|]. split; [|split].
  - intros pre name rest Heq Hpre Hname. rewrite Heq.
    change (pre +:+ Py.DQUOTE +:+ name +:+ Py.DQUOTE +:+ rest)
      with (pre +:+ String "034" (name +:+ String "034" rest)).
    unfold Py.DQUOTE in *. rewrite contains_at.
    rewrite (split_at_first _ _ _ Hpre), (split_at_first _ _ _ Hname). done.
  - intros pre addr Hquote Heq Hpre Haddr Hclose. rewrite Hquote, Heq.
    change (pre +:+ "<" +:+ addr +:+ ">") with (pre +:+ String "<" (addr +:+ ">")).
    rewrite contains_at, (split_at_first _ _ _ Hpre).
    rewrite split_without_separator
      by (rewrite (contains_app_char "<"), Haddr; reflexivity).
    simpl. rewrite (replace_char_delete ">"), without_char_app.
    rewrite (without_char_absent _ _ Hclose). simpl. by rewrite append_nil_r.
  - intros Hquote Hangle. by rewrite Hquote, Hangle.
Qed.

Lemma sender_without_header (self : Message.t) :
  Message.sender_header self = Ok None -> Message.sender self = Ok None.
Proof. intros Hheader. unfold Message.sender. by rewrite Hheader. Qed.

(** The two sample values of the spec, and a message with no "From". *)
Example sender_quoted_sample :
  Message.sender
    (Sample.mail [Sample.header "From"
                    (Py.DQUOTE +:+ "Jane Doe" +:+ Py.DQUOTE +:+ " <jane@example.com>")])
  = Ok (Some "Jane Doe").
Proof. reflexivity. Qed.

Example sender_address_sample :
  Message.sender (Sample.mail [Sample.header "From" "<jane@example.com>"])
  = Ok (Some "jane@example.com").
Proof. reflexivity. Qed.

Example sender_absent_sample :
  Message.sender (Sample.mail [Sample.header "To" "joe@example.com"]) = Ok None.
Proof. reflexivity. Qed.

(** C5 at an input where the code departs from it: the value holds no
    double quote and one address in angle brackets, followed by a comment;
    [sender] returns the address together with what follows the ">" instead
    of the text between "<" and ">". *)
Theorem sender_keeps_text_after_address :
  Message.sender_header
    (Sample.mail [Sample.header "From" "Jane <jane@example.com> (work)"])
  = Ok (Some ("Jane " +:+ "<" +:+ "jane@example.com" +:+ ">" +:+ " (work)")) /\
  Py.contains Py.DQUOTE "Jane <jane@example.com> (work)" = false /\
  Message.sender (Sample.mail [Sample.header "From" "Jane <jane@example.com> (work)"])
  = Ok (Some "jane@example.com (work)").
Proof. repeat split; reflexivity. Qed.
Lemma unpack2_other (l : list string) :
  length l <> 2 -> exists msg, Message.unpack2 l = Raise (ValueError msg).
Proof. destruct l as [|a [|b [|c l]]]; simpl; intros Hlen; try done; eauto. Qed.

(** The date text of a "Received" value, case by case. *)
Lemma received_date_part_cases (value : string) :
  (forall hop d,
      Py.split "; " value = [hop; d] ->
      (d = EmptyString -> Message.received_date_part value = Ok None) /\
      (d <> EmptyString -> Py.contains "(" d = false ->
       Message.received_date_part value = Ok (Some (Py.strip d))) /\
      (forall d1 comment,
          d <> EmptyString -> Py.split "(" d = [d1; comment] ->
          (d1 = EmptyString -> Message.received_date_part value = Ok None) /\
          (d1 <> EmptyString ->
           Message.received_date_part value = Ok (Some (Py.strip d1)))) /\
      (d <> EmptyString -> Py.contains "(" d = true -> length (Py.split "(" d) <> 2 ->
       exists msg, Message.received_date_part value = Raise (ValueError msg))) /\
  (length (Py.split "; " value) <> 2 ->
   exists msg, Message.received_date_part value = Raise (ValueError msg)).
Proof.
  unfold Message.received_date_part. split.
  - intros hop d ->. cbn -[Py.contains Py.split Py.strip]. split; [by intros ->|].
    split; [|split].
    + intros Hd Hparen. destruct d; [done|]. cbn -[Py.contains Py.split Py.strip].
      by rewrite Hparen.
    + intros d1 comment Hd Hsplit.
      assert (Hparen : Py.contains "(" d = true).
      { destruct (Py.contains "(" d) eqn:E; [done|].
        rewrite (split_without_separator _ _ E) in Hsplit. discriminate. }
      destruct d; [done|]. cbn -[Py.contains Py.split Py.strip].
      rewrite Hparen, Hsplit. cbn -[Py.contains Py.split Py.strip].
      split; [by intros -> | intros Hd1; by destruct d1].
    + intros Hd Hparen Hlen. destruct d; [done|]. cbn -[Py.contains Py.split Py.strip].
      rewrite Hparen.
      destruct (unpack2_other _ Hlen) as [msg ->]. by exists msg.
  - intros Hlen. destruct (unpack2_other _ Hlen) as [msg ->]. by exists msg.
Qed.

(** C3, as amended: [date] prefers the first "Received" header over
    "Date".  A "Received" value must hold the separator "; " exactly once:
    what precedes it is dropped, what follows is the date text; an empty
    date text gives no date; a date text with one "(" is cut there (nothing
    before the "(" gives no date); the text is trimmed and parsed with
    "%a, %d %b %Y %H:%M:%S %z".  With no separator, or more than one, or more
    than one "(", [date] raises [ValueError].  A "Date" value is parsed as it
    is, and with neither header there is no date.  The value "from x; Wed,
    5 Jun 2024 10:00:00 -0400 (EDT)" gives 2024-06-05T10:00:00-04:00. *)
Theorem date_of_headers :
  (forall (lib : PyLib) (self : Message.t) (p : MessagePart.t),
      Message.payload self = Some p ->
      (forall h hop d,
          MessagePart.get_header "Received" p = MessagePart.OneHeader h ->
          Py.split "; " (MessageHeader.value h) = [hop; d] ->
          (d = EmptyString -> Message.date self = Ok None) /\
          (d <> EmptyString -> Py.contains "(" d = false ->
           Message.date self
           = Some <$> strptime (Py.strip d) "%a, %d %b %Y %H:%M:%S %z") /\
          (forall d1 comment,
              d <> EmptyString -> Py.split "(" d = [d1; comment] ->
              (d1 = EmptyString -> Message.date self = Ok None) /\
              (d1 <> EmptyString ->
               Message.date self
               = Some <$> strptime (Py.strip d1) "%a, %d %b %Y %H:%M:%S %z")) /\
          (d <> EmptyString -> Py.contains "(" d = true ->
           length (Py.split "(" d) <> 2 ->
           exists msg, Message.date self = Raise (ValueError msg))) /\
      (forall h,
          MessagePart.get_header "Received" p = MessagePart.OneHeader h ->
          length (Py.split "; " (MessageHeader.value h)) <> 2 ->
          exists msg, Message.date self = Raise (ValueError msg)) /\
      (forall h,
          MessagePart.get_header "Received" p = MessagePart.NoHeader ->
          MessagePart.get_header "Date" p = MessagePart.OneHeader h ->
          Message.date self
          = Some <$> strptime (MessageHeader.value h) "%a, %d %b %Y %H:%M:%S %z") /\
      (MessagePart.get_header "Received" p = MessagePart.NoHeader ->
       MessagePart.get_header "Date" p = MessagePart.NoHeader ->
       Message.date self = Ok None)) /\
  @Message.date cpython
    (Sample.mail [Sample.header "Date" "Thu, 6 Jun 2024 09:00:00 +0000";
                  Sample.header "Received" "from x; Wed, 5 Jun 2024 10:00:00 -0400 (EDT)"])
  = Ok (Some Sample.june_5th).
Proof.
  split; [|reflexivity].
  intros lib self p Hp.
  assert (Hreceived : forall h,
             MessagePart.get_header "Received" p = MessagePart.OneHeader h ->
             Message.date self =
             (date_part ← Message.received_date_part (MessageHeader.value h);
              match date_part with
              | None => mret None
              | Some date_part => Some <$> strptime date_part "%a, %d %b %Y %H:%M:%S %z"
              end)).
  { intros h Hh. unfold Message.date, Message.get_payload. rewrite Hp. simpl.
    by rewrite Hh. }
  split; [|split; [|split]].
  - intros h hop d Hh Hsplit. rewrite (Hreceived h Hh).
    destruct (received_date_part_cases (MessageHeader.value h)) as [Hcases _].
    destruct (Hcases hop d Hsplit) as (Hempty & Hplain & Hcut & Hmany).
    split; [|split; [|split]].
    + intros Hd. by rewrite (Hempty Hd).
    + intros Hd Hparen. by rewrite (Hplain Hd Hparen).
    + intros d1 comment Hd Hd1. destruct (Hcut d1 comment Hd Hd1) as [Hnone Hsome].
      split; [intros E; by rewrite (Hnone E) | intros E; by rewrite (Hsome E)].
    + intros Hd Hparen Hlen. destruct (Hmany Hd Hparen Hlen) as [msg ->]. by exists msg.
  - intros h Hh Hlen. rewrite (Hreceived h Hh).
    destruct (received_date_part_cases (MessageHeader.value h)) as [_ Hbad].
    destruct (Hbad Hlen) as [msg ->]. by exists msg.
  - intros h Hnone Hdate. unfold Message.date, Message.get_payload. rewrite Hp. simpl.
    by rewrite Hnone, Hdate.
  - intros Hnone Hdate. unfold Message.date, Message.get_payload. rewrite Hp. simpl.
    by rewrite Hnone, Hdate.
Qed.

(** The sample value of the spec, through the general statement. *)
Lemma date_of_headers_witness :
  Message.payload (Sample.mail [Sample.header "Received"
                                  "from x; Wed, 5 Jun 2024 10:00:00 -0400 (EDT)"])
  = Some (Sample.with_headers [Sample.header "Received"
                                 "from x; Wed, 5 Jun 2024 10:00:00 -0400 (EDT)"]) /\
  Py.split "; " "from x; Wed, 5 Jun 2024 10:00:00 -0400 (EDT)"
  = ["from x"; "Wed, 5 Jun 2024 10:00:00 -0400 (EDT)"] /\
  Py.split "(" "Wed, 5 Jun 2024 10:00:00 -0400 (EDT)"
  = ["Wed, 5 Jun 2024 10:00:00 -0400 "; "EDT)"] /\
  Py.strip "Wed, 5 Jun 2024 10:00:00 -0400 " = "Wed, 5 Jun 2024 10:00:00 -0400" /\
  @Message.date cpython
    (Sample.mail [Sample.header "Received" "from x; Wed, 5 Jun 2024 10:00:00 -0400 (EDT)"])
  = Some <$> @strptime cpython "Wed, 5 Jun 2024 10:00:00 -0400" "%a, %d %b %Y %H:%M:%S %z".
Proof.
  do 4 (split; [reflexivity|]).
  destruct (proj1 date_of_headers cpython
              (Sample.mail [Sample.header "Received"
                              "from x; Wed, 5 Jun 2024 10:00:00 -0400 (EDT)"])
              _ eq_refl) as (Hone & _).
  destruct (Hone (Sample.header "Received" "from x; Wed, 5 Jun 2024 10:00:00 -0400 (EDT)")
                 "from x" "Wed, 5 Jun 2024 10:00:00 -0400 (EDT)" eq_refl eq_refl)
    as (_ & _ & Hcut & _).
  destruct (Hcut "Wed, 5 Jun 2024 10:00:00 -0400 " "EDT)" ltac:(discriminate) eq_refl)
    as [_ Hparse].
  apply Hparse. discriminate.
Defined.

(** C3, as stated, fails: a "Received" value with two separators makes
    [date] raise, although the text after the last separator, cut at "(" and
    trimmed, parses to a date. *)
Lemma date_raises_on_second_separator :
  Py.split "; " "from x; by y; Wed, 5 Jun 2024 10:00:00 -0400 (EDT)"
  = ["from x"; "by y"; "Wed, 5 Jun 2024 10:00:00 -0400 (EDT)"] /\
  @strptime cpython "Wed, 5 Jun 2024 10:00:00 -0400" "%a, %d %b %Y %H:%M:%S %z"
  = Ok Sample.june_5th /\
  @Message.date cpython
    (Sample.mail [Sample.header "Received"
                    "from x; by y; Wed, 5 Jun 2024 10:00:00 -0400 (EDT)"])
  = Raise (ValueError "too many values to unpack (expected 2)").
Proof. repeat split; reflexivity. Qed.
(** * Further properties *)

(** ** What the mapping holds *)

Section ContentValues.
Context `{PyLib}.

Lemma texts_under_app (key : option string) (l1 l2 : list MessagePart.t) :
  texts_under key (l1 ++ l2) = texts_under key l1 ++ texts_under key l2.
Proof. unfold texts_under. apply flat_map_app. Qed.

Lemma texts_under_absent (key : option string) (l : list MessagePart.t) :
  key ∉ MessagePart.mimeType <$> l -> texts_under key l = [].
Proof.
  induction l as [|q l IH]; [done|]. rewrite fmap_cons, not_elem_of_cons.
  intros [Hq Hl]. unfold texts_under in *. simpl. rewrite (IH Hl).
  rewrite decide_False by done. done.
Qed.

Lemma prior_texts (key : option string) (l : list string)
      (mapping : gmap (option string) content_value) :
  mapping !! key = Some (Texts l) -> prior key mapping = l.
Proof. unfold prior. by intros ->. Qed.

(** What one part adds once its children have been dealt with, value by
    value. *)
Lemma extract_own_values (part : MessagePart.t)
      (mapping : gmap (option string) content_value) :
  all_texts mapping -> decodable part ->
  exists mapping',
    (let mapping := Message.setdefault_empty (MessagePart.mimeType part) mapping in
     match MessagePart.body part with
     | None => Ok mapping
     | Some b =>
         if negb (Py.truthy (MessagePartBody.data b)) then Ok mapping
         else text ← Message.decode_body (MessagePartBody.data b);
              Message.append_text (MessagePart.mimeType part) text mapping
     end) = Ok mapping' /\
    all_texts mapping' /\
    forall k, mapping' !! k =
              if decide (k = MessagePart.mimeType part)
              then Some (Texts (prior k mapping ++ body_text part))
              else mapping !! k.
Proof.
  intros Hall Hdec. cbv zeta.
  pose proof (all_texts_setdefault (MessagePart.mimeType part) mapping Hall) as Hall2.
  assert (Hset : forall k,
             Message.setdefault_empty (MessagePart.mimeType part) mapping !! k =
             if decide (k = MessagePart.mimeType part)
             then Some (Texts (prior k mapping)) else mapping !! k).
  { intros k. rewrite lookup_setdefault_empty. case_decide as Hk; [|done]. subst k.
    unfold prior. destruct (mapping !! MessagePart.mimeType part) as [v|] eqn:E; [|done].
    destruct (Hall _ _ E) as [l ->]. done. }
  unfold decodable in Hdec. unfold body_text.
  destruct (MessagePart.body part) as [b|].
  2:{ eexists. split; [reflexivity|]. split; [done|].
      intros k. rewrite Hset. case_decide; [by rewrite app_nil_r | done]. }
  destruct (Py.truthy (MessagePartBody.data b)) eqn:Hdata; simpl.
  2:{ eexists. split; [reflexivity|]. split; [done|].
      intros k. rewrite Hset. case_decide; [by rewrite app_nil_r | done]. }
  destruct (Hdec eq_refl) as [text Htext]. rewrite Htext. simpl.
  unfold Message.append_text. rewrite Hset, decide_True by done.
  eexists. split; [reflexivity|]. split.
  - intros k v. rewrite lookup_insert. case_decide; [intros [= <-]; eauto | apply Hall2].
  - intros k. rewrite lookup_insert. case_decide as Hk.
    + subst k. by rewrite decide_True.
    + rewrite decide_False by done. rewrite Hset. by rewrite decide_False.
Qed.

Lemma values_spec_prior (l : list MessagePart.t)
      (mapping mapping' : gmap (option string) content_value) (k : option string) :
  values_spec l mapping mapping' ->
  prior k mapping' = prior k mapping ++ texts_under k l.
Proof.
  intros Hspec. unfold prior at 1. rewrite Hspec. case_decide as Hk; [done|].
  rewrite (texts_under_absent _ _ Hk), app_nil_r. done.
Qed.

Lemma values_spec_trans (l1 l2 : list MessagePart.t)
      (m0 m1 m2 : gmap (option string) content_value) :
  values_spec l1 m0 m1 -> values_spec l2 m1 m2 -> values_spec (l1 ++ l2) m0 m2.
Proof.
  intros H1 H2 k.
  assert (Hiff : k ∈ MessagePart.mimeType <$> (l1 ++ l2) <->
                 k ∈ MessagePart.mimeType <$> l1 \/ k ∈ MessagePart.mimeType <$> l2)
    by (rewrite fmap_app, elem_of_app; done).
  rewrite (H2 k), texts_under_app, (values_spec_prior l1 m0 m1 k H1).
  destruct (decide (k ∈ MessagePart.mimeType <$> l2)) as [Hk2|Hk2].
  - rewrite decide_True by tauto. by rewrite app_assoc.
  - rewrite (H1 k), (texts_under_absent _ _ Hk2), app_nil_r.
    destruct (decide (k ∈ MessagePart.mimeType <$> l1)) as [Hk1|Hk1].
    + by rewrite decide_True by tauto.
    + by rewrite decide_False by tauto.
Qed.

Lemma values_spec_nil (mapping : gmap (option string) content_value) :
  values_spec [] mapping mapping.
Proof. intros k. rewrite decide_False; [done|]. simpl. apply not_elem_of_nil. Qed.

Lemma extract_each_values (sub_parts : list MessagePart.t) :
  Forall (fun part =>
            forall mapping, all_texts mapping -> Forall decodable (visited part) ->
            exists mapping',
              Message._extract_content part mapping = Ok mapping' /\
              all_texts mapping' /\ values_spec (visited part) mapping mapping')
         sub_parts ->
  forall mapping, all_texts mapping ->
  Forall decodable (flat_map visited sub_parts) ->
  exists mapping',
    Message.extract_each sub_parts mapping = Ok mapping' /\
    all_texts mapping' /\ values_spec (flat_map visited sub_parts) mapping mapping'.
Proof.
  induction 1 as [|part rest Hpart _ IH]; intros mapping Hall Hdec; simpl in *.
  - exists mapping. split; [done|]. split; [done|]. apply values_spec_nil.
  - apply Forall_app in Hdec as [Hd1 Hd2].
    destruct (Hpart mapping Hall Hd1) as (m1 & -> & Hall1 & Hv1). simpl.
    destruct (IH m1 Hall1 Hd2) as (m2 & -> & Hall2 & Hv2).
    exists m2. split; [done|]. split; [done|]. by eapply values_spec_trans.
Qed.

Lemma extract_content_values (part : MessagePart.t) :
  forall mapping, all_texts mapping -> Forall decodable (visited part) ->
  exists mapping',
    Message._extract_content part mapping = Ok mapping' /\
    all_texts mapping' /\ values_spec (visited part) mapping mapping'.
Proof.
  induction part as [mime hs ps pid fname b IHps] using part_ind.
  intros mapping Hall Hdec. rewrite extract_content_unfold.
  simpl in Hdec. apply Forall_app in Hdec as [Hsub Hown].
  apply Forall_cons in Hown as [Hown _].
  simpl MessagePart.mimeType. simpl MessagePart.parts.
  assert (exists m1,
    (if negb (Message.is_text mime) then Message.extract_each ps mapping else Ok mapping)
    = Ok m1 /\ all_texts m1 /\
    values_spec (if negb (Message.is_text mime) then flat_map visited ps else [])
                mapping m1)
    as (m1 & -> & Hall1 & Hv1).
  { destruct (negb (Message.is_text mime)).
    - by apply extract_each_values.
    - exists mapping. split; [done|]. split; [done|]. apply values_spec_nil. }
  simpl.
  destruct (extract_own_values (MessagePart.mk mime hs ps pid fname b) m1 Hall1 Hown)
    as (m2 & Hm2 & Hall2 & Hv2).
  exists m2. split; [exact Hm2|]. split; [done|].
  simpl visited. eapply values_spec_trans; [exact Hv1|].
  intros k. rewrite Hv2. simpl. unfold texts_under. simpl. rewrite app_nil_r.
  destruct (decide (k = mime)) as [->|Hk].
  - rewrite decide_True by (apply list_elem_of_singleton; done).
    by rewrite decide_True.
  - rewrite decide_False; [done|]. by rewrite list_elem_of_singleton.
Qed.

Lemma content_values (self : Message.t) (root : MessagePart.t) :
  Message.payload self = Some root ->
  MessagePart.parts root <> [] ->
  Forall decodable (flat_map visited (MessagePart.parts root)) ->
  exists mapping,
    Message._content self = Ok (Some mapping) /\
    forall k, mapping !! k =
              if decide (k ∈ MessagePart.mimeType <$> flat_map visited (MessagePart.parts root))
              then Some (Texts (texts_under k (flat_map visited (MessagePart.parts root))))
              else None.
Proof.
  intros Hpayload Hparts Hdec.
  destruct (extract_each_values (MessagePart.parts root)) with (mapping := (∅ : gmap (option string) content_value))
    as (mapping & Hrun & _ & Hvalues); [| |done|].
  { apply Forall_forall. intros part _. apply extract_content_values. }
  { intros key v. by rewrite lookup_empty. }
  exists mapping. split.
  { rewrite (content_with_children self root Hpayload Hparts). by rewrite Hrun. }
  intros k. rewrite (Hvalues k). unfold prior. by rewrite lookup_empty.
Qed.

Lemma texts_under_no_data (key : option string) (l : list MessagePart.t) :
  (forall p, p ∈ l -> MessagePart.mimeType p = key -> has_data p = false) ->
  texts_under key l = [].
Proof.
  unfold texts_under. induction l as [|p l IH]; intros Hno; [reflexivity|].
  cbn [flat_map]. rewrite IH by (intros q Hq; apply Hno; by right).
  case_decide as Hk; [|reflexivity].
  pose proof (Hno p ltac:(left) Hk) as Hp. unfold has_data in Hp. unfold body_text.
  destruct (MessagePart.body p) as [b|]; [|reflexivity]. by rewrite Hp.
Qed.

(** C1, as amended: for a part tree whose root has children, the keys of
    the mapping [_content] returns are exactly the MIME types of the parts
    the extraction goes through -- each child of the root and, in turn,
    each child of a part that is not text/plain or text/html.  Such a part
    is recursed into, and its own MIME type becomes a key as well.  Every
    key holds the decoded bodies of the visited parts of that MIME type
    that carry body data, in the order of the walk; so it holds an empty
    sequence when no visited part of that type carries body data. *)
Theorem content_keys_are_visited_types (self : Message.t) (root : MessagePart.t) :
  Message.payload self = Some root ->
  MessagePart.parts root <> [] ->
  Forall decodable (flat_map visited (MessagePart.parts root)) ->
  exists mapping,
    Message._content self = Ok (Some mapping) /\
    all_texts mapping /\
    (forall key, is_Some (mapping !! key) <->
                 key ∈ MessagePart.mimeType <$> flat_map visited (MessagePart.parts root)) /\
    (forall child, child ∈ MessagePart.parts root ->
                   is_Some (mapping !! MessagePart.mimeType child)) /\
    (forall q child,
        q ∈ flat_map visited (MessagePart.parts root) ->
        Message.is_text (MessagePart.mimeType q) = false ->
        child ∈ MessagePart.parts q ->
        is_Some (mapping !! MessagePart.mimeType q) /\
        is_Some (mapping !! MessagePart.mimeType child)) /\
    (forall q,
        q ∈ flat_map visited (MessagePart.parts root) ->
        mapping !! MessagePart.mimeType q
        = Some (Texts (texts_under (MessagePart.mimeType q)
                                   (flat_map visited (MessagePart.parts root))))) /\
    (forall q,
        q ∈ flat_map visited (MessagePart.parts root) ->
        (forall p, p ∈ flat_map visited (MessagePart.parts root) ->
                   MessagePart.mimeType p = MessagePart.mimeType q ->
                   has_data p = false) ->
        mapping !! MessagePart.mimeType q = Some (Texts [])).
Proof.
  intros Hpayload Hparts Hdec.
  destruct (content_values self root Hpayload Hparts Hdec) as (mapping & Hrun & Hv).
  assert (Hdom : forall key, is_Some (mapping !! key) <->
            key ∈ MessagePart.mimeType <$> flat_map visited (MessagePart.parts root)).
  { intros key. rewrite (Hv key). case_decide as Hk.
    - split; [done | intros _; by eexists].
    - split; [by intros [? [=]] | done]. }
  assert (Hin : forall p q, p ∈ MessagePart.parts root -> q ∈ visited p ->
                            q ∈ flat_map visited (MessagePart.parts root)).
  { intros p q Hp Hq. apply list_elem_of_In, in_flat_map. exists p.
    split; by apply list_elem_of_In. }
  assert (Hval : forall q,
             q ∈ flat_map visited (MessagePart.parts root) ->
             mapping !! MessagePart.mimeType q
             = Some (Texts (texts_under (MessagePart.mimeType q)
                                        (flat_map visited (MessagePart.parts root))))).
  { intros q Hq. rewrite (Hv (MessagePart.mimeType q)). rewrite decide_True; [done|].
    apply list_elem_of_fmap. by exists q. }
  exists mapping. split; [exact Hrun|]. split.
  { intros key v Hkv. rewrite (Hv key) in Hkv. case_decide; [|done].
    injection Hkv as <-. by eexists. }
  split; [exact Hdom|]. split; [|split; [|split]].
  - intros child Hchild. apply Hdom, list_elem_of_fmap. exists child.
    split; [done|]. eapply Hin; [done | apply visited_self].
  - intros q child Hq Hmime Hchild.
    apply list_elem_of_In, in_flat_map in Hq as (p & Hp & Hq).
    apply list_elem_of_In in Hp, Hq.
    split; apply Hdom, list_elem_of_fmap.
    + exists q. split; [done|]. by eapply Hin.
    + exists child. split; [done|]. eapply Hin; [done|].
      by eapply visited_children.
  - exact Hval.
  - intros q Hq Hno. rewrite (Hval q Hq). by rewrite (texts_under_no_data _ _ Hno).
Qed.

(** X1: for a message whose root has children and whose body data decodes,
    the mapping [_content] returns holds, under each MIME type met on the
    way, the decoded bodies of the visited parts of that type, in the order
    of the depth-first walk (children before their container); it holds
    nothing under any other key. *)
Theorem content_holds_texts_in_walk_order (self : Message.t) (root : MessagePart.t) :
  Message.payload self = Some root ->
  MessagePart.parts root <> [] ->
  Forall decodable (flat_map visited (MessagePart.parts root)) ->
  exists mapping,
    Message._content self = Ok (Some mapping) /\
    (forall k, k ∈ MessagePart.mimeType <$> flat_map visited (MessagePart.parts root) ->
               mapping !! k
               = Some (Texts (texts_under k (flat_map visited (MessagePart.parts root))))) /\
    (forall k, k ∉ MessagePart.mimeType <$> flat_map visited (MessagePart.parts root) ->
               mapping !! k = None).
Proof.
  intros Hpayload Hparts Hdec.
  destruct (content_values self root Hpayload Hparts Hdec) as (mapping & Hrun & Hv).
  exists mapping. split; [done|].
  split; intros k Hk; rewrite (Hv k); [by rewrite decide_True | by rewrite decide_False].
Qed.

Lemma joined_with_children (key : string) (self : Message.t) (root : MessagePart.t) :
  Message.payload self = Some root ->
  MessagePart.parts root <> [] ->
  Forall decodable (flat_map visited (MessagePart.parts root)) ->
  Message.joined key self
  = Ok (Py.join " " (texts_under (Some key) (flat_map visited (MessagePart.parts root)))).
Proof.
  intros Hpayload Hparts Hdec.
  destruct (content_values self root Hpayload Hparts Hdec) as (mapping & Hrun & Hv).
  unfold Message.joined. rewrite Hrun. simpl. rewrite (Hv (Some key)).
  case_decide as Hk; [done|]. by rewrite (texts_under_absent _ _ Hk).
Qed.

(** X2: for such a message, [html] is the decoded bodies of the visited
    text/html parts joined by single spaces, [plain] the same for
    text/plain, and [body] is [html] unless that is empty, else [plain]. *)
Theorem views_join_the_texts (self : Message.t) (root : MessagePart.t) :
  Message.payload self = Some root ->
  MessagePart.parts root <> [] ->
  Forall decodable (flat_map visited (MessagePart.parts root)) ->
  let walk := flat_map visited (MessagePart.parts root) in
  Message.html self = Ok (Py.join " " (texts_under (Some "text/html") walk)) /\
  Message.plain self = Ok (Py.join " " (texts_under (Some "text/plain") walk)) /\
  Message.body self
  = Ok (if Py.str_truthy (Py.join " " (texts_under (Some "text/html") walk))
        then Py.join " " (texts_under (Some "text/html") walk)
        else Py.join " " (texts_under (Some "text/plain") walk)).
Proof.
  intros Hpayload Hparts Hdec walk. subst walk.
  pose proof (joined_with_children "text/html" self root Hpayload Hparts Hdec) as Hhtml.
  pose proof (joined_with_children "text/plain" self root Hpayload Hparts Hdec) as Hplain.
  split; [exact Hhtml|]. split; [exact Hplain|].
  unfold Message.body, Message.html, Message.plain. rewrite Hhtml. simpl.
  by destruct (Py.str_truthy _).
Qed.

End ContentValues.

(** The nested sample message decodes, so the amended C1 applies to it:
    its container "multipart/alternative" carries no body data and holds
    an empty sequence. *)
Lemma content_keys_are_visited_types_witness :
  Message.payload (Sample.message Sample.nested None Sample.service) = Some Sample.nested /\
  MessagePart.parts Sample.nested <> [] /\
  Forall (@decodable cpython) (flat_map visited (MessagePart.parts Sample.nested)) /\
  exists mapping,
    @Message._content cpython (Sample.message Sample.nested None Sample.service)
    = Ok (Some mapping) /\
    is_Some (mapping !! Some "multipart/alternative") /\
    is_Some (mapping !! Some "text/plain") /\
    mapping !! Some "multipart/alternative" = Some (Texts []).
Proof.
  assert (Hdec : Forall (@decodable cpython)
                        (flat_map visited (MessagePart.parts Sample.nested))).
  { simpl. repeat (constructor; [unfold decodable; simpl;
      first [ intros Hd; discriminate Hd | intros _; eexists; vm_compute; reflexivity ] |]).
    constructor. }
  split; [reflexivity|]. split; [discriminate|]. split; [exact Hdec|].
  destruct (@content_keys_are_visited_types cpython
              (Sample.message Sample.nested None Sample.service) Sample.nested
              eq_refl ltac:(discriminate) Hdec)
    as (mapping & Hrun & _ & Hkeys & _ & _ & _ & Hempty).
  exists mapping. split; [exact Hrun|].
  split; [apply Hkeys; vm_compute; repeat constructor|].
  split; [apply Hkeys; vm_compute; repeat constructor|].
  apply (Hempty (MessagePart.mk (Some "multipart/alternative") [] [
                   Sample.leaf "text/plain" (Some "SGVsbG8=");
                   Sample.leaf "text/html" (Some "PGI-SGk8L2I-")
                 ] None None (Some (MessagePartBody.mk 0%Z None None)))).
  - vm_compute. repeat constructor.
  - intros p Hp Hmime. simpl in Hp.
    repeat (apply elem_of_cons in Hp as [->|Hp]; [first [discriminate Hmime | reflexivity]|]).
    by apply elem_of_nil in Hp.
Defined.

(** A message with one attachment next to a two-part body: two plain texts
    are joined by a space. *)
Lemma content_holds_texts_in_walk_order_witness :
  Message.payload (Sample.message Sample.two_texts None Sample.service)
  = Some Sample.two_texts /\
  MessagePart.parts Sample.two_texts <> [] /\
  Forall (@decodable cpython) (flat_map visited (MessagePart.parts Sample.two_texts)) /\
  exists mapping,
    @Message._content cpython (Sample.message Sample.two_texts None Sample.service)
    = Ok (Some mapping) /\
    mapping !! Some "text/plain" = Some (Texts ["Hello"; "Hello"]) /\
    mapping !! Some "image/gif" = None.
Proof.
  assert (Hdec : Forall (@decodable cpython)
                        (flat_map visited (MessagePart.parts Sample.two_texts))).
  { simpl. repeat (constructor; [unfold decodable; simpl;
      first [ exact I | intros Hd; discriminate Hd
            | intros _; eexists; vm_compute; reflexivity ] |]).
    constructor. }
  split; [reflexivity|]. split; [discriminate|]. split; [exact Hdec|].
  destruct (@content_holds_texts_in_walk_order cpython
              (Sample.message Sample.two_texts None Sample.service) Sample.two_texts
              eq_refl ltac:(discriminate) Hdec)
    as (mapping & Hrun & Hin & Hout).
  exists mapping. split; [exact Hrun|]. split.
  - rewrite Hin; [reflexivity|]. vm_compute. repeat constructor.
  - apply Hout. vm_compute. intros Hk.
    repeat (apply elem_of_cons in Hk as [Hk|Hk]; [discriminate Hk|]).
    by apply elem_of_nil in Hk.
Defined.

Lemma views_join_the_texts_witness :
  Message.payload (Sample.message Sample.two_texts None Sample.service)
  = Some Sample.two_texts /\
  MessagePart.parts Sample.two_texts <> [] /\
  Forall (@decodable cpython) (flat_map visited (MessagePart.parts Sample.two_texts)) /\
  @Message.plain cpython (Sample.message Sample.two_texts None Sample.service)
  = Ok "Hello Hello" /\
  @Message.html cpython (Sample.message Sample.two_texts None Sample.service)
  = Ok "<b>Hi</b>" /\
  @Message.body cpython (Sample.message Sample.two_texts None Sample.service)
  = Ok "<b>Hi</b>".
Proof.
  assert (Hdec : Forall (@decodable cpython)
                        (flat_map visited (MessagePart.parts Sample.two_texts))).
  { simpl. repeat (constructor; [unfold decodable; simpl;
      first [ exact I | intros Hd; discriminate Hd
            | intros _; eexists; vm_compute; reflexivity ] |]).
    constructor. }
  split; [reflexivity|]. split; [discriminate|]. split; [exact Hdec|].
  destruct (@views_join_the_texts cpython
              (Sample.message Sample.two_texts None Sample.service) Sample.two_texts
              eq_refl ltac:(discriminate) Hdec)
    as (Hhtml & Hplain & Hbody).
  split; [exact Hplain|]. split; [exact Hhtml | exact Hbody].
Defined.
(** ** Messages of a single part *)

Section SinglePart.
Context `{PyLib}.

Lemma content_single_text (self : Message.t) (p : MessagePart.t)
      (b : MessagePartBody.t) (text : string) :
  Message.payload self = Some p ->
  MessagePart.parts p = [] ->
  MessagePart.body p = Some b ->
  Message.is_text (MessagePart.mimeType p) = true ->
  Py.truthy (MessagePartBody.data b) = true ->
  Message.decode_body (MessagePartBody.data b) = Ok text ->
  Message._content self = Ok (Some {[ MessagePart.mimeType p := Texts [text] ]}).
Proof.
  intros Hpayload Hparts Hbody Hmime Hdata Htext.
  unfold Message._content, Message.get_payload. rewrite Hpayload. simpl.
  rewrite Hparts, Hbody, Hmime, Hdata. simpl. rewrite Htext. simpl.
  unfold Message.setdefault_empty, Message.append_text.
  rewrite lookup_empty, lookup_insert_eq. simpl.
  by rewrite insert_insert_eq.
Qed.

(** X3: for a message whose only part is text/plain and carries body data
    that decodes, [plain] and [body] are the decoded text and [html] is
    empty; for a text/html part, [html] and [body] are the text and [plain]
    is empty. *)
Theorem single_text_part_views (self : Message.t) (p : MessagePart.t)
        (b : MessagePartBody.t) (text : string) :
  Message.payload self = Some p ->
  MessagePart.parts p = [] ->
  MessagePart.body p = Some b ->
  Py.truthy (MessagePartBody.data b) = true ->
  Message.decode_body (MessagePartBody.data b) = Ok text ->
  (MessagePart.mimeType p = Some "text/plain" ->
   Message.plain self = Ok text /\ Message.html self = Ok EmptyString /\
   Message.body self = Ok text) /\
  (MessagePart.mimeType p = Some "text/html" ->
   Message.html self = Ok text /\ Message.plain self = Ok EmptyString /\
   Message.body self = Ok text).
Proof.
  intros Hpayload Hparts Hbody Hdata Htext.
  split; intros Hmime;
    pose proof (content_single_text self p b text Hpayload Hparts Hbody
                  ltac:(by rewrite Hmime) Hdata Htext) as Hrun;
    rewrite Hmime in Hrun;
    unfold Message.body, Message.html, Message.plain, Message.joined;
    rewrite Hrun; cbv beta iota delta [mbind result_bind].
  - rewrite lookup_singleton_eq, lookup_singleton_ne by done.
    cbv beta iota delta [mbind result_bind mret result_ret Py.str_truthy Py.join].
    done.
  - rewrite lookup_singleton_eq, lookup_singleton_ne by done.
    cbv beta iota delta [mbind result_bind mret result_ret Py.join].
    by destruct text.
Qed.

(** X4: for a message whose only part has a body without data (as for an
    empty message), [_content] raises [TypeError], whatever the MIME type,
    and so do [html], [plain], [alternative] and [body]. *)
Theorem single_part_without_data_raises (self : Message.t) (p : MessagePart.t)
        (b : MessagePartBody.t) :
  Message.payload self = Some p ->
  MessagePart.parts p = [] ->
  MessagePart.body p = Some b ->
  MessagePartBody.data b = None ->
  exists msg,
    Message._content self = Raise (TypeError msg) /\
    Message.html self = Raise (TypeError msg) /\
    Message.plain self = Raise (TypeError msg) /\
    Message.alternative self = Raise (TypeError msg) /\
    Message.body self = Raise (TypeError msg).
Proof.
  intros Hpayload Hparts Hbody Hdata. eexists.
  assert (Hrun : Message._content self
                 = Raise (TypeError "argument should be a bytes-like object or ASCII string, not 'NoneType'")).
  { unfold Message._content, Message.get_payload. rewrite Hpayload. simpl.
    rewrite Hparts, Hbody, Hdata. simpl. by rewrite andb_false_r. }
  split; [exact Hrun|].
  unfold Message.body, Message.html, Message.plain, Message.alternative, Message.joined.
  by rewrite Hrun.
Qed.

(** X5: for a message whose only part is not a text part with data, and
    whose body decodes, [_content] files the text under
    "multipart/alternative" as one string; [alternative] then returns its
    characters separated by spaces, and [html], [plain] and [body] are
    empty. *)
Theorem single_other_part_views (self : Message.t) (p : MessagePart.t)
        (b : MessagePartBody.t) (text : string) :
  Message.payload self = Some p ->
  MessagePart.parts p = [] ->
  MessagePart.body p = Some b ->
  Message.is_text (MessagePart.mimeType p) && Py.truthy (MessagePartBody.data b) = false ->
  Message.decode_body (MessagePartBody.data b) = Ok text ->
  Message._content self = Ok (Some {[ Some "multipart/alternative" := Text text ]}) /\
  Message.alternative self = Ok (Py.join " " (Py.chars text)) /\
  Message.html self = Ok EmptyString /\
  Message.plain self = Ok EmptyString /\
  Message.body self = Ok EmptyString.
Proof.
  intros Hpayload Hparts Hbody Hmime Htext.
  assert (Hrun : Message._content self
                 = Ok (Some {[ Some "multipart/alternative" := Text text ]})).
  { unfold Message._content, Message.get_payload. rewrite Hpayload. simpl.
    rewrite Hparts, Hbody, Hmime. simpl. by rewrite Htext. }
  split; [exact Hrun|].
  unfold Message.body, Message.html, Message.plain, Message.alternative, Message.joined.
  rewrite Hrun. cbv beta iota delta [mbind result_bind].
  rewrite lookup_singleton_eq, !lookup_singleton_ne by done. done.
Qed.

End SinglePart.

Lemma single_text_part_views_witness :
  Message.payload (Sample.message (Sample.leaf "text/plain" (Some "SGVsbG8=")) None
                                  Sample.service)
  = Some (Sample.leaf "text/plain" (Some "SGVsbG8=")) /\
  @Message.decode_body cpython (Some "SGVsbG8=") = Ok "Hello" /\
  @Message.plain cpython
    (Sample.message (Sample.leaf "text/plain" (Some "SGVsbG8=")) None Sample.service)
  = Ok "Hello" /\
  @Message.body cpython
    (Sample.message (Sample.leaf "text/plain" (Some "SGVsbG8=")) None Sample.service)
  = Ok "Hello".
Proof.
  split; [reflexivity|]. split; [reflexivity|].
  destruct (@single_text_part_views cpython
              (Sample.message (Sample.leaf "text/plain" (Some "SGVsbG8=")) None Sample.service)
              _ _ "Hello" eq_refl eq_refl eq_refl eq_refl eq_refl) as [Hplain _].
  destruct (Hplain eq_refl) as (Hp & _ & Hb). split; [exact Hp | exact Hb].
Defined.

Lemma single_part_without_data_raises_witness :
  Message.payload (Sample.message Sample.blank None Sample.service) = Some Sample.blank /\
  MessagePart.parts Sample.blank = [] /\
  exists msg,
    @Message.body cpython (Sample.message Sample.blank None Sample.service)
    = Raise (TypeError msg).
Proof.
  split; [reflexivity|]. split; [reflexivity|].
  destruct (@single_part_without_data_raises cpython
              (Sample.message Sample.blank None Sample.service) Sample.blank _
              eq_refl eq_refl eq_refl eq_refl) as (msg & _ & _ & _ & _ & Hbody).
  exists msg. exact Hbody.
Defined.

Lemma single_other_part_views_witness :
  Message.payload (Sample.message (Sample.leaf "text/calendar" (Some "SGVsbG8=")) None
                                  Sample.service)
  = Some (Sample.leaf "text/calendar" (Some "SGVsbG8=")) /\
  @Message.decode_body cpython (Some "SGVsbG8=") = Ok "Hello" /\
  @Message.alternative cpython
    (Sample.message (Sample.leaf "text/calendar" (Some "SGVsbG8=")) None Sample.service)
  = Ok "H e l l o" /\
  @Message.body cpython
    (Sample.message (Sample.leaf "text/calendar" (Some "SGVsbG8=")) None Sample.service)
  = Ok "".
Proof.
  split; [reflexivity|]. split; [reflexivity|].
  destruct (@single_other_part_views cpython
              (Sample.message (Sample.leaf "text/calendar" (Some "SGVsbG8=")) None
                              Sample.service)
              _ _ "Hello" eq_refl eq_refl eq_refl eq_refl eq_refl)
    as (_ & Halt & _ & _ & Hbody).
  split; [exact Halt | exact Hbody].
Defined.
(** ** Label edits, further *)

(** Every operation is one [_edit_labels] whose answer is dropped. *)
Lemma run_elim (R : Message.t -> result unit * Message.t * list call -> Prop) :
  (forall action add remove self,
      R self (Message.returning_self (Message._edit_labels action add remove self))) ->
  forall op self, R self (Message.run op self).
Proof.
  intros Hedit op self.
  destruct op; simpl;
    unfold Message.toggle_read_unread, Message.toggle_spam, Message.toggle_trash,
      Message.toggle_important, Message.toggle_starred;
    repeat match goal with |- context [if ?b then _ else _] => destruct b end;
    apply Hedit.
Qed.

Lemma append_missing_keeps (add : list string) (ids : option (list string)) :
  match ids with
  | None => (Message.append_each add ids).2 = None
  | Some l => exists fresh, (Message.append_each add ids).2 = Some (l ++ fresh) /\
                            (forall x, x ∈ fresh <-> x ∈ add /\ x ∉ l) /\ NoDup fresh
  end.
Proof.
  destruct ids as [l|].
  - destruct (append_missing_list add l) as (fresh & -> & ? & ?). by exists fresh.
  - by destruct add.
Qed.

Lemma remove_present_keeps (remove : list string) (ids : option (list string)) :
  match ids with
  | None => (Message.remove_each remove ids).2 = None
  | Some l => exists l', (Message.remove_each remove ids).2 = Some l' /\
                         forall y, count_occ string_dec l' y
                                   = count_occ string_dec l y - count_occ string_dec remove y
  end.
Proof.
  destruct ids as [l|].
  - destruct (remove_present_list remove l) as (l' & -> & ?). by exists l'.
  - by destruct remove.
Qed.

Lemma NoDup_fresh_app (l fresh : list string) :
  NoDup l -> NoDup fresh -> (forall x, x ∈ fresh -> x ∉ l) -> NoDup (l ++ fresh).
Proof.
  intros Hl Hf Hdisj. apply NoDup_app. split; [done|]. split; [|done].
  intros x Hx Hx'. by apply (Hdisj x Hx').
Qed.

Lemma NoDup_fewer (l l' : list string) :
  NoDup l ->
  (forall y, count_occ string_dec l' y <= count_occ string_dec l y) ->
  NoDup l'.
Proof.
  intros Hl Hle. apply NoDup_ListNoDup, (NoDup_count_occ string_dec). intros y.
  apply NoDup_ListNoDup in Hl.
  pose proof (proj1 (NoDup_count_occ string_dec l) Hl y). specialize (Hle y). lia.
Qed.

(** *** The loop over the label list itself *)

(** More rounds than the list has items change nothing: the loop has come
    to its end by then. *)
Lemma over_own_fuel (step : string -> list string -> list string) :
  (forall label l, label ∈ l -> length (step label l) <= length l) ->
  forall fuel i l,
    length l <= fuel + i ->
    Message.over_own step (S fuel) i l = Message.over_own step fuel i l.
Proof.
  intros Hstep. induction fuel as [|fuel IH]; intros i l Hlen.
  - simpl. destruct (l !! i) as [label|] eqn:Hi; [|done].
    apply lookup_lt_Some in Hi. lia.
  - change (Message.over_own step (S (S fuel)) i l)
      with (match l !! i with
            | None => l
            | Some label => Message.over_own step (S fuel) (S i) (step label l)
            end).
    change (Message.over_own step (S fuel) i l)
      with (match l !! i with
            | None => l
            | Some label => Message.over_own step fuel (S i) (step label l)
            end).
    destruct (l !! i) as [label|] eqn:Hi; [|done].
    apply IH. pose proof (Hstep label l (list_elem_of_lookup_2 _ _ _ Hi)). lia.
Qed.

Lemma add_one_present (label : string) (l : list string) :
  label ∈ l -> Message.add_one label l = l.
Proof. intros Hin. unfold Message.add_one. by rewrite bool_decide_eq_true_2. Qed.

Lemma remove_one_present (label : string) (l : list string) :
  label ∈ l -> Message.remove_one label l = Message.list_remove label l.
Proof. intros Hin. unfold Message.remove_one. by rewrite bool_decide_eq_true_2. Qed.

Lemma length_list_remove (x : string) (l : list string) :
  x ∈ l -> S (length (Message.list_remove x l)) = length l.
Proof.
  induction l as [|y l IH]; intros Hin; [by apply elem_of_nil in Hin|].
  simpl. case_bool_decide as Hxy; [done|].
  apply elem_of_cons in Hin as [->|Hin]; [done|]. simpl. by rewrite IH.
Qed.

(** The loop of [add_labels] over the label list itself leaves it as it is. *)
Lemma over_own_add (fuel i : nat) (l : list string) :
  Message.over_own Message.add_one fuel i l = l.
Proof.
  revert i. induction fuel as [|fuel IH]; intros i; [done|]. simpl.
  destruct (l !! i) as [label|] eqn:Hi; [|done].
  rewrite add_one_present by (by eapply list_elem_of_lookup_2). apply IH.
Qed.

Lemma over_own_remove_NoDup (fuel i : nat) (l : list string) :
  NoDup l -> NoDup (Message.over_own Message.remove_one fuel i l).
Proof.
  revert i l. induction fuel as [|fuel IH]; intros i l Hl; [done|]. simpl.
  destruct (l !! i) as [label|] eqn:Hi; [|done].
  apply IH. unfold Message.remove_one. case_bool_decide; [|done].
  by apply NoDup_list_remove.
Qed.

(** The label list after the local update: absent stays absent, free of
    duplicates stays so. *)
Lemma update_local_keeps (action : LabelAction) (add remove : option Message.label_list)
      (ids : option (list string)) :
  match ids with
  | None => (Message.update_local action add remove ids).2 = None
  | Some l => exists l', (Message.update_local action add remove ids).2 = Some l' /\
                         (NoDup l -> NoDup l')
  end.
Proof.
  assert (Hadd : forall add ids,
             match ids with
             | None => (Message.append_missing add ids).2 = None
             | Some l => exists l',
                 (Message.append_missing add ids).2
                 = Some l' /\
                 (NoDup l -> NoDup l')
             end).
  { intros [[a|]|] [l|]; unfold Message.append_missing, Message.remove_present; simpl; eauto.
    - destruct (append_missing_list a l) as (fresh & -> & Hfresh & Hnd). simpl.
      eexists. split; [done|]. intros Hl. apply NoDup_fresh_app; [done..|].
      intros x Hx. by apply Hfresh in Hx as [_ ?].
    - by destruct a.
    - rewrite over_own_add. eauto. }
  assert (Hrem : forall remove ids,
             match ids with
             | None => (Message.remove_present remove ids).2 = None
             | Some l => exists l',
                 (Message.remove_present remove ids).2
                 = Some l' /\
                 (NoDup l -> NoDup l')
             end).
  { intros [[r|]|] [l|]; unfold Message.append_missing, Message.remove_present; simpl; eauto.
    - destruct (remove_present_list r l) as (l' & -> & Hcount). simpl.
      eexists. split; [done|]. intros Hl. apply (NoDup_fewer l); [done|].
      intros y. rewrite Hcount. lia.
    - by destruct r.
    - eexists. split; [done|]. apply over_own_remove_NoDup. }
  destruct action; simpl.
  - specialize (Hadd add ids).
    destruct (Message.append_missing add ids) as [[]]; exact Hadd.
  - specialize (Hrem remove ids).
    destruct (Message.remove_present remove ids) as [[]]; exact Hrem.
  - specialize (Hadd add ids).
    destruct (Message.append_missing add ids) as [[[]|e] ids1];
      simpl in *; [|exact Hadd].
    specialize (Hrem remove ids1).
    destruct (Message.remove_present remove ids1) as [[[]|e] ids2];
      simpl in *.
    + destruct ids as [l|]; [|subst ids1; exact Hrem].
      destruct Hadd as (l1 & -> & Hl1). destruct Hrem as (l2 & -> & Hl2). eauto.
    + destruct ids as [l|]; [|subst ids1; exact Hrem].
      destruct Hadd as (l1 & -> & Hl1). destruct Hrem as (l2 & -> & Hl2). eauto.
  - destruct ids; eauto.
Qed.

(** X6: whatever the service answers, none of the label operations
    introduces a duplicate -- a label list that names no label twice still
    does so afterwards -- and none creates a label list where there was
    none. *)
Theorem label_list_stays_duplicate_free (op : Message.label_op) (self : Message.t) :
  (forall l, Message.labelIds self = Some l -> NoDup l ->
             exists l', Message.labelIds (after (Message.run op self)) = Some l' /\ NoDup l') /\
  (Message.labelIds self = None ->
   Message.labelIds (after (Message.run op self)) = None).
Proof.
  revert op self.
  apply (run_elim (fun self r =>
    (forall l, Message.labelIds self = Some l -> NoDup l ->
               exists l', Message.labelIds (after r) = Some l' /\ NoDup l') /\
    (Message.labelIds self = None -> Message.labelIds (after r) = None))).
  intros action add remove self.
  unfold Message._edit_labels.
  assert (Hsame : (forall l, Message.labelIds self = Some l -> NoDup l ->
                     exists l', Message.labelIds self = Some l' /\ NoDup l') /\
                  (Message.labelIds self = None -> Message.labelIds self = None)) by eauto.
  destruct (Message.request_body action _ _) as [[payload|]|e]; try exact Hsame.
  destruct (messages_modify _ _ _ payload) as [[]|e]; [|exact Hsame].
  pose proof (update_local_keeps action add remove (Message.labelIds self)) as Hkeep.
  destruct (Message.update_local action add remove (Message.labelIds self))
    as [[v|e] ids]; unfold after; simpl in *.
  - split.
    + intros l Hl Hnd. rewrite Hl in Hkeep. destruct Hkeep as (l' & -> & Hl'). eauto.
    + intros Hl. by rewrite Hl in Hkeep.
  - split.
    + intros l Hl Hnd. rewrite Hl in Hkeep. destruct Hkeep as (l' & -> & Hl'). eauto.
    + intros Hl. by rewrite Hl in Hkeep.
Qed.

(** X7: each label operation sends at most one modify request, for the
    message's own id and the service's user, always followed by one close
    of the service, whatever the outcome; and it changes nothing of the
    message but [labelIds]. *)
Theorem label_edit_footprint (op : Message.label_op) (self : Message.t) :
  (calls (Message.run op self) = [] /\ after (Message.run op self) = self \/
   exists body,
     calls (Message.run op self)
     = [MessagesModify (user_id (Message.google_service self)) (Message.id self) body;
        ServiceClose]) /\
  after (Message.run op self)
  = Message.set_labelIds (Message.labelIds (after (Message.run op self))) self.
Proof.
  revert op self.
  apply (run_elim (fun self r =>
    (calls r = [] /\ after r = self \/
     exists body,
       calls r = [MessagesModify (user_id (Message.google_service self)) (Message.id self) body;
                  ServiceClose]) /\
    after r = Message.set_labelIds (Message.labelIds (after r)) self)).
  intros action add remove self.
  unfold Message._edit_labels.
  destruct (Message.request_body action _ _) as [[payload|]|e];
    try (unfold after, calls; simpl; split; [by left | by rewrite set_labelIds_same]).
  destruct (messages_modify _ _ _ payload) as [[]|e].
  - destruct (Message.update_local action add remove (Message.labelIds self))
      as [[v|e] ids]; unfold after, calls; simpl; (split; [right; eauto | done]).
  - unfold after, calls; simpl. split; [right; eauto | by rewrite set_labelIds_same].
Qed.
Lemma label_list_stays_duplicate_free_witness :
  Message.labelIds Sample.starred = Some ["INBOX"; "STARRED"; "UNREAD"] /\
  NoDup ["INBOX"; "STARRED"; "UNREAD"] /\
  exists l', Message.labelIds (after (Message.run Message.MarkSpam Sample.starred)) = Some l' /\
             NoDup l'.
Proof.
  assert (Hnd : NoDup ["INBOX"; "STARRED"; "UNREAD"]).
  { apply NoDup_ListNoDup. repeat constructor; simpl; intros H;
      repeat destruct H as [H|H]; discriminate H || done. }
  split; [reflexivity|]. split; [exact Hnd|].
  exact (proj1 (label_list_stays_duplicate_free Message.MarkSpam Sample.starred)
               _ eq_refl Hnd).
Defined.

Lemma elem_of_count (x : string) (l : list string) :
  x ∈ l <-> 0 < count_occ string_dec l x.
Proof. rewrite list_elem_of_In. apply count_occ_In. Qed.

Lemma NoDup_count_le (x : string) (l : list string) :
  NoDup l -> count_occ string_dec l x <= 1.
Proof. intros Hl%NoDup_ListNoDup. by apply (NoDup_count_occ string_dec). Qed.

(** Removal from a list without duplicates, by membership. *)
Lemma remove_present_members (remove l l' : list string) :
  NoDup l ->
  (forall y, count_occ string_dec l' y
             = count_occ string_dec l y - count_occ string_dec remove y) ->
  NoDup l' /\ forall x, x ∈ l' <-> x ∈ l /\ x ∉ remove.
Proof.
  intros Hl Hcount. split.
  - apply (NoDup_fewer l); [done|]. intros y. rewrite Hcount. lia.
  - intros x. rewrite !elem_of_count, Hcount.
    pose proof (NoDup_count_le x l Hl). lia.
Qed.

(** A TOGGLE on a list without duplicates: what is to be removed goes,
    also when it was to be added. *)
Lemma toggle_members (add remove l : list string) (self : Message.t) :
  accepting (Message.google_service self) ->
  Message.labelIds self = Some l ->
  NoDup l ->
  exists l',
    Message._edit_labels TOGGLE (Some (Message.ListOf add)) (Some (Message.ListOf remove)) self
    = (Ok true, Message.set_labelIds (Some l') self,
       [MessagesModify (user_id (Message.google_service self)) (Message.id self)
                       (mk_modify (Some remove) (Some add)); ServiceClose]) /\
    NoDup l' /\
    forall x, x ∈ l' <-> (x ∈ l \/ x ∈ add) /\ x ∉ remove.
Proof.
  intros Hacc Hl Hnd.
  destruct (modify_labels_list add remove l self Hacc Hl)
    as (fresh & l' & Hrun & Hfresh & Hndf & Hcount).
  exists l'. split; [exact Hrun|].
  assert (Hnd' : NoDup (l ++ fresh)).
  { apply NoDup_fresh_app; [done..|]. intros x Hx. by apply Hfresh in Hx as [_ ?]. }
  destruct (remove_present_members remove (l ++ fresh) l' Hnd' Hcount) as [Hnd'' Hmem].
  split; [done|]. intros x. rewrite Hmem, elem_of_app, Hfresh.
  destruct (decide (x ∈ l)); tauto.
Qed.

(** X8: with every request accepted, [modify_labels] handed two lists
    that are objects of their own -- neither is the list object the
    message holds as [labelIds] -- on a label list that names no label
    twice leaves exactly the labels that were there or were to be added,
    minus those to be removed -- a label named in both lists ends up
    absent -- and the list still names no label twice. *)
Theorem modify_labels_by_membership (add remove l : list string) (self : Message.t) :
  accepting (Message.google_service self) ->
  Message.labelIds self = Some l ->
  NoDup l ->
  outcome (Message.modify_labels (Some (Message.ListOf add)) (Some (Message.ListOf remove))
                                 self) = Ok true /\
  exists l',
    Message.labelIds
      (after (Message.modify_labels (Some (Message.ListOf add))
                                    (Some (Message.ListOf remove)) self)) = Some l' /\
    NoDup l' /\
    forall x, x ∈ l' <-> (x ∈ l \/ x ∈ add) /\ x ∉ remove.
Proof.
  intros Hacc Hl Hnd. unfold Message.modify_labels.
  destruct (toggle_members add remove l self Hacc Hl Hnd) as (l' & -> & Hnd' & Hmem).
  split; [done|]. by exists l'.
Qed.

Lemma modify_labels_by_membership_witness :
  accepting (Message.google_service Sample.starred) /\
  Message.labelIds Sample.starred = Some ["INBOX"; "STARRED"; "UNREAD"] /\
  NoDup ["INBOX"; "STARRED"; "UNREAD"] /\
  exists l',
    Message.labelIds
      (after (Message.modify_labels (Some (Message.ListOf ["Work"; "UNREAD"]))
                                    (Some (Message.ListOf ["UNREAD"])) Sample.starred))
    = Some l' /\
    forall x, x ∈ l' <-> (x ∈ ["INBOX"; "STARRED"; "UNREAD"] \/ x ∈ ["Work"; "UNREAD"]) /\
                         x ∉ ["UNREAD"].
Proof.
  assert (Hnd : NoDup ["INBOX"; "STARRED"; "UNREAD"]).
  { apply NoDup_ListNoDup. repeat constructor; simpl; intros H;
      repeat destruct H as [H|H]; discriminate H || done. }
  assert (Hacc : accepting (Message.google_service Sample.starred))
    by (intros ???; reflexivity).
  split; [exact Hacc|]. split; [reflexivity|]. split; [exact Hnd|].
  destruct (modify_labels_by_membership ["Work"; "UNREAD"] ["UNREAD"] _ Sample.starred
              Hacc eq_refl Hnd) as (_ & l' & Hl' & _ & Hmem).
  exists l'. split; [exact Hl' | exact Hmem].
Defined.

Ltac label_absent :=
  let H := fresh in
  intros H; repeat (apply elem_of_cons in H as [H|H]; [discriminate H|]);
  by apply elem_of_nil in H.

Ltac label_present := repeat constructor.

(** The flags after a TOGGLE whose answer is dropped. *)
Lemma toggle_flags (add remove l : list string) (self : Message.t) :
  accepting (Message.google_service self) ->
  Message.labelIds self = Some l ->
  NoDup l ->
  outcome (Message.returning_self
             (Message._edit_labels TOGGLE (Some (Message.ListOf add)) (Some (Message.ListOf remove)) self)) = Ok () /\
  forall x,
    Message.has_label x
      (after (Message.returning_self
                (Message._edit_labels TOGGLE (Some (Message.ListOf add)) (Some (Message.ListOf remove)) self)))
    = bool_decide ((x ∈ l \/ x ∈ add) /\ x ∉ remove).
Proof.
  intros Hacc Hl Hnd.
  destruct (toggle_members add remove l self Hacc Hl Hnd) as (l' & -> & _ & Hmem).
  split; [done|]. intros x. unfold after. simpl. rewrite has_label_set.
  apply bool_decide_ext, Hmem.
Qed.

(** X9: with every request accepted, on a label list that names no label
    twice: [mark_spam] leaves the message in SPAM, out of TRASH and INBOX,
    neither starred nor important; [mark_not_spam] takes it out of SPAM and
    puts it in INBOX; [move_to_trash] leaves it in TRASH, out of INBOX,
    neither starred nor important; [move_from_trash] takes it out of TRASH
    and puts it in INBOX.  Labels an operation does not name are as
    before. *)
Theorem spam_and_trash_moves (self : Message.t) (l : list string) :
  accepting (Message.google_service self) ->
  Message.labelIds self = Some l ->
  NoDup l ->
  (outcome (Message.mark_spam self) = Ok () /\
   Message.is_spam (after (Message.mark_spam self)) = true /\
   Message.is_trash (after (Message.mark_spam self)) = false /\
   Message.has_label Labels.INBOX (after (Message.mark_spam self)) = false /\
   Message.is_starred (after (Message.mark_spam self)) = false /\
   Message.is_important (after (Message.mark_spam self)) = false /\
   forall x, x ∉ [Labels.SPAM; Labels.TRASH; Labels.INBOX; Labels.STARRED; Labels.IMPORTANT] ->
             Message.has_label x (after (Message.mark_spam self)) = Message.has_label x self) /\
  (outcome (Message.mark_not_spam self) = Ok () /\
   Message.is_spam (after (Message.mark_not_spam self)) = false /\
   Message.has_label Labels.INBOX (after (Message.mark_not_spam self)) = true /\
   forall x, x ∉ [Labels.SPAM; Labels.INBOX] ->
             Message.has_label x (after (Message.mark_not_spam self))
             = Message.has_label x self) /\
  (outcome (Message.move_to_trash self) = Ok () /\
   Message.is_trash (after (Message.move_to_trash self)) = true /\
   Message.has_label Labels.INBOX (after (Message.move_to_trash self)) = false /\
   Message.is_starred (after (Message.move_to_trash self)) = false /\
   Message.is_important (after (Message.move_to_trash self)) = false /\
   forall x, x ∉ [Labels.TRASH; Labels.INBOX; Labels.STARRED; Labels.IMPORTANT] ->
             Message.has_label x (after (Message.move_to_trash self))
             = Message.has_label x self) /\
  (outcome (Message.move_from_trash self) = Ok () /\
   Message.is_trash (after (Message.move_from_trash self)) = false /\
   Message.has_label Labels.INBOX (after (Message.move_from_trash self)) = true /\
   forall x, x ∉ [Labels.TRASH; Labels.INBOX] ->
             Message.has_label x (after (Message.move_from_trash self))
             = Message.has_label x self).
Proof.
  intros Hacc Hl Hnd.
  unfold Message.mark_spam, Message.mark_not_spam, Message.move_to_trash,
    Message.move_from_trash, Message.is_spam, Message.is_trash, Message.is_starred,
    Message.is_important.
  repeat split;
    try (apply (toggle_flags _ _ l self Hacc Hl Hnd));
    try (rewrite (proj2 (toggle_flags _ _ l self Hacc Hl Hnd)));
    try (apply bool_decide_eq_true_2; split; [right; label_present | label_absent]);
    try (apply bool_decide_eq_false_2; intros [_ Hout]; apply Hout; label_present).
  all: intros x Hx; rewrite (proj2 (toggle_flags _ _ l self Hacc Hl Hnd)),
         (has_label_list x l self Hl);
       apply bool_decide_ext;
       rewrite ?not_elem_of_cons in Hx; rewrite ?elem_of_cons, ?not_elem_of_cons, ?elem_of_nil;
       tauto.
Qed.

Lemma spam_and_trash_moves_witness :
  accepting (Message.google_service Sample.starred) /\
  Message.labelIds Sample.starred = Some ["INBOX"; "STARRED"; "UNREAD"] /\
  NoDup ["INBOX"; "STARRED"; "UNREAD"] /\
  Message.is_spam (after (Message.mark_spam Sample.starred)) = true /\
  Message.is_starred (after (Message.mark_spam Sample.starred)) = false /\
  Message.is_unread (after (Message.mark_spam Sample.starred)) = true.
Proof.
  assert (Hnd : NoDup ["INBOX"; "STARRED"; "UNREAD"]).
  { apply NoDup_ListNoDup. repeat constructor; simpl; intros H;
      repeat destruct H as [H|H]; discriminate H || done. }
  assert (Hacc : accepting (Message.google_service Sample.starred))
    by (intros ???; reflexivity).
  split; [exact Hacc|]. split; [reflexivity|]. split; [exact Hnd|].
  destruct (spam_and_trash_moves Sample.starred _ Hacc eq_refl Hnd)
    as ((_ & Hspam & _ & _ & Hstar & _ & Hother) & _).
  split; [exact Hspam|]. split; [exact Hstar|].
  unfold Message.is_unread. rewrite Hother; [reflexivity | label_absent].
Defined.
(** Flipping one label by [remove_label] or [add_label], as the toggles for
    read/unread, important and starred do. *)
Lemma flip_label (x : string) (l : list string) (self : Message.t) :
  accepting (Message.google_service self) ->
  Message.labelIds self = Some l ->
  outcome (if Message.has_label x self
           then Message.returning_self (Message.remove_label x self)
           else Message.returning_self (Message.add_label x self)) = Ok () /\
  after (if Message.has_label x self
         then Message.returning_self (Message.remove_label x self)
         else Message.returning_self (Message.add_label x self))
  = Message.set_labelIds
      (Some (if bool_decide (x ∈ l) then Message.list_remove x l else l ++ [x])) self.
Proof.
  intros Hacc Hl. rewrite (has_label_list _ l) by done.
  rewrite (remove_label_list _ l), (add_label_list _ l) by done.
  by case_bool_decide.
Qed.

Lemma flipped_members (x : string) (l : list string) :
  NoDup l ->
  NoDup (if bool_decide (x ∈ l) then Message.list_remove x l else l ++ [x]) /\
  (x ∈ (if bool_decide (x ∈ l) then Message.list_remove x l else l ++ [x]) <-> x ∉ l) /\
  forall y, y <> x ->
            (y ∈ (if bool_decide (x ∈ l) then Message.list_remove x l else l ++ [x])
             <-> y ∈ l).
Proof.
  intros Hnd. destruct (NoDup_list_remove x l Hnd) as [Hnd' Hgone].
  case_bool_decide as Hin.
  - split; [done|]. split; [tauto|]. intros y Hy. by apply elem_of_list_remove_ne.
  - split.
    { apply NoDup_app. split; [done|]. split; [|apply NoDup_singleton].
      intros y Hy ->%list_elem_of_singleton. done. }
    split.
    + rewrite elem_of_app, list_elem_of_singleton. tauto.
    + intros y Hy. rewrite elem_of_app, list_elem_of_singleton. tauto.
Qed.

(** X10: with every request accepted, on a label list that names no label
    twice, each of the five toggles succeeds and flips its flag:
    [toggle_read_unread] flips [is_unread], [toggle_starred] [is_starred],
    [toggle_important] [is_important], [toggle_spam] [is_spam] and
    [toggle_trash] [is_trash]. *)
Theorem toggles_flip_their_flag (self : Message.t) (l : list string) :
  accepting (Message.google_service self) ->
  Message.labelIds self = Some l ->
  NoDup l ->
  (outcome (Message.toggle_read_unread self) = Ok () /\
   Message.is_unread (after (Message.toggle_read_unread self))
   = negb (Message.is_unread self)) /\
  (outcome (Message.toggle_starred self) = Ok () /\
   Message.is_starred (after (Message.toggle_starred self))
   = negb (Message.is_starred self)) /\
  (outcome (Message.toggle_important self) = Ok () /\
   Message.is_important (after (Message.toggle_important self))
   = negb (Message.is_important self)) /\
  (outcome (Message.toggle_spam self) = Ok () /\
   Message.is_spam (after (Message.toggle_spam self)) = negb (Message.is_spam self)) /\
  (outcome (Message.toggle_trash self) = Ok () /\
   Message.is_trash (after (Message.toggle_trash self)) = negb (Message.is_trash self)).
Proof.
  intros Hacc Hl Hnd.
  assert (Hflip : forall x,
             outcome (if Message.has_label x self
                      then Message.returning_self (Message.remove_label x self)
                      else Message.returning_self (Message.add_label x self)) = Ok () /\
             Message.has_label x
               (after (if Message.has_label x self
                       then Message.returning_self (Message.remove_label x self)
                       else Message.returning_self (Message.add_label x self)))
             = negb (Message.has_label x self)).
  { intros x. destruct (flip_label x l self Hacc Hl) as [Hout ->].
    split; [done|]. rewrite has_label_set, (has_label_list x l self Hl).
    destruct (flipped_members x l Hnd) as (_ & Hx & _).
    revert Hx. destruct (decide (x ∈ l)) as [Hin|Hin].
    - rewrite (bool_decide_eq_true_2 (x ∈ l) Hin). intros Hx. simpl.
      apply bool_decide_eq_false_2. tauto.
    - rewrite (bool_decide_eq_false_2 (x ∈ l) Hin). intros Hx. simpl.
      apply bool_decide_eq_true_2. tauto. }
  split; [exact (Hflip Labels.UNREAD)|].
  split; [exact (Hflip Labels.STARRED)|].
  split; [exact (Hflip Labels.IMPORTANT)|].
  unfold Message.toggle_spam, Message.toggle_trash, Message.mark_spam,
    Message.mark_not_spam, Message.move_to_trash, Message.move_from_trash,
    Message.is_spam, Message.is_trash.
  split.
  - destruct (Message.has_label Labels.SPAM self) eqn:E;
      (split; [apply (toggle_flags _ _ l self Hacc Hl Hnd)|]);
      rewrite (proj2 (toggle_flags _ _ l self Hacc Hl Hnd)); simpl.
    + apply bool_decide_eq_false_2. intros [_ Hout]. apply Hout. label_present.
    + apply bool_decide_eq_true_2. split; [right; label_present | label_absent].
  - destruct (Message.has_label Labels.TRASH self) eqn:E;
      (split; [apply (toggle_flags _ _ l self Hacc Hl Hnd)|]);
      rewrite (proj2 (toggle_flags _ _ l self Hacc Hl Hnd)); simpl.
    + apply bool_decide_eq_false_2. intros [_ Hout]. apply Hout. label_present.
    + apply bool_decide_eq_true_2. split; [right; label_present | label_absent].
Qed.

Lemma toggles_flip_their_flag_witness :
  accepting (Message.google_service Sample.starred) /\
  Message.labelIds Sample.starred = Some ["INBOX"; "STARRED"; "UNREAD"] /\
  NoDup ["INBOX"; "STARRED"; "UNREAD"] /\
  Message.is_unread (after (Message.toggle_read_unread Sample.starred)) = false /\
  Message.is_spam (after (Message.toggle_spam Sample.starred)) = true.
Proof.
  assert (Hnd : NoDup ["INBOX"; "STARRED"; "UNREAD"]).
  { apply NoDup_ListNoDup. repeat constructor; simpl; intros H;
      repeat destruct H as [H|H]; discriminate H || done. }
  assert (Hacc : accepting (Message.google_service Sample.starred))
    by (intros ???; reflexivity).
  split; [exact Hacc|]. split; [reflexivity|]. split; [exact Hnd|].
  destruct (toggles_flip_their_flag Sample.starred _ Hacc eq_refl Hnd)
    as ((_ & Hunread) & _ & _ & (_ & Hspam) & _).
  split; [exact Hunread | exact Hspam].
Defined.

(** X11: with every request accepted, on a label list that names no label
    twice, two [toggle_read_unread] in a row, and two [toggle_important] in
    a row, succeed and end with the labels the message started with. *)
Theorem read_and_important_round_trip (self : Message.t) (l : list string) :
  accepting (Message.google_service self) ->
  Message.labelIds self = Some l ->
  NoDup l ->
  (outcome (Message.toggle_read_unread (after (Message.toggle_read_unread self))) = Ok () /\
   exists l',
     Message.labelIds
       (after (Message.toggle_read_unread (after (Message.toggle_read_unread self))))
     = Some l' /\ NoDup l' /\ forall y, y ∈ l' <-> y ∈ l) /\
  (outcome (Message.toggle_important (after (Message.toggle_important self))) = Ok () /\
   exists l',
     Message.labelIds
       (after (Message.toggle_important (after (Message.toggle_important self))))
     = Some l' /\ NoDup l' /\ forall y, y ∈ l' <-> y ∈ l).
Proof.
  intros Hacc Hl Hnd.
  assert (Htwice : forall x,
    let once := if Message.has_label x self
                then Message.returning_self (Message.remove_label x self)
                else Message.returning_self (Message.add_label x self) in
    let twice := if Message.has_label x (after once)
                 then Message.returning_self (Message.remove_label x (after once))
                 else Message.returning_self (Message.add_label x (after once)) in
    outcome twice = Ok () /\
    exists l', Message.labelIds (after twice) = Some l' /\ NoDup l' /\
               forall y, y ∈ l' <-> y ∈ l).
  { intros x once twice. subst once twice.
    destruct (flip_label x l self Hacc Hl) as [_ ->].
    destruct (flipped_members x l Hnd) as (Hnd1 & Hx1 & Hy1).
    set (l1 := if bool_decide (x ∈ l) then Message.list_remove x l else l ++ [x]) in *.
    destruct (flip_label x l1 (Message.set_labelIds (Some l1) self)) as [Hout ->];
      [done | done |].
    split; [exact Hout|]. eexists. split; [reflexivity|].
    destruct (flipped_members x l1 Hnd1) as (Hnd2 & Hx2 & Hy2).
    split; [done|]. intros y. destruct (decide (y = x)) as [->|Hne].
    - rewrite Hx2, Hx1. destruct (decide (x ∈ l)); tauto.
    - rewrite (Hy2 y Hne). by apply Hy1. }
  split; [exact (Htwice Labels.UNREAD) | exact (Htwice Labels.IMPORTANT)].
Qed.

Lemma read_and_important_round_trip_witness :
  accepting (Message.google_service Sample.starred) /\
  Message.labelIds Sample.starred = Some ["INBOX"; "STARRED"; "UNREAD"] /\
  NoDup ["INBOX"; "STARRED"; "UNREAD"] /\
  exists l',
    Message.labelIds
      (after (Message.toggle_important (after (Message.toggle_important Sample.starred))))
    = Some l' /\ forall y, y ∈ l' <-> y ∈ ["INBOX"; "STARRED"; "UNREAD"].
Proof.
  assert (Hnd : NoDup ["INBOX"; "STARRED"; "UNREAD"]).
  { apply NoDup_ListNoDup. repeat constructor; simpl; intros H;
      repeat destruct H as [H|H]; discriminate H || done. }
  assert (Hacc : accepting (Message.google_service Sample.starred))
    by (intros ???; reflexivity).
  split; [exact Hacc|]. split; [reflexivity|]. split; [exact Hnd|].
  destruct (read_and_important_round_trip Sample.starred _ Hacc eq_refl Hnd)
    as (_ & _ & l' & Hl' & _ & Hsame).
  exists l'. split; [exact Hl' | exact Hsame].
Defined.

Lemma flags_merge (P A B C : Prop) `{!Decision P, !Decision A, !Decision B, !Decision C} :
  (P <-> A \/ (~ B /\ C)) ->
  bool_decide P
  = if bool_decide A then true else if bool_decide B then false else bool_decide C.
Proof.
  intros HP. destruct (decide A) as [HA|HA].
  - rewrite (bool_decide_eq_true_2 A HA). apply bool_decide_eq_true_2. tauto.
  - rewrite (bool_decide_eq_false_2 A HA). destruct (decide B) as [HB|HB].
    + rewrite (bool_decide_eq_true_2 B HB). apply bool_decide_eq_false_2. tauto.
    + rewrite (bool_decide_eq_false_2 B HB). apply bool_decide_ext. tauto.
Qed.

(** X12: two toggles of the spam state, or of the trash state, do not bring
    a message back: with every request accepted, on a label list that names
    no label twice, a message that is not in SPAM ends, after two
    [toggle_spam], out of SPAM and out of TRASH, in INBOX, neither starred
    nor important, whatever it was before; likewise a message that is not
    in TRASH after two [toggle_trash].  Labels outside these five are as
    before. *)
Theorem spam_and_trash_toggled_twice (self : Message.t) (l : list string) :
  accepting (Message.google_service self) ->
  Message.labelIds self = Some l ->
  NoDup l ->
  (Message.is_spam self = false ->
   outcome (Message.toggle_spam (after (Message.toggle_spam self))) = Ok () /\
   forall x,
     Message.has_label x (after (Message.toggle_spam (after (Message.toggle_spam self))))
     = if bool_decide (x = Labels.INBOX) then true
       else if bool_decide (x ∈ [Labels.SPAM; Labels.TRASH; Labels.STARRED; Labels.IMPORTANT])
            then false
            else Message.has_label x self) /\
  (Message.is_trash self = false ->
   outcome (Message.toggle_trash (after (Message.toggle_trash self))) = Ok () /\
   forall x,
     Message.has_label x (after (Message.toggle_trash (after (Message.toggle_trash self))))
     = if bool_decide (x = Labels.INBOX) then true
       else if bool_decide (x ∈ [Labels.TRASH; Labels.STARRED; Labels.IMPORTANT])
            then false
            else Message.has_label x self).
Proof.
  intros Hacc Hl Hnd.
  assert (Hstep : forall flag add remove undo,
    Message.has_label flag self = false ->
    flag ∈ add -> flag ∉ remove -> flag ∉ undo ->
    let once := after (Message.returning_self
                         (Message._edit_labels TOGGLE (Some (Message.ListOf add)) (Some (Message.ListOf remove)) self)) in
    Message.has_label flag once = true /\
    outcome (Message.returning_self
               (Message._edit_labels TOGGLE (Some (Message.ListOf undo)) (Some (Message.ListOf [flag])) once)) = Ok () /\
    forall x,
      Message.has_label x
        (after (Message.returning_self
                  (Message._edit_labels TOGGLE (Some (Message.ListOf undo)) (Some (Message.ListOf [flag])) once)))
      = bool_decide ((((x ∈ l \/ x ∈ add) /\ x ∉ remove) \/ x ∈ undo) /\ x <> flag)).
  { intros flag add remove undo Hflag Hadd Hrem Hundo once. subst once.
    destruct (toggle_members add remove l self Hacc Hl Hnd) as (l1 & -> & Hnd1 & Hmem1).
    unfold after at 1 2 3. simpl.
    split. { rewrite has_label_set. apply bool_decide_eq_true_2, Hmem1. tauto. }
    destruct (toggle_flags undo [flag] l1 (Message.set_labelIds (Some l1) self))
      as [Hout Hflags]; [done | done | done |].
    split; [exact Hout|]. intros x. rewrite Hflags. apply bool_decide_ext.
    rewrite Hmem1, list_elem_of_singleton. tauto. }
  split.
  - intros Hflag. unfold Message.is_spam in Hflag.
    destruct (Hstep Labels.SPAM [Labels.SPAM]
                [Labels.TRASH; Labels.INBOX; Labels.STARRED; Labels.IMPORTANT]
                [Labels.INBOX] Hflag) as (Hon & Hout & Hall);
      [label_present | label_absent | label_absent |].
    assert (H1 : Message.toggle_spam self = Message.mark_spam self).
    { unfold Message.toggle_spam, Message.is_spam. by rewrite Hflag. }
    rewrite H1.
    assert (H2 : Message.toggle_spam (after (Message.mark_spam self))
                 = Message.mark_not_spam (after (Message.mark_spam self))).
    { unfold Message.toggle_spam, Message.is_spam. fold (Message.mark_spam self) in Hon.
      by rewrite Hon. }
    rewrite H2. split; [exact Hout|]. intros x.
    etrans; [apply Hall|].
    rewrite (has_label_list x l self Hl).
    apply flags_merge. rewrite !elem_of_cons, !elem_of_nil.
    destruct (decide (x = Labels.INBOX)); intuition (subst; try discriminate; auto).
  - intros Hflag. unfold Message.is_trash in Hflag.
    destruct (Hstep Labels.TRASH [Labels.TRASH]
                [Labels.INBOX; Labels.STARRED; Labels.IMPORTANT]
                [Labels.INBOX] Hflag) as (Hon & Hout & Hall);
      [label_present | label_absent | label_absent |].
    assert (H1 : Message.toggle_trash self = Message.move_to_trash self).
    { unfold Message.toggle_trash, Message.is_trash. by rewrite Hflag. }
    rewrite H1.
    assert (H2 : Message.toggle_trash (after (Message.move_to_trash self))
                 = Message.move_from_trash (after (Message.move_to_trash self))).
    { unfold Message.toggle_trash, Message.is_trash.
      fold (Message.move_to_trash self) in Hon. by rewrite Hon. }
    rewrite H2. split; [exact Hout|]. intros x.
    etrans; [apply Hall|].
    rewrite (has_label_list x l self Hl).
    apply flags_merge. rewrite !elem_of_cons, !elem_of_nil.
    destruct (decide (x = Labels.INBOX)); intuition (subst; try discriminate; auto).
Qed.

Lemma spam_and_trash_toggled_twice_witness :
  accepting (Message.google_service Sample.starred) /\
  Message.labelIds Sample.starred = Some ["INBOX"; "STARRED"; "UNREAD"] /\
  NoDup ["INBOX"; "STARRED"; "UNREAD"] /\
  Message.is_spam Sample.starred = false /\
  Message.is_starred Sample.starred = true /\
  Message.is_starred
    (after (Message.toggle_spam (after (Message.toggle_spam Sample.starred)))) = false /\
  Message.is_unread
    (after (Message.toggle_spam (after (Message.toggle_spam Sample.starred)))) = true /\
  Message.is_trash Sample.starred = false /\
  Message.is_starred
    (after (Message.toggle_trash (after (Message.toggle_trash Sample.starred)))) = false.
Proof.
  assert (Hnd : NoDup ["INBOX"; "STARRED"; "UNREAD"]).
  { apply NoDup_ListNoDup. repeat constructor; simpl; intros H;
      repeat destruct H as [H|H]; discriminate H || done. }
  assert (Hacc : accepting (Message.google_service Sample.starred))
    by (intros ???; reflexivity).
  split; [exact Hacc|]. split; [reflexivity|]. split; [exact Hnd|].
  split; [reflexivity|]. split; [reflexivity|].
  destruct (spam_and_trash_toggled_twice Sample.starred _ Hacc eq_refl Hnd)
    as (Hspam & Htrash).
  destruct (Hspam eq_refl) as (_ & Hflags).
  destruct (Htrash eq_refl) as (_ & Hflags').
  split; [exact (Hflags Labels.STARRED)|]. split; [exact (Hflags Labels.UNREAD)|].
  split; [reflexivity | exact (Hflags' Labels.STARRED)].
Defined.

Lemma append_missing_present (add l : list string) :
  (forall x, x ∈ add -> x ∈ l) ->
  Message.append_each add (Some l) = (Ok (), Some l).
Proof.
  induction add as [|x add IH]; intros Hin; [reflexivity|]. simpl.
  rewrite bool_decide_eq_true_2 by (apply Hin; left).
  apply IH. intros y Hy. apply Hin. by right.
Qed.

Lemma remove_present_absent (remove l : list string) :
  (forall x, x ∈ remove -> x ∉ l) ->
  Message.remove_each remove (Some l) = (Ok (), Some l).
Proof.
  induction remove as [|x remove IH]; intros Hout; [reflexivity|]. simpl.
  rewrite bool_decide_eq_false_2 by (apply Hout; left).
  apply IH. intros y Hy. apply Hout. by right.
Qed.

(** X13: with every request accepted, on a message that has a label list,
    and for a list [labels] that is an object of its own -- not the list
    object the message holds as [labelIds] --, [add_labels] with labels it
    has just added sends its request again and leaves the message as it
    is; so does [remove_labels] with labels it has just removed, when the
    label list named no label twice. *)
Theorem repeated_label_edits (labels l : list string) (self : Message.t) :
  accepting (Message.google_service self) ->
  Message.labelIds self = Some l ->
  (Message.add_labels (Message.ListOf labels)
                      (after (Message.add_labels (Message.ListOf labels) self))
   = (Ok true, after (Message.add_labels (Message.ListOf labels) self),
      [MessagesModify (user_id (Message.google_service self)) (Message.id self)
                      (mk_modify None (Some labels)); ServiceClose])) /\
  (NoDup l ->
   Message.remove_labels (Message.ListOf labels)
                         (after (Message.remove_labels (Message.ListOf labels) self))
   = (Ok true, after (Message.remove_labels (Message.ListOf labels) self),
      [MessagesModify (user_id (Message.google_service self)) (Message.id self)
                      (mk_modify (Some labels) None); ServiceClose])).
Proof.
  intros Hacc Hl. split.
  - destruct (add_labels_list labels l self Hacc Hl) as (fresh & -> & Hfresh & _).
    unfold after. simpl.
    unfold Message.add_labels.
    rewrite (edit_labels_accepted ADD _ _ (mk_modify None (Some labels))); [|done|done].
    simpl. rewrite append_missing_present; [reflexivity|].
    intros x Hx. rewrite elem_of_app. destruct (decide (x ∈ l)); [by left|].
    right. apply Hfresh. done.
  - intros Hnd.
    destruct (remove_labels_list labels l self Hacc Hl) as (l' & -> & Hcount).
    destruct (remove_present_members labels l l' Hnd Hcount) as [_ Hmem].
    unfold after. simpl.
    unfold Message.remove_labels.
    rewrite (edit_labels_accepted REMOVE _ _ (mk_modify (Some labels) None)); [|done|done].
    simpl. rewrite remove_present_absent; [reflexivity|].
    intros x Hx Hin. apply Hmem in Hin. tauto.
Qed.

Lemma repeated_label_edits_witness :
  accepting (Message.google_service Sample.starred) /\
  Message.labelIds Sample.starred = Some ["INBOX"; "STARRED"; "UNREAD"] /\
  NoDup ["INBOX"; "STARRED"; "UNREAD"] /\
  after (Message.add_labels (Message.ListOf ["STARRED"; "Label_7"])
           (after (Message.add_labels (Message.ListOf ["STARRED"; "Label_7"])
                                      Sample.starred)))
  = after (Message.add_labels (Message.ListOf ["STARRED"; "Label_7"]) Sample.starred) /\
  after (Message.remove_labels (Message.ListOf ["STARRED"; "Label_7"])
           (after (Message.remove_labels (Message.ListOf ["STARRED"; "Label_7"])
                                         Sample.starred)))
  = after (Message.remove_labels (Message.ListOf ["STARRED"; "Label_7"]) Sample.starred).
Proof.
  assert (Hnd : NoDup ["INBOX"; "STARRED"; "UNREAD"]).
  { apply NoDup_ListNoDup. repeat constructor; simpl; intros H;
      repeat destruct H as [H|H]; discriminate H || done. }
  assert (Hacc : accepting (Message.google_service Sample.starred))
    by (intros ???; reflexivity).
  split; [exact Hacc|]. split; [reflexivity|]. split; [exact Hnd|].
  destruct (repeated_label_edits ["STARRED"; "Label_7"] _ Sample.starred Hacc eq_refl)
    as [Hadd Hremove].
  split; [by rewrite Hadd | by rewrite (Hremove Hnd)].
Defined.

(** X14: [modify_labels] given [None] for either list raises TypeError
    while it builds the request: nothing is sent, the service is not
    closed and the message is unchanged. *)
Theorem modify_labels_needs_both_lists (labels : option Message.label_list)
        (self : Message.t) :
  (exists e, Message.modify_labels None labels self = (Raise (TypeError e), self, [])) /\
  (exists e, Message.modify_labels labels None self = (Raise (TypeError e), self, [])).
Proof.
  unfold Message.modify_labels, Message._edit_labels, Message.request_body.
  split; destruct labels as [[?|]|]; simpl;
    try destruct (Message.labelIds self); simpl; eexists; reflexivity.
Qed.

(** Every attachment a part hands out was built from one of its named
    direct children. *)
Lemma attachments_members (svc : GoogleService) (self : MessagePart.t)
      (l : list Attachment.t) :
  MessagePart.attachments svc self = Ok l ->
  Forall (fun a => exists child, child ∈ MessagePart.parts self /\ named child = true /\
                                 describes svc child a) l.
Proof.
  unfold MessagePart.attachments.
  destruct (negb (MessagePart._has_attachments self)).
  { intros [= <-]. constructor. }
  destruct (attachments_loop_cases svc (MessagePart.parts self) [])
    as [[_ ->]|(_ & l0 & -> & Hall)]; [discriminate|].
  intros [= <-]. simpl.
  assert (Hsub : forall c, c ∈ List.filter named (MessagePart.parts self) ->
                           c ∈ MessagePart.parts self /\ named c = true).
  { intros c Hc. apply list_elem_of_In, filter_In in Hc as [Hc Hn].
    split; [by apply list_elem_of_In | done]. }
  revert Hsub. induction Hall as [|c a cs l0 Hd Hall IH]; intros Hsub; constructor.
  - exists c. destruct (Hsub c) as [Hc Hn]; [left|]. done.
  - apply IH. intros c' Hc'. apply Hsub. by right.
Qed.

Lemma find_some_elem {A} (f : A -> bool) (l : list A) (a : A) :
  List.find f l = Some a -> a ∈ l /\ f a = true.
Proof.
  intros Hf. apply find_some in Hf as [Hin Hfa]. split; [by apply list_elem_of_In | done].
Qed.

Lemma found_by_filename (svc : GoogleService) (query : string) (self : MessagePart.t)
      (a : Attachment.t) :
  MessagePart.get_attachment_by_filename svc query self = Ok (Some a) ->
  Attachment.filename a = query /\
  Py.contains "/" query = false /\
  exists l, MessagePart.attachments svc self = Ok l /\ a ∈ l.
Proof.
  unfold MessagePart.get_attachment_by_filename.
  destruct (negb (Py.str_truthy query)); [discriminate|].
  destruct (negb (MessagePart._has_attachments self)); [discriminate|].
  destruct (MessagePart.attachments svc self) as [l|e] eqn:Hl; [|discriminate].
  simpl. intros [= Hfind]. apply find_some_elem in Hfind as [Hin Heq].
  apply String.eqb_eq in Heq. split; [done|]. split; [|by exists l].
  apply attachments_members in Hl. rewrite Forall_forall in Hl.
  destruct (Hl a Hin) as (child & _ & _ & fname & b & _ & _ & Hname & _).
  rewrite <- Heq, Hname. by apply (subst_char_removes "/" "_").
Qed.

Lemma found_by_part_id (svc : GoogleService) (query : string) (self : MessagePart.t)
      (a : Attachment.t) :
  MessagePart.get_attachment_by_part_id svc query self = Ok (Some a) ->
  Attachment.part_id a = Some query /\
  exists l, MessagePart.attachments svc self = Ok l /\ a ∈ l.
Proof.
  unfold MessagePart.get_attachment_by_part_id.
  destruct (negb (Py.str_truthy query)); [discriminate|].
  destruct (negb (MessagePart._has_attachments self)); [discriminate|].
  destruct (MessagePart.attachments svc self) as [l|e] eqn:Hl; [|discriminate].
  simpl. intros [= Hfind]. apply find_some_elem in Hfind as [Hin Heq].
  apply bool_decide_eq_true_1 in Heq. split; [done|]. by exists l.
Qed.

(** X15: an attachment found by [get_attachment_by_filename] is one of the
    part's attachments and bears exactly the name asked for; as the names
    of attachments have every "/" replaced, a name that holds a "/" finds
    nothing.  An attachment found by [get_attachment_by_part_id] is one of
    the part's attachments and has the part id asked for. *)
Theorem attachment_lookups (svc : GoogleService) (query : string) (self : MessagePart.t)
        (a : Attachment.t) :
  (MessagePart.get_attachment_by_filename svc query self = Ok (Some a) ->
   Attachment.filename a = query /\
   Py.contains "/" query = false /\
   exists l, MessagePart.attachments svc self = Ok l /\ a ∈ l) /\
  (MessagePart.get_attachment_by_part_id svc query self = Ok (Some a) ->
   Attachment.part_id a = Some query /\
   exists l, MessagePart.attachments svc self = Ok l /\ a ∈ l).
Proof.
  split; [apply found_by_filename | apply found_by_part_id].
Qed.

Lemma attachment_lookups_witness :
  MessagePart.get_attachment_by_filename Sample.service "a_b.png" Sample.with_files
  = Ok (Some Sample.remote_file) /\
  MessagePart.get_attachment_by_part_id Sample.service "1" Sample.with_files
  = Ok (Some Sample.remote_file) /\
  Attachment.filename Sample.remote_file = "a_b.png" /\
  Attachment.part_id Sample.remote_file = Some "1".
Proof.
  assert (H1 : MessagePart.get_attachment_by_filename Sample.service "a_b.png"
                 Sample.with_files = Ok (Some Sample.remote_file)) by reflexivity.
  assert (H2 : MessagePart.get_attachment_by_part_id Sample.service "1"
                 Sample.with_files = Ok (Some Sample.remote_file)) by reflexivity.
  split; [exact H1|]. split; [exact H2|].
  destruct (attachment_lookups Sample.service "a_b.png" Sample.with_files
              Sample.remote_file) as [Hname _].
  destruct (attachment_lookups Sample.service "1" Sample.with_files
              Sample.remote_file) as [_ Hid].
  split; [exact (proj1 (Hname H1)) | exact (proj1 (Hid H2))].
Defined.

(** X16: [Message.get_attachment] answers only with an attachment of the
    payload; when a non-empty file name is given the answer bears that
    name and the part id is not looked at, otherwise the answer has the
    part id given. *)
Theorem get_attachment_prefers_filename (filename id : option string)
        (self : Message.t) (a : Attachment.t) :
  Message.get_attachment filename id self = Ok (Some a) ->
  (exists l, Message.attachments self = Ok l /\ a ∈ l) /\
  if Py.truthy filename
  then Some (Attachment.filename a) = filename /\
       Message.get_attachment filename None self = Ok (Some a)
  else Attachment.part_id a = id /\ Py.truthy id = true.
Proof.
  unfold Message.get_attachment, Message.has_attachments, Message.attachments.
  destruct (Message.get_payload self) as [p|e]; [|discriminate].
  cbv beta iota delta [mbind result_bind mret result_ret].
  destruct (negb (MessagePart._has_attachments p)); [discriminate|].
  destruct filename as [[|c fname]|]; cbn [Py.truthy].
  - destruct id as [pid|]; [|discriminate]. intros Hget.
    destruct (found_by_part_id _ _ _ _ Hget) as [Hpid Hl]. split; [done|]. split; [done|].
    unfold MessagePart.get_attachment_by_part_id in Hget.
    destruct pid; [discriminate | reflexivity].
  - intros Hget.
    destruct (found_by_filename _ _ _ _ Hget) as (Heq & _ & Hl). split; [done|]. split; [by rewrite Heq | done].
  - destruct id as [pid|]; [|discriminate]. intros Hget.
    destruct (found_by_part_id _ _ _ _ Hget) as [Hpid Hl]. split; [done|]. split; [done|].
    unfold MessagePart.get_attachment_by_part_id in Hget.
    destruct pid; [discriminate | reflexivity].
Qed.

Lemma get_attachment_prefers_filename_witness :
  Message.get_attachment (Some "a_b.png") (Some "2")
    (Sample.message Sample.with_files None Sample.service) = Ok (Some Sample.remote_file) /\
  Some (Attachment.filename Sample.remote_file) = Some "a_b.png" /\
  Message.get_attachment (Some "a_b.png") None
    (Sample.message Sample.with_files None Sample.service) = Ok (Some Sample.remote_file).
Proof.
  assert (H : Message.get_attachment (Some "a_b.png") (Some "2")
                (Sample.message Sample.with_files None Sample.service)
              = Ok (Some Sample.remote_file)) by reflexivity.
  split; [exact H|].
  exact (proj2 (get_attachment_prefers_filename _ _ _ _ H)).
Defined.

(** X17: a part that bears a file name itself while none of its direct
    children does reports attachments ([_has_attachments] is true) and has
    none: [attachments] is the empty list and both lookups find nothing. *)
Theorem named_part_has_no_attachments (svc : GoogleService) (self : MessagePart.t) :
  named self = true ->
  Forall (fun child => named child = false) (MessagePart.parts self) ->
  MessagePart._has_attachments self = true /\
  MessagePart.attachments svc self = Ok [] /\
  forall query,
    MessagePart.get_attachment_by_filename svc query self = Ok None /\
    MessagePart.get_attachment_by_part_id svc query self = Ok None.
Proof.
  intros Hself Hchildren.
  assert (Hhas : MessagePart._has_attachments self = true).
  { unfold MessagePart._has_attachments. unfold named in Hself. by rewrite Hself. }
  assert (Hloop : forall acc,
             MessagePart.attachments_loop svc (MessagePart.parts self) acc = Ok acc).
  { induction Hchildren as [|c cs Hc _ IH]; intros acc; [reflexivity|].
    simpl. rewrite (attachment_of_unnamed svc c Hc). apply IH. }
  assert (Hatt : MessagePart.attachments svc self = Ok []).
  { unfold MessagePart.attachments. rewrite Hhas. apply Hloop. }
  split; [done|]. split; [done|]. intros query.
  unfold MessagePart.get_attachment_by_filename, MessagePart.get_attachment_by_part_id.
  rewrite Hatt, Hhas. by destruct query.
Qed.

Lemma named_part_has_no_attachments_witness :
  named (Sample.file "photo.png" None) = true /\
  MessagePart._has_attachments (Sample.file "photo.png" None) = true /\
  MessagePart.attachments Sample.service (Sample.file "photo.png" None) = Ok [].
Proof.
  split; [reflexivity|].
  destruct (named_part_has_no_attachments Sample.service (Sample.file "photo.png" None))
    as (Hhas & Hatt & _); [reflexivity | constructor |].
  split; [exact Hhas | exact Hatt].
Defined.

Lemma find_first {A} (f : A -> bool) (before after : list A) (x : A) :
  Forall (fun y => f y = false) before -> f x = true ->
  List.find f (before ++ x :: after) = Some x.
Proof.
  intros Hbefore Hx. induction Hbefore as [|y before Hy _ IH]; simpl.
  - by rewrite Hx.
  - by rewrite Hy.
Qed.

Lemma find_nowhere {A} (f : A -> bool) (l : list A) :
  Forall (fun y => f y = false) l -> List.find f l = None.
Proof.
  intros Hl. induction Hl as [|y l Hy _ IH]; simpl; [done|]. by rewrite Hy.
Qed.

Lemma header_value_first (name : string) (self : Message.t) (p : MessagePart.t)
      (before after : list MessageHeader.t) (h : MessageHeader.t) :
  Message.payload self = Some p ->
  MessagePart.headers p = before ++ h :: after ->
  Forall (fun h' => MessageHeader.name h' <> name) before ->
  MessageHeader.name h = name ->
  Message.header_value name self = Ok (Some (MessageHeader.value h)).
Proof.
  intros Hp Hhs Hbefore Hname.
  unfold Message.header_value, Message.message_headers, Message.get_payload.
  rewrite Hp. cbv beta iota delta [mbind result_bind mret result_ret]. rewrite Hhs.
  assert (Hfind : List.find (fun h' => String.eqb (MessageHeader.name h') name)
                            (before ++ h :: after) = Some h).
  { apply find_first; [|by apply String.eqb_eq].
    eapply Forall_impl; [exact Hbefore|]. intros h' Hne. by apply String.eqb_neq. }
  destruct (before ++ h :: after) eqn:E; [by destruct before|].
  by rewrite Hfind.
Qed.

Lemma header_value_absent (name : string) (self : Message.t) (p : MessagePart.t) :
  Message.payload self = Some p ->
  Forall (fun h' => MessageHeader.name h' <> name) (MessagePart.headers p) ->
  Message.header_value name self = Ok None.
Proof.
  intros Hp Hhs.
  unfold Message.header_value, Message.message_headers, Message.get_payload.
  rewrite Hp. cbv beta iota delta [mbind result_bind mret result_ret].
  destruct (MessagePart.headers p) eqn:E; [reflexivity|].
  rewrite find_nowhere; [reflexivity|].
  eapply Forall_impl; [exact Hhs|]. intros h' Hne. by apply String.eqb_neq.
Qed.

(** X18: the header views read the first header whose name is exactly the
    one looked for: when the payload's headers are [before ++ h :: after]
    and no header of [before] has the name of [h], then [recipient] is the
    value of [h] if [h] is named "To", [subject] if it is named "Subject",
    [sender_header] if it is named "From", and [get_header] of the
    (non-empty) name of [h] is [h] itself; the headers after [h] are not
    looked at.  When no header has the name, the view is [None]. *)
Theorem header_views_take_first (self : Message.t) (p : MessagePart.t)
        (before after : list MessageHeader.t) (h : MessageHeader.t) :
  Message.payload self = Some p ->
  (MessagePart.headers p = before ++ h :: after ->
   Forall (fun h' => MessageHeader.name h' <> MessageHeader.name h) before ->
   (MessageHeader.name h = "To" ->
    Message.recipient self = Ok (Some (MessageHeader.value h))) /\
   (MessageHeader.name h = "Subject" ->
    Message.subject self = Ok (Some (MessageHeader.value h))) /\
   (MessageHeader.name h = "From" ->
    Message.sender_header self = Ok (Some (MessageHeader.value h))) /\
   (MessageHeader.name h <> EmptyString ->
    MessagePart.get_header (MessageHeader.name h) p = MessagePart.OneHeader h)) /\
  (Forall (fun h' => MessageHeader.name h' <> "To") (MessagePart.headers p) ->
   Message.recipient self = Ok None) /\
  (Forall (fun h' => MessageHeader.name h' <> "Subject") (MessagePart.headers p) ->
   Message.subject self = Ok None) /\
  (Forall (fun h' => MessageHeader.name h' <> "From") (MessagePart.headers p) ->
   Message.sender_header self = Ok None) /\
  (forall key, key <> EmptyString ->
               Forall (fun h' => MessageHeader.name h' <> key) (MessagePart.headers p) ->
               MessagePart.get_header key p = MessagePart.NoHeader).
Proof.
  intros Hp. split; [|split; [|split; [|split]]].
  - intros Hhs Hbefore.
    split; [|split; [|split]].
    + intros Hname. apply (header_value_first _ _ p before after); try done.
      by rewrite <- Hname.
    + intros Hname. apply (header_value_first _ _ p before after); try done.
      by rewrite <- Hname.
    + intros Hname. apply (header_value_first _ _ p before after); try done.
      by rewrite <- Hname.
    + intros Hne. unfold MessagePart.get_header. rewrite Hhs.
      assert (Hfind : List.find (fun h' => String.eqb (MessageHeader.name h)
                                                      (MessageHeader.name h'))
                                (before ++ h :: after) = Some h).
      { apply find_first; [|by apply String.eqb_eq].
        eapply Forall_impl; [exact Hbefore|]. intros h' Hne'.
        apply String.eqb_neq. congruence. }
      destruct (before ++ h :: after) eqn:E; [by destruct before|].
      rewrite Hfind. by destruct (MessageHeader.name h).
  - by apply header_value_absent.
  - by apply header_value_absent.
  - by apply header_value_absent.
  - intros key Hkey Hhs. unfold MessagePart.get_header.
    destruct (MessagePart.headers p) eqn:E; [reflexivity|].
    rewrite find_nowhere.
    + by destruct key.
    + eapply Forall_impl; [exact Hhs|]. intros h' Hne'. apply String.eqb_neq. congruence.
Qed.

Lemma header_views_take_first_witness :
  Message.payload
    (Sample.mail [Sample.header "to" "a@x.org"; Sample.header "To" "b@x.org";
                  Sample.header "To" "c@x.org"])
  = Some (Sample.with_headers [Sample.header "to" "a@x.org"; Sample.header "To" "b@x.org";
                               Sample.header "To" "c@x.org"]) /\
  Message.recipient
    (Sample.mail [Sample.header "to" "a@x.org"; Sample.header "To" "b@x.org";
                  Sample.header "To" "c@x.org"]) = Ok (Some "b@x.org") /\
  Message.subject
    (Sample.mail [Sample.header "to" "a@x.org"; Sample.header "To" "b@x.org";
                  Sample.header "To" "c@x.org"]) = Ok None.
Proof.
  split; [reflexivity|].
  destruct (header_views_take_first
              (Sample.mail [Sample.header "to" "a@x.org"; Sample.header "To" "b@x.org";
                            Sample.header "To" "c@x.org"])
              _ [Sample.header "to" "a@x.org"] [Sample.header "To" "c@x.org"]
              (Sample.header "To" "b@x.org") eq_refl)
    as (Hfirst & _ & Hsubject & _).
  split.
  - refine (proj1 (Hfirst eq_refl _) eq_refl).
    constructor; [discriminate | constructor].
  - apply Hsubject. repeat (constructor; [discriminate|]). constructor.
Defined.

Lemma contains_char_cons (c a : ascii) (s : string) :
  Py.contains (String c EmptyString) (String a s)
  = Ascii.eqb c a || Py.contains (String c EmptyString) s.
Proof.
  simpl. destruct (Ascii.eqb_spec c a) as [->|Hne].
  - destruct (ascii_dec a a); [|done]. by rewrite prefix_empty.
  - destruct (ascii_dec c a); [done|]. reflexivity.
Qed.

(** No piece of a split at a character holds that character. *)
Lemma split_char_pieces (c : ascii) (s : string) :
  Forall (fun piece => Py.contains (String c EmptyString) piece = false)
         (Py.split (String c EmptyString) s).
Proof.
  unfold Py.split. induction s as [|a s IH].
  - constructor; [reflexivity | constructor].
  - cbn [Py.split_from]. cbn [String.prefix].
    destruct (ascii_dec c a) as [->|Hne].
    + rewrite prefix_empty. constructor; [reflexivity | exact IH].
    + destruct (Py.split_from (String c EmptyString) 0 s) as [|piece rest].
      * constructor; [|constructor]. rewrite contains_char_cons.
        by destruct (Ascii.eqb_spec c a).
      * inversion IH as [|? ? Hpiece Hrest]; subst. constructor; [|exact Hrest].
        rewrite contains_char_cons, Hpiece. by destruct (Ascii.eqb_spec c a).
Qed.

Lemma without_char_contains (c d : ascii) (s : string) :
  Py.contains (String d EmptyString) (without_char c s)
  = Py.contains (String d EmptyString) s && negb (Ascii.eqb d c).
Proof.
  induction s as [|a s IH]; [reflexivity|].
  cbn [without_char]. rewrite (contains_char_cons d a s).
  destruct (Ascii.eqb_spec a c) as [->|Hac].
  - rewrite IH. destruct (Ascii.eqb_spec d c); simpl; [by rewrite andb_false_r|done].
  - rewrite contains_char_cons, IH.
    destruct (Ascii.eqb_spec d a) as [->|Hda]; simpl; [|done].
    by destruct (Ascii.eqb_spec a c).
Qed.

(** A character that is not in a text is in no piece of it. *)
Lemma split_char_keeps_out (c d : ascii) (s : string) :
  Py.contains (String d EmptyString) s = false ->
  Forall (fun piece => Py.contains (String d EmptyString) piece = false)
         (Py.split (String c EmptyString) s).
Proof.
  unfold Py.split. induction s as [|a s IH]; intros Hd.
  - constructor; [reflexivity | constructor].
  - rewrite contains_char_cons in Hd. apply orb_false_iff in Hd as [Hda Hd].
    specialize (IH Hd). cbn [Py.split_from]. cbn [String.prefix].
    destruct (ascii_dec c a) as [->|Hne].
    + rewrite prefix_empty. constructor; [reflexivity | exact IH].
    + destruct (Py.split_from (String c EmptyString) 0 s) as [|piece rest].
      * constructor; [|constructor]. by rewrite contains_char_cons, Hda.
      * inversion IH as [|? ? Hpiece Hrest]; subst. constructor; [|exact Hrest].
        by rewrite contains_char_cons, Hda, Hpiece.
Qed.

Lemma second_piece (c : ascii) (s : string) :
  Py.contains (String c EmptyString) s = true ->
  exists piece, Message.item1 (Py.split (String c EmptyString) s) = Ok piece /\
                piece ∈ Py.split (String c EmptyString) s.
Proof.
  intros Hc. destruct (split_with_separator (String c EmptyString) s) as (a & b & rest & Hs);
    [done | done |].
  rewrite Hs. exists b. split; [reflexivity|]. right. left.
Qed.

(** X19: on a message that has a payload, [sender] never raises.  It is
    [None] exactly when there is no "From" header or its value is empty;
    otherwise it is a text without any double quote, and, when the header
    value holds no double quote, a text without "<"; when the value holds
    a "<" and no double quote, the text is also without ">". *)
Theorem sender_is_total (self : Message.t) (p : MessagePart.t) :
  Message.payload self = Some p ->
  exists v, Message.sender_header self = Ok v /\
    match v with
    | None | Some EmptyString => Message.sender self = Ok None
    | Some v =>
        exists name,
          Message.sender self = Ok (Some name) /\
          Py.contains Py.DQUOTE name = false /\
          (Py.contains Py.DQUOTE v = false ->
           Py.contains "<" name = false /\
           (Py.contains "<" v = true -> Py.contains ">" name = false))
    end.
Proof.
  intros Hp.
  assert (Hhdr : exists v, Message.sender_header self = Ok v).
  { unfold Message.sender_header, Message.header_value, Message.message_headers,
      Message.get_payload. rewrite Hp.
    cbv beta iota delta [mbind result_bind mret result_ret].
    destruct (MessagePart.headers p); eexists; reflexivity. }
  destruct Hhdr as [v Hv]. exists v. split; [exact Hv|].
  unfold Message.sender. rewrite Hv.
  cbv beta iota delta [mbind result_bind mret result_ret].
  destruct v as [[|c v]|]; [reflexivity| |reflexivity].
  unfold Py.DQUOTE.
  destruct (Py.contains (String "034" EmptyString) (String c v)) eqn:Hq.
  - destruct (second_piece _ _ Hq) as (piece & -> & Hin).
    exists piece. split; [reflexivity|]. split; [|discriminate].
    pose proof (split_char_pieces "034" (String c v)) as Hall.
    rewrite Forall_forall in Hall. by apply Hall.
  - destruct (Py.contains "<" (String c v)) eqn:Hlt.
    + destruct (second_piece _ _ Hlt) as (piece & -> & Hin).
      pose proof (split_char_pieces "<" (String c v)) as Hall.
      pose proof (split_char_keeps_out "<" "034" (String c v) Hq) as Hout.
      rewrite Forall_forall in Hall, Hout.
      exists (Py.replace ">" EmptyString piece). split; [reflexivity|].
      rewrite (replace_char_delete ">" piece), !without_char_contains.
      rewrite (Hall piece Hin), (Hout piece Hin). split; [reflexivity|].
      intros _. split; [reflexivity|]. intros _.
      by rewrite Ascii.eqb_refl, andb_false_r.
    + exists (String c v). split; [reflexivity|]. split; [exact Hq|]. intros _.
      split; [exact Hlt | discriminate].
Qed.

Lemma sender_is_total_witness :
  Message.payload (Sample.mail [Sample.header "From" "Jane <jane@example.com> (work)"])
  = Some (Sample.with_headers [Sample.header "From" "Jane <jane@example.com> (work)"]) /\
  exists v, Message.sender_header
              (Sample.mail [Sample.header "From" "Jane <jane@example.com> (work)"]) = Ok v.
Proof.
  split; [reflexivity|].
  destruct (sender_is_total
              (Sample.mail [Sample.header "From" "Jane <jane@example.com> (work)"])
              _ eq_refl) as (v & Hv & _).
  exists v. exact Hv.
Defined.

Section AttachedFiles.
Context `{PyLib}.

(** X20: what [download] does with an attachment a part hands out.  The
    attachment carries the service of the part.  One built from inline
    body data has no id, so [download] returns at once without a request.
    One built from an [attachmentId] has no data yet: [download] sends
    exactly one request for that id and then closes the service, or raises
    [TypeError] without a request when the service knows no message id. *)
Theorem attachments_then_download (svc : GoogleService) (part : MessagePart.t)
        (l : list Attachment.t) (a : Attachment.t) :
  MessagePart.attachments svc part = Ok l ->
  a ∈ l ->
  Attachment.google_service a = svc /\
  match Attachment.id a with
  | None => Attachment.download a = (Ok (), a, [])
  | Some aid =>
      Attachment.data a = None /\
      match message_id svc with
      | Some (String _ _ as mid) =>
          (Attachment.download a).2 = [AttachmentsGet (user_id svc) mid aid; ServiceClose]
      | _ =>
          Attachment.download a
          = (Raise (TypeError "Attachment.google_service.message_id missing"), a, [])
      end
  end.
Proof.
  intros Hl Hin. apply attachments_members in Hl. rewrite Forall_forall in Hl.
  destruct (Hl a Hin) as (child & _ & _ & fname & b & _ & _ & _ & _ & _ & Hsvc & Hid).
  split; [exact Hsvc|]. unfold Attachment.download. rewrite Hsvc.
  destruct (Py.truthy (MessagePartBody.attachmentId b)) eqn:Hb.
  - destruct Hid as [-> ->].
    destruct (MessagePartBody.attachmentId b) as [[|c aid]|]; try discriminate.
    split; [reflexivity|]. cbn [Py.truthy].
    destruct (message_id svc) as [[|m mid]|]; try reflexivity.
    destruct (attachments_get svc (user_id svc) (String m mid) (String c aid)) as [res|e];
      [|reflexivity].
    destruct (Attachment.payload_of res) as [d|]; [|reflexivity].
    by destruct (urlsafe_b64decode d).
  - destruct Hid as [-> _]. reflexivity.
Qed.

End AttachedFiles.

Lemma attachments_then_download_witness :
  exists l,
    MessagePart.attachments Sample.service Sample.with_files = Ok l /\
    Sample.remote_file ∈ l /\
    (@Attachment.download cpython Sample.remote_file).2
    = [AttachmentsGet "me" "msg-1" "att-1"; ServiceClose].
Proof.
  eexists. split; [reflexivity|]. split; [left|].
  exact (proj2 (proj2 (@attachments_then_download cpython Sample.service Sample.with_files
                         _ Sample.remote_file eq_refl (list_elem_of_here _ _)))).
Defined.

(** ** Construction from JSON *)

Lemma resource_ind' (P : MessagePart.resource -> Prop) :
  (forall mime fname pid hs b ps,
      match ps with Some l => Forall P l | None => True end ->
      P (MessagePart.mk_resource mime fname pid hs b ps)) ->
  forall r, P r.
Proof.
  intros step. fix IH 1. intros [mime fname pid hs b [l|]]; apply step; [|exact I].
  induction l as [|x l IHl]; constructor; [apply IH | apply IHl].
Qed.

Lemma part_init_unfold (r : MessagePart.resource) :
  MessagePart.__init__ r =
  (hs ← match MessagePart.r_headers r with
        | Some l => mapM MessageHeader.__init__ l
        | None => Ok []
        end;
   b ← match MessagePart.r_body r with
       | Some b => Some <$> MessagePartBody.__init__ b
       | None => Ok None
       end;
   ps ← match MessagePart.r_parts r with
        | Some l => mapM MessagePart.__init__ l
        | None => Ok []
        end;
   mret (MessagePart.mk (MessagePart.r_mimeType r) hs ps
                        (MessagePart.r_partId r) (MessagePart.r_filename r) b)).
Proof. by destruct r. Qed.

Lemma mapM_init_cons (r : MessagePart.resource) (l : list MessagePart.resource) :
  mapM MessagePart.__init__ (r :: l)
  = (p ← MessagePart.__init__ r; ps ← mapM MessagePart.__init__ l; mret (p :: ps)).
Proof. reflexivity. Qed.

(** The headers of one part: built when each has its name and its value. *)
Lemma headers_init (l : list HeaderResource) :
  if forallb (fun h => bool_decide (is_Some (res_name h) /\ is_Some (res_value h))) l
  then exists hs, mapM MessageHeader.__init__ l = Ok hs
  else exists msg, mapM MessageHeader.__init__ l = Raise (TypeError msg).
Proof.
  induction l as [|[[n|] [v|]] l IH]; [by exists []| | | |];
    cbn [forallb res_name res_value].
  - rewrite bool_decide_eq_true_2 by (split; by eexists). cbn [andb].
    destruct (forallb _ l).
    + destruct IH as (hs & Hhs). exists (MessageHeader.mk n v :: hs).
      change (mapM MessageHeader.__init__ (mk_header_resource (Some n) (Some v) :: l))
        with (hs' ← mapM MessageHeader.__init__ l;
              mret (MessageHeader.mk n v :: hs')).
      by rewrite Hhs.
    + destruct IH as (msg & Hmsg). exists msg.
      change (mapM MessageHeader.__init__ (mk_header_resource (Some n) (Some v) :: l))
        with (hs' ← mapM MessageHeader.__init__ l;
              mret (MessageHeader.mk n v :: hs')).
      by rewrite Hmsg.
  - rewrite bool_decide_eq_false_2 by (intros [_ [? [=]]]). eexists. reflexivity.
  - rewrite bool_decide_eq_false_2 by (intros [[? [=]] _]). eexists. reflexivity.
  - rewrite bool_decide_eq_false_2 by (intros [[? [=]] _]). eexists. reflexivity.
Qed.

(** The body of one part: built when it states its size. *)
Lemma body_init (b : BodyResource) :
  if bool_decide (is_Some (res_size b))
  then exists body, MessagePartBody.__init__ b = Ok body
  else exists msg, MessagePartBody.__init__ b = Raise (TypeError msg).
Proof.
  destruct b as [[n|] aid d]; unfold MessagePartBody.__init__; cbn [res_size].
  - rewrite bool_decide_eq_true_2 by (by eexists). eexists. reflexivity.
  - rewrite bool_decide_eq_false_2 by (intros [? [=]]). eexists. reflexivity.
Qed.

Lemma mapM_init_built (l : list MessagePart.resource) :
  Forall built l ->
  if forallb headed l && forallb sized l
  then exists ps, mapM MessagePart.__init__ l = Ok ps /\
                  list_sum (map part_count ps) = list_sum (map resource_count l)
  else exists msg, mapM MessagePart.__init__ l = Raise (TypeError msg).
Proof.
  induction 1 as [|r l Hr _ IH]; [by exists []|].
  rewrite mapM_init_cons. cbn [forallb]. unfold built in Hr.
  destruct (headed r), (sized r); cbn [andb] in *;
    try (destruct Hr as (msg & ->); destruct (forallb headed l); by exists msg).
  destruct Hr as (p & -> & Hp).
  destruct (forallb headed l), (forallb sized l); cbn [andb] in *;
    try (destruct IH as (msg & ->); by exists msg).
  destruct IH as (ps & -> & Hps). exists (p :: ps). split; [reflexivity|].
  simpl. by rewrite Hp, Hps.
Qed.

Lemma init_built (r : MessagePart.resource) : built r.
Proof.
  induction r as [mime fname pid hs b ps IH] using resource_ind'.
  unfold built. rewrite part_init_unfold. cbn [headed sized resource_count].
  cbn [MessagePart.r_body MessagePart.r_parts MessagePart.r_mimeType
       MessagePart.r_headers MessagePart.r_partId MessagePart.r_filename].
  (* the headers, the body and the parts, in the order the code builds them *)
  assert (Hhs : if match hs with
                   | Some l => forallb (fun h => bool_decide (is_Some (res_name h) /\
                                                              is_Some (res_value h))) l
                   | None => true
                   end
                then exists hs', match hs with
                                 | Some l => mapM MessageHeader.__init__ l
                                 | None => Ok []
                                 end = Ok hs'
                else exists msg, match hs with
                                 | Some l => mapM MessageHeader.__init__ l
                                 | None => Ok []
                                 end = Raise (TypeError msg)).
  { destruct hs as [l|]; [apply headers_init | by exists []]. }
  assert (Hb : if match b with
                  | Some b => bool_decide (is_Some (res_size b))
                  | None => true
                  end
               then exists b', match b with
                               | Some b => Some <$> MessagePartBody.__init__ b
                               | None => Ok None
                               end = Ok b'
               else exists msg, match b with
                                | Some b => Some <$> MessagePartBody.__init__ b
                                | None => Ok None
                                end = Raise (TypeError msg)).
  { destruct b as [b|]; [|by exists None]. pose proof (body_init b) as Hb.
    destruct (bool_decide (is_Some (res_size b))).
    - destruct Hb as (body & ->). by exists (Some body).
    - destruct Hb as (msg & ->). by exists msg. }
  assert (Hps : if match ps with Some l => forallb headed l | None => true end &&
                   match ps with Some l => forallb sized l | None => true end
                then exists ps', match ps with
                                 | Some l => mapM MessagePart.__init__ l
                                 | None => Ok []
                                 end = Ok ps' /\
                                 list_sum (map part_count ps')
                                 = match ps with
                                   | Some l => list_sum (map resource_count l)
                                   | None => 0
                                   end
                else exists msg, match ps with
                                 | Some l => mapM MessagePart.__init__ l
                                 | None => Ok []
                                 end = Raise (TypeError msg)).
  { destruct ps as [l|]; [by apply mapM_init_built | by exists []]. }
  destruct (match hs with Some l => forallb _ l | None => true end).
  - destruct Hhs as (hs' & ->).
    destruct (match b with Some b => bool_decide _ | None => true end).
    + destruct Hb as (b' & ->).
      destruct (match ps with Some l => forallb headed l | None => true end),
               (match ps with Some l => forallb sized l | None => true end);
        cbn [andb] in *;
        try (destruct Hps as (msg & ->); by exists msg).
      destruct Hps as (ps' & -> & Hcount).
      eexists. split; [reflexivity|]. simpl. by rewrite Hcount.
    + destruct Hb as (msg & ->). rewrite andb_false_r. by exists msg.
  - destruct Hhs as (msg & ->). by exists msg.
Qed.

(** X21: for JSON whose headers and bodies hold no key besides those of
    the API, the constructor of a part succeeds exactly when every header
    of the JSON tree states its name and its value and every body states
    its size: it then builds a tree with one part per node of the JSON,
    and the message around it holds that tree and the label list of the
    JSON.  A header without a name or a value, or a body without a size,
    anywhere in the tree makes the construction of the whole tree, and of
    the message around it, raise [TypeError]. *)
Theorem construction_needs_required_fields (svc : GoogleService)
        (r : MessagePart.resource) (kwargs : Message.resource) :
  Message.r_payload kwargs = Some r ->
  (headed r = true -> sized r = true ->
   exists p,
     MessagePart.__init__ r = Ok p /\ part_count p = resource_count r /\
     exists m, Message.__init__ svc kwargs = Ok m /\ Message.payload m = Some p /\
               Message.labelIds m = Message.r_labelIds kwargs) /\
  (headed r = false \/ sized r = false ->
   exists msg, MessagePart.__init__ r = Raise (TypeError msg) /\
               Message.__init__ svc kwargs = Raise (TypeError msg)).
Proof.
  intros Hr. pose proof (init_built r) as Hbuilt. unfold built in Hbuilt.
  unfold Message.__init__. rewrite Hr. split.
  - intros Hh Hs. rewrite Hh, Hs in Hbuilt.
    destruct Hbuilt as (p & Hp & Hcount). exists p. split; [exact Hp|].
    split; [exact Hcount|]. rewrite Hp. eexists. split; [reflexivity|]. by split.
  - intros Hno.
    assert (Hcond : headed r && sized r = false).
    { destruct Hno as [-> | ->]; [reflexivity | apply andb_false_r]. }
    rewrite Hcond in Hbuilt.
    destruct Hbuilt as (msg & Hmsg). exists msg. split; [exact Hmsg|]. by rewrite Hmsg.
Qed.

(** The message without labels is built; a part with a header that has no
    name is not, and neither is the message around it. *)
Lemma construction_needs_required_fields_witness :
  Message.r_payload Sample.unlabelled
  = Some (MessagePart.mk_resource (Some "text/plain") None None None None None) /\
  headed (MessagePart.mk_resource (Some "text/plain") None None None None None) = true /\
  sized (MessagePart.mk_resource (Some "text/plain") None None None None None) = true /\
  (exists m, Message.__init__ Sample.service Sample.unlabelled = Ok m /\
             Message.labelIds m = None) /\
  headed Sample.nameless_header = false /\
  exists msg,
    MessagePart.__init__ Sample.nameless_header = Raise (TypeError msg) /\
    Message.__init__ Sample.service
      (Message.mk_resource (Some "msg-2") None None None None None None None
                           (Some Sample.nameless_header))
    = Raise (TypeError msg).
Proof.
  split; [reflexivity|]. split; [reflexivity|]. split; [reflexivity|].
  destruct (construction_needs_required_fields Sample.service _ Sample.unlabelled eq_refl)
    as [Hok _].
  destruct (Hok eq_refl eq_refl) as (p & _ & _ & m & Hm & _ & Hlabels).
  split; [exists m; split; [exact Hm | exact Hlabels]|].
  split; [reflexivity|].
  destruct (construction_needs_required_fields Sample.service Sample.nameless_header
              (Message.mk_resource (Some "msg-2") None None None None None None None
                                   (Some Sample.nameless_header)) eq_refl)
    as [_ Hfail].
  exact (Hfail (or_introl eq_refl)).
Defined.

Lemma mapM_headers_round_trip (hs : list MessageHeader.t) :
  mapM MessageHeader.__init__
       (map (fun h => mk_header_resource (Some (MessageHeader.name h))
                                         (Some (MessageHeader.value h))) hs)
  = Ok hs.
Proof.
  induction hs as [|[n v] hs IH]; [reflexivity|].
  change (mapM MessageHeader.__init__
            (map (fun h => mk_header_resource (Some (MessageHeader.name h))
                                              (Some (MessageHeader.value h)))
                 (MessageHeader.mk n v :: hs)))
    with (hs' ← mapM MessageHeader.__init__
                  (map (fun h => mk_header_resource (Some (MessageHeader.name h))
                                                    (Some (MessageHeader.value h))) hs);
          mret (MessageHeader.mk n v :: hs')).
  by rewrite IH.
Qed.

Lemma mapM_init_round_trip (ps : list MessagePart.t) :
  Forall (fun p => MessagePart.__init__ (to_resource p) = Ok p) ps ->
  mapM MessagePart.__init__ (map to_resource ps) = Ok ps.
Proof.
  induction 1 as [|p ps Hp _ IH]; [reflexivity|].
  cbn [map]. rewrite mapM_init_cons, Hp. simpl. by rewrite IH.
Qed.

(** X22: building a part from JSON loses nothing: every part tree is what
    the constructor makes of the JSON that spells it out ([to_resource]),
    with the mimeType, file name, part id, headers, body and the parts in
    their order. *)
Theorem construction_round_trip (part : MessagePart.t) :
  MessagePart.__init__ (to_resource part) = Ok part /\
  sized (to_resource part) = true /\
  headed (to_resource part) = true.
Proof.
  induction part as [mime hs ps pid fname b IH] using part_ind. split; [|split].
  - rewrite part_init_unfold. cbn [to_resource].
    cbn [MessagePart.r_body MessagePart.r_parts MessagePart.r_mimeType
         MessagePart.r_headers MessagePart.r_partId MessagePart.r_filename
         MessagePart.mimeType MessagePart.headers MessagePart.parts MessagePart.partId
         MessagePart.filename MessagePart.body].
    rewrite mapM_headers_round_trip, mapM_init_round_trip.
    + by destruct b as [[n aid d]|].
    + eapply Forall_impl; [exact IH|]. by intros p [Hp _].
  - cbn [to_resource sized MessagePart.r_body MessagePart.r_parts MessagePart.body
         MessagePart.parts].
    apply andb_true_intro. split.
    + by destruct b as [[n aid d]|].
    + apply forallb_forall. intros r Hin. apply in_map_iff in Hin as (p & <- & Hin).
      rewrite Forall_forall in IH. apply IH. by apply list_elem_of_In.
  - cbn [to_resource headed MessagePart.r_headers MessagePart.r_parts MessagePart.headers
         MessagePart.parts].
    apply andb_true_intro. split.
    + apply forallb_forall. intros h Hin. apply in_map_iff in Hin as (h' & <- & _).
      apply bool_decide_eq_true_2. split; by eexists.
    + apply forallb_forall. intros r Hin. apply in_map_iff in Hin as (p & <- & Hin).
      rewrite Forall_forall in IH. apply IH. by apply list_elem_of_In.
Qed.

(** ** Edits handed the label list itself *)

Lemma over_own_enough (step : string -> list string -> list string) :
  (forall label l, label ∈ l -> length (step label l) <= length l) ->
  forall fuel l,
    length l <= fuel ->
    Message.over_own step fuel 0 l = Message.over_own step (length l) 0 l.
Proof.
  intros Hstep. induction fuel as [|fuel IH]; intros l Hlen.
  - by replace (length l) with 0 by lia.
  - destruct (decide (length l = S fuel)) as [->|Hne]; [done|].
    rewrite (over_own_fuel step Hstep) by lia. apply IH. lia.
Qed.

Lemma length_add_one (label : string) (l : list string) :
  label ∈ l -> length (Message.add_one label l) <= length l.
Proof. intros Hin. by rewrite add_one_present. Qed.

Lemma length_remove_one (label : string) (l : list string) :
  label ∈ l -> length (Message.remove_one label l) <= length l.
Proof.
  intros Hin. rewrite remove_one_present by done.
  pose proof (length_list_remove label l Hin). lia.
Qed.

Lemma list_remove_middle (x : string) (pre rest : list string) :
  x ∉ pre -> Message.list_remove x (pre ++ x :: rest) = pre ++ rest.
Proof.
  induction pre as [|y pre IH]; intros Hout; simpl.
  - by rewrite bool_decide_eq_true_2.
  - apply not_elem_of_cons in Hout as [Hne Hout].
    rewrite bool_decide_eq_false_2 by done. by rewrite IH.
Qed.

(** The removing loop over the label list itself, [i] items into a list
    without duplicates: of the items from [i] on, every other one stays. *)
Lemma over_own_remove_odds (fuel : nat) (pre rest : list string) :
  NoDup (pre ++ rest) ->
  length rest <= fuel ->
  Message.over_own Message.remove_one fuel (length pre) (pre ++ rest) = pre ++ odds rest.
Proof.
  revert pre rest. induction fuel as [|fuel IH]; intros pre rest Hnd Hlen.
  - destruct rest; [done | simpl in Hlen; lia].
  - destruct rest as [|x rest].
    { simpl. rewrite app_nil_r. by rewrite lookup_ge_None_2. }
    cbn [Message.over_own].
    rewrite lookup_app_r, Nat.sub_diag by done. cbn [lookup list_lookup].
    apply NoDup_app in Hnd as (Hpre & Hdisj & Hrest).
    apply NoDup_cons in Hrest as [Hx Hrest].
    assert (Hout : x ∉ pre) by (intros Hin; apply (Hdisj x Hin); left).
    rewrite remove_one_present by (apply elem_of_app; right; left).
    rewrite list_remove_middle by done.
    destruct rest as [|y rest].
    { cbn [odds]. rewrite app_nil_r. destruct fuel; [done|]. simpl.
      by rewrite lookup_ge_None_2 by lia. }
    cbn [odds].
    replace (pre ++ y :: rest) with ((pre ++ [y]) ++ rest) by (by rewrite <- app_assoc).
    replace (S (length pre)) with (length (pre ++ [y])) by (rewrite length_app; simpl; lia).
    rewrite IH.
    + by rewrite <- app_assoc.
    + apply NoDup_cons in Hrest as [Hy Hrest]. rewrite <- app_assoc. simpl.
      apply NoDup_app. split; [done|]. split; [|by constructor].
      intros z Hz Hz'. apply (Hdisj z Hz). by right.
    + simpl in Hlen. lia.
Qed.

(** X23: an edit handed the very list object the message holds as
    [labelIds] walks through the list it changes.  With every request
    accepted, on a message whose label list is [l]: [add_labels] with that
    list sends its request and leaves the message as it is;
    [remove_labels] with that list, when it names no label twice, does not
    empty it: the iterator skips the label that moves into the place of
    the one just removed, so the labels at the odd positions stay; so does
    [modify_labels] with an empty list of its own to add and the label
    list to remove.  Each loop is over within as many rounds as the list
    has items: more rounds change nothing. *)
Theorem edits_with_the_label_list_itself (l : list string) (self : Message.t) :
  accepting (Message.google_service self) ->
  Message.labelIds self = Some l ->
  (forall fuel,
      length l <= fuel ->
      Message.over_own Message.add_one fuel 0 l
      = Message.over_own Message.add_one (length l) 0 l /\
      Message.over_own Message.remove_one fuel 0 l
      = Message.over_own Message.remove_one (length l) 0 l) /\
  Message.add_labels Message.OwnList self
  = (Ok true, self,
     [MessagesModify (user_id (Message.google_service self)) (Message.id self)
                     (mk_modify None (Some l)); ServiceClose]) /\
  (NoDup l ->
   Message.remove_labels Message.OwnList self
   = (Ok true, Message.set_labelIds (Some (odds l)) self,
      [MessagesModify (user_id (Message.google_service self)) (Message.id self)
                      (mk_modify (Some l) None); ServiceClose]) /\
   Message.modify_labels (Some (Message.ListOf [])) (Some Message.OwnList) self
   = (Ok true, Message.set_labelIds (Some (odds l)) self,
      [MessagesModify (user_id (Message.google_service self)) (Message.id self)
                      (mk_modify (Some l) (Some [])); ServiceClose])).
Proof.
  intros Hacc Hl. split; [|split].
  - intros fuel Hfuel. split.
    + by apply (over_own_enough _ length_add_one).
    + by apply (over_own_enough _ length_remove_one).
  - unfold Message.add_labels.
    rewrite (edit_labels_accepted ADD _ _ (mk_modify None (Some l)));
      [|done | by rewrite Hl].
    rewrite Hl. simpl. rewrite over_own_add. by rewrite <- Hl, set_labelIds_same.
  - intros Hnd.
    pose proof (over_own_remove_odds (length l) [] l Hnd (le_n _)) as Hodds.
    simpl in Hodds. split.
    + unfold Message.remove_labels.
      rewrite (edit_labels_accepted REMOVE _ _ (mk_modify (Some l) None));
        [|done | by rewrite Hl].
      rewrite Hl. simpl. by rewrite Hodds.
    + unfold Message.modify_labels.
      rewrite (edit_labels_accepted TOGGLE _ _ (mk_modify (Some l) (Some [])));
        [|done | by rewrite Hl].
      rewrite Hl. simpl. by rewrite Hodds.
Qed.

Lemma edits_with_the_label_list_itself_witness :
  accepting (Message.google_service Sample.starred) /\
  Message.labelIds Sample.starred = Some ["INBOX"; "STARRED"; "UNREAD"] /\
  NoDup ["INBOX"; "STARRED"; "UNREAD"] /\
  after (Message.remove_labels Message.OwnList Sample.starred)
  = Message.set_labelIds (Some ["STARRED"]) Sample.starred /\
  after (Message.add_labels Message.OwnList Sample.starred) = Sample.starred.
Proof.
  assert (Hnd : NoDup ["INBOX"; "STARRED"; "UNREAD"]).
  { apply NoDup_ListNoDup. repeat constructor; simpl; intros H;
      repeat destruct H as [H|H]; discriminate H || done. }
  assert (Hacc : accepting (Message.google_service Sample.starred))
    by (intros ???; reflexivity).
  split; [exact Hacc|]. split; [reflexivity|]. split; [exact Hnd|].
  destruct (edits_with_the_label_list_itself _ Sample.starred Hacc eq_refl)
    as (_ & Hadd & Hremove).
  destruct (Hremove Hnd) as [Hrem _].
  split; [by rewrite Hrem | by rewrite Hadd].
Defined.
